(** * DeepStream Services Library: container nodes, the Tiler's show-source
      state machine, the minimalist Player and the pipeline services

    A shallow embedding of the C++ sources
      - DslBintr.h                 (class [Bintr]),
      - DslTilerBintr.cpp          (class [TilerBintr]),
      - DslPlayerBintr.cpp         (class [PlayerBintr]),
      - DslPipelineSourcesBintr.h  (class [PipelineSourcesBintr]),
      - DslServicesPipeline.cpp    (class [Services], pipeline services),
    followed by the properties established about them.

    Conventions.  A C++ [uint] is a [Z] kept in [0, 2^32), with the
    wrap-around written out ([to_uint]); an [int] is a [Z] in
    [-2^31, 2^31).  A [double] is a primitive binary64 float.  A member
    function becomes a function from the object (and the part of the outside
    world it touches) to its result and the updated object.  A call into
    GStreamer, or into a class whose implementation is not among the
    embedded sources, takes its outcome from an explicit argument. *)

From Stdlib Require Import ZArith Bool List Lia.
From Stdlib Require Import Floats.
From stdpp Require Import base gmap strings list.

Local Open Scope Z_scope.

(** ** Machine integers *)

Definition UINT_MODULUS : Z := 2 ^ 32.

(** Conversion to [unsigned int]: reduction modulo 2^32. *)
Definition to_uint (z : Z) : Z := z mod UINT_MODULUS.

(** Conversion of an [unsigned int] value to [int] (two's complement). *)
Definition to_int (z : Z) : Z :=
  let u := z mod UINT_MODULUS in
  if u <? 2 ^ 31 then u else u - UINT_MODULUS.

(** ** The GLib main context, as far as timers are concerned

    [g_timeout_add] attaches a recurring timeout source to the main context
    and returns its id, which is greater than zero; [g_source_remove]
    detaches the source with the given id; a source whose callback returns
    [false] is detached by the loop itself. *)

Module GLib.

Inductive GSourceFunc : Set :=
| ShowSourceTimerHandler
| NotifyClientsTimerHandler
| PlayerPause
| PlayerStop.

Record GSource : Set := mkGSource {
  source_id : Z;
  interval_ms : Z;
  callback : GSourceFunc
}.

Record GMainContext : Set := mkGMainContext {
  next_source_id : positive;
  sources : list GSource
}.

Definition g_timeout_add (interval : Z) (f : GSourceFunc) (ctx : GMainContext)
  : Z * GMainContext :=
  let id := Z.pos (next_source_id ctx) in
  (id, {| next_source_id := Pos.succ (next_source_id ctx);
          sources := sources ctx ++ [mkGSource id interval f] |}).

Definition detach (id : Z) (l : list GSource) : list GSource :=
  List.filter (fun s => negb (source_id s =? id)) l.

Definition g_source_remove (id : Z) (ctx : GMainContext) : GMainContext :=
  {| next_source_id := next_source_id ctx;
     sources := detach id (sources ctx) |}.

(** Is a source with this id attached? *)
Definition attached (id : Z) (ctx : GMainContext) : bool :=
  existsb (fun s => source_id s =? id) (sources ctx).

End GLib.

(** ** class Bintr (DslBintr.h) *)

Module Bintr.

(** The data members of [Bintr] that the embedded member functions read or
    write.  [in_use] stands for what [IsInUse()], inherited from
    [GstNodetr], reports (DslNodetr.h is not among the embedded sources);
    nothing is assumed about how it relates to [m_isLinked]. *)
Record t : Set := mk {
  in_use : bool;
  m_pipelineId : Z;
  m_isLinked : bool;
  m_batchSize : Z;
  m_gpuId : Z;
  m_nvbufMemType : Z
}.

Definition IsLinked (b : t) : bool := m_isLinked b.
Definition IsInUse (b : t) : bool := in_use b.

Definition set_isLinked (v : bool) (b : t) : t :=
  mk (in_use b) (m_pipelineId b) v (m_batchSize b) (m_gpuId b) (m_nvbufMemType b).

Definition set_pipelineId (v : Z) (b : t) : t :=
  mk (in_use b) v (m_isLinked b) (m_batchSize b) (m_gpuId b) (m_nvbufMemType b).

Definition set_batchSize (v : Z) (b : t) : t :=
  mk (in_use b) (m_pipelineId b) (m_isLinked b) v (m_gpuId b) (m_nvbufMemType b).

Definition set_gpuId (v : Z) (b : t) : t :=
  mk (in_use b) (m_pipelineId b) (m_isLinked b) (m_batchSize b) v (m_nvbufMemType b).

Definition set_nvbufMemType (v : Z) (b : t) : t :=
  mk (in_use b) (m_pipelineId b) (m_isLinked b) (m_batchSize b) (m_gpuId b) v.

Definition GetGpuId (b : t) : Z := m_gpuId b.
Definition GetNvbufMemType (b : t) : Z := m_nvbufMemType b.
Definition GetBatchSize (b : t) : Z := m_batchSize b.

(** [virtual void SetPipelineId(uint pipelineId)] *)
Definition SetPipelineId (pipelineId : Z) (b : t) : t :=
  set_pipelineId pipelineId b.

(** [virtual bool SetBatchSize(uint batchSize)] *)
Definition SetBatchSize (batchSize : Z) (b : t) : bool * t :=
  (true, set_batchSize batchSize b).

(** [virtual bool SetGpuId(uint gpuId)] *)
Definition SetGpuId (gpuId : Z) (b : t) : bool * t :=
  if IsLinked b then (false, b)
  else (true, set_gpuId gpuId b).

(** [virtual bool SetNvbufMemType(uint nvbufMemType)] *)
Definition SetNvbufMemType (nvbufMemType : Z) (b : t) : bool * t :=
  if IsInUse b then (false, b)
  else (true, set_nvbufMemType nvbufMemType b).

(** [m_linkMethod], the one further data member used below; it is declared
    [bool], while [SetLinkMethod] takes and [GetLinkMethod] returns a
    [uint]. *)
Record linkage : Set := mkLinkage {
  m_linkMethod : bool
}.

(** [void SetLinkMethod(uint linkMethod)]: the [uint] is converted to [bool]. *)
Definition SetLinkMethod (linkMethod : Z) (l : linkage) : linkage :=
  mkLinkage (negb (linkMethod =? 0)).

(** [uint GetLinkMethod()]: the [bool] is converted to [uint]. *)
Definition GetLinkMethod (l : linkage) : Z :=
  if m_linkMethod l then 1 else 0.

(** C7, as the spec words it: on a node that is linked or otherwise in use,
    both setters return [false] and change nothing. *)
Definition settersAsWorded (b : t) (gpuId nvbufMemType : Z) : Prop :=
  IsLinked b = true \/ IsInUse b = true ->
  SetGpuId gpuId b = (false, b)
  /\ SetNvbufMemType nvbufMemType b = (false, b).

End Bintr.

(** ** class TilerBintr (DslTilerBintr.cpp) *)

Module Tiler.

(** [bintr] is the base-class part.  [m_pTiler] is the nvmultistreamtiler
    element, seen as the map of the attributes written with [SetAttribute].
    Listener callbacks and their client data are addresses.  The timeout,
    the counter and the timer ids are [uint] members, the shown stream id
    an [int]. *)
Record TilerBintr : Type := mkTiler {
  bintr : Bintr.t;
  m_pTiler : gmap string Z;
  m_width : Z;
  m_height : Z;
  m_rows : Z;
  m_columns : Z;
  m_frameNumberingEnabled : bool;
  m_wstrSourceName : string;
  m_showSourceListeners : gmap Z Z;
  m_notifyClientsTimerId : Z;
  m_showStreamId : Z;
  m_showSourceTimeout : Z;
  m_showSourceCounter : Z;
  m_showSourceTimerId : Z;
  m_showSourceCycle : bool
}.

Definition set_bintr (v : Bintr.t) (t : TilerBintr) : TilerBintr :=
  mkTiler v (m_pTiler t) (m_width t) (m_height t) (m_rows t) (m_columns t)
    (m_frameNumberingEnabled t) (m_wstrSourceName t) (m_showSourceListeners t)
    (m_notifyClientsTimerId t) (m_showStreamId t) (m_showSourceTimeout t)
    (m_showSourceCounter t) (m_showSourceTimerId t) (m_showSourceCycle t).

Definition set_pTiler (v : gmap string Z) (t : TilerBintr) : TilerBintr :=
  mkTiler (bintr t) v (m_width t) (m_height t) (m_rows t) (m_columns t)
    (m_frameNumberingEnabled t) (m_wstrSourceName t) (m_showSourceListeners t)
    (m_notifyClientsTimerId t) (m_showStreamId t) (m_showSourceTimeout t)
    (m_showSourceCounter t) (m_showSourceTimerId t) (m_showSourceCycle t).

Definition set_width (v : Z) (t : TilerBintr) : TilerBintr :=
  mkTiler (bintr t) (m_pTiler t) v (m_height t) (m_rows t) (m_columns t)
    (m_frameNumberingEnabled t) (m_wstrSourceName t) (m_showSourceListeners t)
    (m_notifyClientsTimerId t) (m_showStreamId t) (m_showSourceTimeout t)
    (m_showSourceCounter t) (m_showSourceTimerId t) (m_showSourceCycle t).

Definition set_height (v : Z) (t : TilerBintr) : TilerBintr :=
  mkTiler (bintr t) (m_pTiler t) (m_width t) v (m_rows t) (m_columns t)
    (m_frameNumberingEnabled t) (m_wstrSourceName t) (m_showSourceListeners t)
    (m_notifyClientsTimerId t) (m_showStreamId t) (m_showSourceTimeout t)
    (m_showSourceCounter t) (m_showSourceTimerId t) (m_showSourceCycle t).

Definition set_rows (v : Z) (t : TilerBintr) : TilerBintr :=
  mkTiler (bintr t) (m_pTiler t) (m_width t) (m_height t) v (m_columns t)
    (m_frameNumberingEnabled t) (m_wstrSourceName t) (m_showSourceListeners t)
    (m_notifyClientsTimerId t) (m_showStreamId t) (m_showSourceTimeout t)
    (m_showSourceCounter t) (m_showSourceTimerId t) (m_showSourceCycle t).

Definition set_columns (v : Z) (t : TilerBintr) : TilerBintr :=
  mkTiler (bintr t) (m_pTiler t) (m_width t) (m_height t) (m_rows t) v
    (m_frameNumberingEnabled t) (m_wstrSourceName t) (m_showSourceListeners t)
    (m_notifyClientsTimerId t) (m_showStreamId t) (m_showSourceTimeout t)
    (m_showSourceCounter t) (m_showSourceTimerId t) (m_showSourceCycle t).

Definition set_frameNumberingEnabled (v : bool) (t : TilerBintr) : TilerBintr :=
  mkTiler (bintr t) (m_pTiler t) (m_width t) (m_height t) (m_rows t)
    (m_columns t) v (m_wstrSourceName t) (m_showSourceListeners t)
    (m_notifyClientsTimerId t) (m_showStreamId t) (m_showSourceTimeout t)
    (m_showSourceCounter t) (m_showSourceTimerId t) (m_showSourceCycle t).

Definition set_wstrSourceName (v : string) (t : TilerBintr) : TilerBintr :=
  mkTiler (bintr t) (m_pTiler t) (m_width t) (m_height t) (m_rows t)
    (m_columns t) (m_frameNumberingEnabled t) v (m_showSourceListeners t)
    (m_notifyClientsTimerId t) (m_showStreamId t) (m_showSourceTimeout t)
    (m_showSourceCounter t) (m_showSourceTimerId t) (m_showSourceCycle t).

Definition set_showSourceListeners (v : gmap Z Z) (t : TilerBintr) : TilerBintr :=
  mkTiler (bintr t) (m_pTiler t) (m_width t) (m_height t) (m_rows t)
    (m_columns t) (m_frameNumberingEnabled t) (m_wstrSourceName t) v
    (m_notifyClientsTimerId t) (m_showStreamId t) (m_showSourceTimeout t)
    (m_showSourceCounter t) (m_showSourceTimerId t) (m_showSourceCycle t).

Definition set_notifyClientsTimerId (v : Z) (t : TilerBintr) : TilerBintr :=
  mkTiler (bintr t) (m_pTiler t) (m_width t) (m_height t) (m_rows t)
    (m_columns t) (m_frameNumberingEnabled t) (m_wstrSourceName t)
    (m_showSourceListeners t) v (m_showStreamId t) (m_showSourceTimeout t)
    (m_showSourceCounter t) (m_showSourceTimerId t) (m_showSourceCycle t).

Definition set_showStreamId (v : Z) (t : TilerBintr) : TilerBintr :=
  mkTiler (bintr t) (m_pTiler t) (m_width t) (m_height t) (m_rows t)
    (m_columns t) (m_frameNumberingEnabled t) (m_wstrSourceName t)
    (m_showSourceListeners t) (m_notifyClientsTimerId t) v
    (m_showSourceTimeout t) (m_showSourceCounter t) (m_showSourceTimerId t)
    (m_showSourceCycle t).

Definition set_showSourceTimeout (v : Z) (t : TilerBintr) : TilerBintr :=
  mkTiler (bintr t) (m_pTiler t) (m_width t) (m_height t) (m_rows t)
    (m_columns t) (m_frameNumberingEnabled t) (m_wstrSourceName t)
    (m_showSourceListeners t) (m_notifyClientsTimerId t) (m_showStreamId t) v
    (m_showSourceCounter t) (m_showSourceTimerId t) (m_showSourceCycle t).

Definition set_showSourceCounter (v : Z) (t : TilerBintr) : TilerBintr :=
  mkTiler (bintr t) (m_pTiler t) (m_width t) (m_height t) (m_rows t)
    (m_columns t) (m_frameNumberingEnabled t) (m_wstrSourceName t)
    (m_showSourceListeners t) (m_notifyClientsTimerId t) (m_showStreamId t)
    (m_showSourceTimeout t) v (m_showSourceTimerId t) (m_showSourceCycle t).

Definition set_showSourceTimerId (v : Z) (t : TilerBintr) : TilerBintr :=
  mkTiler (bintr t) (m_pTiler t) (m_width t) (m_height t) (m_rows t)
    (m_columns t) (m_frameNumberingEnabled t) (m_wstrSourceName t)
    (m_showSourceListeners t) (m_notifyClientsTimerId t) (m_showStreamId t)
    (m_showSourceTimeout t) (m_showSourceCounter t) v (m_showSourceCycle t).

Definition set_showSourceCycle (v : bool) (t : TilerBintr) : TilerBintr :=
  mkTiler (bintr t) (m_pTiler t) (m_width t) (m_height t) (m_rows t)
    (m_columns t) (m_frameNumberingEnabled t) (m_wstrSourceName t)
    (m_showSourceListeners t) (m_notifyClientsTimerId t) (m_showStreamId t)
    (m_showSourceTimeout t) (m_showSourceCounter t) (m_showSourceTimerId t) v.

(** [m_pTiler->SetAttribute(name, value)] *)
Definition SetAttribute (name : string) (v : Z) (t : TilerBintr) : TilerBintr :=
  set_pTiler (<[name := v]> (m_pTiler t)) t.

(** A Tiler together with the main context its timers are attached to. *)
Record World : Type := mkWorld {
  tiler : TilerBintr;
  loop : GLib.GMainContext
}.

Definition on_tiler (f : TilerBintr -> TilerBintr) (w : World) : World :=
  mkWorld (f (tiler w)) (loop w).

Definition IsLinked (t : TilerBintr) : bool := Bintr.IsLinked (bintr t).

(** The show-source timer is added with a period of 100 ms and the counter
    is the timeout in seconds times 10. *)
Definition TICK_PERIOD_MS : Z := 100.
Definition TICKS_PER_SECOND : Z := 10.

(** [bool TilerBintr::LinkAll()].  Linking the queue to the tiler element and
    resetting the frame-number adder touch no member of the Tiler. *)
Definition LinkAll (t : TilerBintr) : bool * TilerBintr :=
  if Bintr.m_isLinked (bintr t) then (false, t)
  else (true, set_bintr (Bintr.set_isLinked true (bintr t)) t).

(** [void TilerBintr::UnlinkAll()] *)
Definition UnlinkAll (t : TilerBintr) : TilerBintr :=
  if negb (Bintr.m_isLinked (bintr t)) then t
  else set_bintr (Bintr.set_isLinked false (bintr t)) t.

(** [bool TilerBintr::SetTiles(uint columns, uint rows)] *)
Definition SetTiles (columns rows : Z) (t : TilerBintr) : bool * TilerBintr :=
  let t := set_columns columns t in
  let t := set_rows rows t in
  let t := SetAttribute "columns" columns t in
  let t := SetAttribute "rows" (m_rows t) t in
  (true, t).

(** [bool TilerBintr::SetDimensions(uint width, uint height)] *)
Definition SetDimensions (width height : Z) (t : TilerBintr) : bool * TilerBintr :=
  let t := set_width width t in
  let t := set_height height t in
  let t := SetAttribute "width" (m_width t) t in
  let t := SetAttribute "height" (m_height t) t in
  (true, t).

(** [bool TilerBintr::SetFrameNumberingEnabled(bool enabled)]; [pph] is
    what adding or removing the pad probe handler returns. *)
Definition SetFrameNumberingEnabled (enabled pph : bool) (t : TilerBintr)
  : bool * TilerBintr :=
  if m_frameNumberingEnabled t && enabled then (false, t)
  else if negb (m_frameNumberingEnabled t) && negb enabled then (false, t)
  else (pph, set_frameNumberingEnabled enabled t).

(** [void TilerBintr::GetShowSource(int* streamId, uint* timeout)] *)
Definition GetShowSource (t : TilerBintr) : Z * Z :=
  (m_showStreamId t, m_showSourceTimeout t).

(** [bool TilerBintr::AddShowSourceListener(listener, clientData)] *)
Definition AddShowSourceListener (listener clientData : Z) (t : TilerBintr)
  : bool * TilerBintr :=
  match m_showSourceListeners t !! listener with
  | Some _ => (false, t)
  | None =>
      (true, set_showSourceListeners
               (<[listener := clientData]> (m_showSourceListeners t)) t)
  end.

(** [bool TilerBintr::RemoveShowSourceListener(listener)] *)
Definition RemoveShowSourceListener (listener : Z) (t : TilerBintr)
  : bool * TilerBintr :=
  match m_showSourceListeners t !! listener with
  | None => (false, t)
  | Some _ =>
      (true, set_showSourceListeners
               (delete listener (m_showSourceListeners t)) t)
  end.

(** [bool TilerBintr::SetGpuId(uint gpuId)] *)
Definition SetGpuId (gpuId : Z) (t : TilerBintr) : bool * TilerBintr :=
  if Bintr.m_isLinked (bintr t) then (false, t)
  else
    let t := set_bintr (Bintr.set_gpuId gpuId (bintr t)) t in
    (true, SetAttribute "gpu-id" (Bintr.m_gpuId (bintr t)) t).

(** [bool TilerBintr::SetNvbufMemType(uint nvbufMemType)] *)
Definition SetNvbufMemType (nvbufMemType : Z) (t : TilerBintr) : bool * TilerBintr :=
  if Bintr.m_isLinked (bintr t) then (false, t)
  else
    let t := set_bintr (Bintr.set_nvbufMemType nvbufMemType (bintr t)) t in
    (true, SetAttribute "nvbuf-memory-type" (Bintr.m_nvbufMemType (bintr t)) t).

(** [int TilerBintr::HandleNotifiyClients()]: every listener is called inside
    its own try/catch, then the timer id is cleared and [false] returned so
    that the one-shot timer is destroyed. *)
Definition HandleNotifiyClients (w : World) : bool * World :=
  (false, on_tiler (set_notifyClientsTimerId 0) w).

(** [bool TilerBintr::GetFrameNumberingEnabled()] *)
Definition GetFrameNumberingEnabled (t : TilerBintr) : bool :=
  m_frameNumberingEnabled t.

(** [void TilerBintr::GetTiles(uint* columns, uint* rows)] *)
Definition GetTiles (t : TilerBintr) : Z * Z := (m_columns t, m_rows t).

(** [m_pTiler->GetAttribute(name, &member)]: the member is written when the
    element has the property and left alone otherwise. *)
Definition GetAttribute (name : string) (store : Z -> TilerBintr -> TilerBintr)
    (t : TilerBintr) : TilerBintr :=
  match m_pTiler t !! name with
  | Some v => store v t
  | None => t
  end.

(** [void TilerBintr::GetDimensions(uint* width, uint* height)]: the two
    members are read back from the element first. *)
Definition GetDimensions (t : TilerBintr) : Z * Z * TilerBintr :=
  let t := GetAttribute "width" set_width t in
  let t := GetAttribute "height" set_height t in
  (m_width t, m_height t, t).

(** [TilerBintr::~TilerBintr()]: the main context the destroyed Tiler
    leaves behind.  The destructor unlinks a linked Tiler and removes the
    two timers whose handles the Tiler holds. *)
Definition destructor (w : World) : GLib.GMainContext :=
  let w := if IsLinked (tiler w) then on_tiler UnlinkAll w else w in
  let l := loop w in
  let l :=
    if negb (m_notifyClientsTimerId (tiler w) =? 0)
    then GLib.g_source_remove (m_notifyClientsTimerId (tiler w)) l
    else l in
  if negb (m_showSourceTimerId (tiler w) =? 0)
  then GLib.g_source_remove (m_showSourceTimerId (tiler w)) l
  else l.

(** The calls of the loop of [HandleNotifiyClients], one per listener:
    the callback, then the source name, the stream id and the client data
    it is passed (the Tiler's own name, a constant, is left out). *)
Definition notifyCalls (w : World) : list (Z * (string * Z * Z)) :=
  List.map (fun '(listener, clientData) =>
              (listener,
               (m_wstrSourceName (tiler w), m_showStreamId (tiler w), clientData)))
           (map_to_list (m_showSourceListeners (tiler w))).

(** The values the nvmultistreamtiler element has for the properties the
    constructor reads back. *)
Record ElementDefaults : Set := mkElementDefaults {
  default_show_source : Z;
  default_gpu_id : Z;
  default_compute_hw : Z;
  default_nvbuf_memory_type : Z
}.

(** [TilerBintr::TilerBintr(const char* name, uint width, uint height)]: the
    members as the initializer lists of [Bintr] and [TilerBintr] leave them,
    the width and height written to the new element, and show-source, gpu-id
    and nvbuf-memory-type read back from it.  [inUse] is what [IsInUse()]
    reports for the new node. *)
Definition create (inUse : bool) (d : ElementDefaults) (width height : Z)
  : TilerBintr :=
  mkTiler
    (Bintr.mk inUse 0 false 0 (default_gpu_id d) (default_nvbuf_memory_type d))
    (<["height" := height]>
       (<["width" := width]>
          (<["show-source" := default_show_source d]>
             (<["gpu-id" := default_gpu_id d]>
                (<["compute-hw" := default_compute_hw d]>
                   (<["nvbuf-memory-type" := default_nvbuf_memory_type d]> ∅))))))
    width height 0 0 false "" ∅ 0 (default_show_source d) 0 0 0 false.

(** The element's properties agree with the members that cache them. *)
Definition mirrored (t : TilerBintr) : Prop :=
  m_pTiler t !! "show-source" = Some (m_showStreamId t)
  /\ m_pTiler t !! "gpu-id" = Some (Bintr.m_gpuId (bintr t))
  /\ m_pTiler t !! "nvbuf-memory-type" = Some (Bintr.m_nvbufMemType (bintr t))
  /\ m_pTiler t !! "width" = Some (m_width t)
  /\ m_pTiler t !! "height" = Some (m_height t).

(** The show-source timers attached to the main context. *)
Definition isShowSourceTimer (s : GLib.GSource) : bool :=
  match GLib.callback s with
  | GLib.ShowSourceTimerHandler => true
  | _ => false
  end.

Definition showSourceTimers (w : World) : list GLib.GSource :=
  List.filter isShowSourceTimer (GLib.sources (loop w)).

Definition notifyTimers (w : World) : list GLib.GSource :=
  List.filter (fun s => negb (isShowSourceTimer s)) (GLib.sources (loop w)).

(** *** Predicates for the statements about the show-source state *)

(** What [SetShowSource(int)] leaves alone: the base-class part and the
    timer's variables. *)
Definition sameTimerState (w w' : World) : Prop :=
  bintr (tiler w') = bintr (tiler w)
  /\ m_showSourceTimeout (tiler w') = m_showSourceTimeout (tiler w)
  /\ m_showSourceCounter (tiler w') = m_showSourceCounter (tiler w)
  /\ m_showSourceTimerId (tiler w') = m_showSourceTimerId (tiler w)
  /\ m_showSourceCycle (tiler w') = m_showSourceCycle (tiler w).

(** The timeout sources added on top of a main context. *)
Definition addedSources (w w' : World) (added : list GLib.GSource) : Prop :=
  GLib.sources (loop w') = GLib.sources (loop w) ++ added.

Definition notifyOnly (added : list GLib.GSource) : Prop :=
  Forall (fun s => GLib.callback s = GLib.NotifyClientsTimerHandler) added.

(** The sources of a main context once the show-source timer with handle
    [id] is cancelled ([0]: there was none to cancel). *)
Definition cancelled (id : Z) (l : list GLib.GSource) : list GLib.GSource :=
  if id =? 0 then l else GLib.detach id l.

(** The five show-source variables are as they were. *)
Definition unchangedShowSourceState (w w' : World) : Prop :=
  m_showStreamId (tiler w') = m_showStreamId (tiler w)
  /\ m_showSourceTimeout (tiler w') = m_showSourceTimeout (tiler w)
  /\ m_showSourceCounter (tiler w') = m_showSourceCounter (tiler w)
  /\ m_showSourceCycle (tiler w') = m_showSourceCycle (tiler w)
  /\ m_showSourceTimerId (tiler w') = m_showSourceTimerId (tiler w).

Section WithServices.

(** [DSL_PIPELINE_SOURCE_UNIQUE_ID_OFFSET_IN_BITS] is defined in DslApi.h and
    [Services::_sourceNameGet] in the services implementation; neither is
    among the embedded sources.  The constant is a parameter; the registry
    of source names is a finite map from unique source id to name, and the
    lookup succeeds exactly on its domain. *)
Variable DSL_PIPELINE_SOURCE_UNIQUE_ID_OFFSET_IN_BITS : Z.
Variable sourceNames : gmap Z string.

Definition _sourceNameGet (sourceId : Z) : option string :=
  sourceNames !! sourceId.

(** The unique source id of a stream of this Tiler's pipeline,
    [(m_pipelineId << OFFSET) | (uint)streamId]. *)
Definition sourceIdOf (t : TilerBintr) (streamId : Z) : Z :=
  Z.lor (to_uint (Z.shiftl (Bintr.m_pipelineId (bintr t))
                           DSL_PIPELINE_SOURCE_UNIQUE_ID_OFFSET_IN_BITS))
        (to_uint streamId).

(** The tail of [SetShowSource(int)], from "ok to set the element property
    now" on. *)
Definition commitShowSource (streamId : Z) (w : World) : World :=
  let w := on_tiler (set_showStreamId streamId) w in
  let w := on_tiler (SetAttribute "show-source" (m_showStreamId (tiler w))) w in
  if negb (size (m_showSourceListeners (tiler w)) =? 0)%nat
     && (m_notifyClientsTimerId (tiler w) =? 0)
  then
    let '(id, l) :=
      GLib.g_timeout_add 1 GLib.NotifyClientsTimerHandler (loop w) in
    mkWorld (set_notifyClientsTimerId id (tiler w)) l
  else w.

(** [bool TilerBintr::SetShowSource(int streamId)], the one-argument
    overload. *)
Definition SetShowSource_1 (streamId : Z) (w : World) : bool * World :=
  let w := on_tiler (set_wstrSourceName "") w in
  if negb (streamId =? -1) then
    match _sourceNameGet (sourceIdOf (tiler w) streamId) with
    | Some cSourceName =>
        (true, commitShowSource streamId
                 (on_tiler (set_wstrSourceName cSourceName) w))
    | None => (false, w)
    end
  else (true, commitShowSource streamId w).

(** [m_showSourceTimerId = g_timeout_add(100, ShowSourceTimerHandler, this)] *)
Definition startShowSourceTimer (w : World) : World :=
  let '(id, l) :=
    GLib.g_timeout_add TICK_PERIOD_MS GLib.ShowSourceTimerHandler (loop w) in
  mkWorld (set_showSourceTimerId id (tiler w)) l.

(** [bool TilerBintr::SetShowSource(int streamId, uint timeout,
    bool hasPrecedence)] *)
Definition SetShowSource (streamId timeout : Z) (hasPrecedence : bool)
    (w : World) : bool * World :=
  if streamId <? 0 then (false, w)
  else
    let w := on_tiler (set_showSourceCycle false) w in
    if negb (streamId =? m_showStreamId (tiler w)) then
      if negb (m_showSourceTimerId (tiler w) =? 0) && negb hasPrecedence
      then (false, w)
      else
        let w := on_tiler (set_showSourceTimeout timeout) w in
        let '(ok, w) := SetShowSource_1 streamId w in
        if negb ok then (false, w)
        else
          let w := on_tiler (set_showSourceCounter
                     (to_uint (m_showSourceTimeout (tiler w) * TICKS_PER_SECOND))) w in
          if negb (m_showSourceCounter (tiler w) =? 0)
          then (true, startShowSourceTimer w)
          else (true, w)
    else
      let w := on_tiler (set_showSourceTimeout timeout) w in
      let w := on_tiler (set_showSourceCounter
                 (to_uint (timeout * TICKS_PER_SECOND))) w in
      if (m_showSourceTimerId (tiler w) =? 0)
         && negb (m_showSourceCounter (tiler w) =? 0)
      then (true, startShowSourceTimer w)
      else (true, w).

(** "if the timer is currently running, stop and remove first" *)
Definition cancelShowSourceTimer (w : World) : World :=
  if negb (m_showSourceTimerId (tiler w) =? 0) then
    mkWorld (set_showSourceTimerId 0 (tiler w))
            (GLib.g_source_remove (m_showSourceTimerId (tiler w)) (loop w))
  else w.

(** [bool TilerBintr::CycleAllSources(uint timeout)] *)
Definition CycleAllSources (timeout : Z) (w : World) : bool * World :=
  if timeout =? 0 then (false, w)
  else
    let w := cancelShowSourceTimer w in
    let w := on_tiler (set_showSourceCycle true) w in
    let w := on_tiler (set_showSourceTimeout timeout) w in
    let w := snd (SetShowSource_1 0 w) in
    let w := on_tiler (set_showSourceCounter
               (to_uint (m_showSourceTimeout (tiler w) * TICKS_PER_SECOND))) w in
    if (m_showSourceTimerId (tiler w) =? 0)
       && negb (m_showSourceCounter (tiler w) =? 0)
    then (true, startShowSourceTimer w)
    else (true, w).

(** [void TilerBintr::ShowAllSources()] *)
Definition ShowAllSources (w : World) : World :=
  let w :=
    if negb (m_showSourceTimerId (tiler w) =? 0) then
      on_tiler (set_showSourceCycle false) (cancelShowSourceTimer w)
    else w in
  if negb (m_showStreamId (tiler w) =? -1)
  then snd (SetShowSource_1 (-1) w)
  else w.

(** [int TilerBintr::HandleShowSourceTimer()].  The result is the callback's
    return value ([true] keeps the timer, [false] destroys it).  The
    remainder by a batch size of zero is undefined behaviour: [None]. *)
Definition HandleShowSourceTimer (w : World) : option (bool * World) :=
  if negb (IsLinked (tiler w)) then Some (true, w)
  else
    let w := on_tiler (set_showSourceCounter
               (to_uint (m_showSourceCounter (tiler w) - 1))) w in
    if m_showSourceCounter (tiler w) =? 0 then
      if m_showSourceCycle (tiler w) then
        let w := on_tiler (set_showSourceCounter
                   (to_uint (m_showSourceTimeout (tiler w) * TICKS_PER_SECOND))) w in
        if Bintr.m_batchSize (bintr (tiler w)) =? 0 then None
        else
          let newStreamId :=
            to_int (to_uint (m_showStreamId (tiler w) + 1)
                    mod Bintr.m_batchSize (bintr (tiler w))) in
          Some (true, snd (SetShowSource_1 newStreamId w))
      else
        let w := on_tiler (set_showSourceTimerId 0) w in
        Some (false, snd (SetShowSource_1 (-1) w))
    else Some (true, w).

(** One dispatch, by the main loop, of the timeout source [id]: its callback
    runs, and the source is detached when the callback returns [false]. *)
Definition dispatch (id : Z) (w : World) : option World :=
  match List.find (fun s => GLib.source_id s =? id) (GLib.sources (loop w)) with
  | None => Some w
  | Some s =>
      match GLib.callback s with
      | GLib.ShowSourceTimerHandler =>
          match HandleShowSourceTimer w with
          | Some (true, w') => Some w'
          | Some (false, w') =>
              Some (mkWorld (tiler w') (GLib.g_source_remove id (loop w')))
          | None => None
          end
      | GLib.NotifyClientsTimerHandler =>
          let '(_, w') := HandleNotifiyClients w in
          Some (mkWorld (tiler w') (GLib.g_source_remove id (loop w')))
      | _ => Some w
      end
  end.

(** The calls a client or the main loop can make on a Tiler. *)
Inductive Op : Set :=
| OpLinkAll
| OpUnlinkAll
| OpSetTiles (columns rows : Z)
| OpSetDimensions (width height : Z)
| OpSetFrameNumberingEnabled (enabled pph : bool)
| OpAddShowSourceListener (listener clientData : Z)
| OpRemoveShowSourceListener (listener : Z)
| OpSetShowSource (streamId timeout : Z) (hasPrecedence : bool)
| OpCycleAllSources (timeout : Z)
| OpShowAllSources
| OpDispatch (id : Z)
| OpSetGpuId (gpuId : Z)
| OpSetNvbufMemType (nvbufMemType : Z)
| OpSetBatchSize (batchSize : Z)
| OpSetPipelineId (pipelineId : Z).

Definition step (op : Op) (w : World) : option World :=
  match op with
  | OpLinkAll => Some (on_tiler (fun t => snd (LinkAll t)) w)
  | OpUnlinkAll => Some (on_tiler UnlinkAll w)
  | OpSetTiles c r => Some (on_tiler (fun t => snd (SetTiles c r t)) w)
  | OpSetDimensions x y => Some (on_tiler (fun t => snd (SetDimensions x y t)) w)
  | OpSetFrameNumberingEnabled e pph =>
      Some (on_tiler (fun t => snd (SetFrameNumberingEnabled e pph t)) w)
  | OpAddShowSourceListener l d =>
      Some (on_tiler (fun t => snd (AddShowSourceListener l d t)) w)
  | OpRemoveShowSourceListener l =>
      Some (on_tiler (fun t => snd (RemoveShowSourceListener l t)) w)
  | OpSetShowSource s t p => Some (snd (SetShowSource s t p w))
  | OpCycleAllSources t => Some (snd (CycleAllSources t w))
  | OpShowAllSources => Some (ShowAllSources w)
  | OpDispatch id => dispatch id w
  | OpSetGpuId g => Some (on_tiler (fun t => snd (SetGpuId g t)) w)
  | OpSetNvbufMemType m => Some (on_tiler (fun t => snd (SetNvbufMemType m t)) w)
  | OpSetBatchSize n =>
      Some (on_tiler (fun t => set_bintr (snd (Bintr.SetBatchSize n (bintr t))) t) w)
  | OpSetPipelineId p =>
      Some (on_tiler (fun t => set_bintr (Bintr.SetPipelineId p (bintr t)) t) w)
  end.

(** The states visited by a sequence of calls, the first one included. *)
Fixpoint run (ops : list Op) (w : World) : option (list World) :=
  match ops with
  | [] => Some [w]
  | op :: ops' =>
      match step op w with
      | Some w' =>
          match run ops' w' with
          | Some ws => Some (w :: ws)
          | None => None
          end
      | None => None
      end
  end.

(** [n] dispatches in a row, by the main loop, of the timeout source [id]. *)
Fixpoint dispatches (n : nat) (id : Z) (w : World) : option World :=
  match n with
  | O => Some w
  | S n' =>
      match dispatch id w with
      | Some w' => dispatches n' id w'
      | None => None
      end
  end.

(** The Tiler is linked and [id], its timer handle, is attached to the main
    context as a show-source timer. *)
Definition ticking (id : Z) (w : World) : Prop :=
  IsLinked (tiler w) = true
  /\ m_showSourceTimerId (tiler w) = id
  /\ exists s,
       List.find (fun s => GLib.source_id s =? id) (GLib.sources (loop w)) = Some s
       /\ GLib.callback s = GLib.ShowSourceTimerHandler.

(** Every stream of the Tiler's pipeline below [batchSize] has a registered
    source name. *)
Definition allRegistered (t : TilerBintr) (batchSize : Z) : Prop :=
  forall streamId, 0 <= streamId < batchSize ->
    is_Some (_sourceNameGet (sourceIdOf t streamId)).

(** *** Three sentences of the specification, as they are worded *)

(** C1, as the spec words it: with a timer running for another slot, a call
    without precedence returns [false] and changes none of the five
    show-source variables, and the same call with precedence returns [true]
    and shows the requested slot. *)
Definition precedenceAsWorded (w : World) (streamId timeout : Z) : Prop :=
  m_showSourceTimerId (tiler w) <> 0 ->
  streamId <> m_showStreamId (tiler w) ->
  (fst (SetShowSource streamId timeout false w) = false
   /\ unchangedShowSourceState w (snd (SetShowSource streamId timeout false w)))
  /\ (fst (SetShowSource streamId timeout true w) = true
      /\ m_showStreamId
           (tiler (snd (SetShowSource streamId timeout true w))) = streamId).

(** C6, as the spec words it: a timeout other than zero always forces the
    shown slot to 0 and always leaves a timer running. *)
Definition cycleAsWorded (w : World) (timeout : Z) : Prop :=
  0 < timeout < UINT_MODULUS ->
  fst (CycleAllSources timeout w) = true
  /\ m_showSourceCycle (tiler (snd (CycleAllSources timeout w))) = true
  /\ m_showStreamId (tiler (snd (CycleAllSources timeout w))) = 0
  /\ m_showSourceTimerId (tiler (snd (CycleAllSources timeout w))) <> 0.

(** C2, as the spec words it: when the remaining ticks reach zero while
    cycling, the shown slot always advances to the next one. *)
Definition tickAsWorded (w : World) : Prop :=
  IsLinked (tiler w) = true ->
  to_uint (m_showSourceCounter (tiler w) - 1) = 0 ->
  m_showSourceCycle (tiler w) = true ->
  exists w',
    HandleShowSourceTimer w = Some (true, w')
    /\ m_showSourceCounter (tiler w') =
         to_uint (m_showSourceTimeout (tiler w) * 10)
    /\ m_showStreamId (tiler w') =
         (m_showStreamId (tiler w) + 1)
           mod Bintr.m_batchSize (bintr (tiler w)).

End WithServices.

End Tiler.

(** ** class PlayerBintr (DslPlayerBintr.cpp) *)

Module Player.

Inductive GstState : Set :=
| GST_STATE_NULL
| GST_STATE_READY
| GST_STATE_PAUSED
| GST_STATE_PLAYING.

(** What a Player does to the world around it: calls on its two children, on
    the pipeline state manager, on GLib, and on the client's termination
    listeners, in the order they are made. *)
Inductive Event : Set :=
| SourceLinkAll
| SinkLinkAll
| SourceLinkToSink
| SourceUnlinkFromSink
| SourceUnlinkAll
| SinkUnlinkAll
| SendEos
| Sleep (seconds : Z)
| SetState (state : GstState)
| TimeoutAdd (interval : Z) (f : GLib.GSourceFunc)
| CondWait
| CondSignal
| ListenerCalled (listener clientData : Z)
| ListenerExceptionCaught (listener : Z).

(** The outcome of each call whose implementation lies outside
    DslPlayerBintr.cpp. *)
Record Collaborators : Type := mkCollaborators {
  source_LinkAll : bool;
  sink_LinkAll : bool;
  source_LinkToSink : bool;
  source_UnlinkFromSink : bool;
  g_main_loop_is_running : bool;
  listener_throws : Z -> bool
}.

(** The children are known by name; [None] is the null pointer.  Listener
    callbacks and their client data are addresses. *)
Record PlayerBintr : Type := mkPlayer {
  bintr : Bintr.t;
  m_pSource : option string;
  m_pSink : option string;
  m_terminationEventListeners : gmap Z Z
}.

Definition set_isLinked (v : bool) (p : PlayerBintr) : PlayerBintr :=
  mkPlayer (Bintr.set_isLinked v (bintr p)) (m_pSource p) (m_pSink p)
    (m_terminationEventListeners p).

Definition set_terminationEventListeners (v : gmap Z Z) (p : PlayerBintr)
  : PlayerBintr :=
  mkPlayer (bintr p) (m_pSource p) (m_pSink p) v.

Definition IsLinked (p : PlayerBintr) : bool := Bintr.IsLinked (bintr p).

Definition is_null {A : Type} (o : option A) : bool :=
  match o with None => true | Some _ => false end.

Section WithCollaborators.

Variable c : Collaborators.

(** [m_pSource->LinkAll() and m_pSink->LinkAll() and
    m_pSource->LinkToSink(m_pSink)], evaluated left to right and cut short at
    the first failure, as the condition of [LinkAll] does. *)
Definition linkChildren : bool * list Event :=
  if negb (source_LinkAll c) then (false, [SourceLinkAll])
  else if negb (sink_LinkAll c) then (false, [SourceLinkAll; SinkLinkAll])
  else if negb (source_LinkToSink c)
       then (false, [SourceLinkAll; SinkLinkAll; SourceLinkToSink])
       else (true, [SourceLinkAll; SinkLinkAll; SourceLinkToSink]).

(** [bool PlayerBintr::LinkAll()] *)
Definition LinkAll (p : PlayerBintr) : bool * PlayerBintr * list Event :=
  if is_null (m_pSource p) || is_null (m_pSink p) then (false, p, [])
  else if Bintr.m_isLinked (bintr p) then (false, p, [])
  else
    let '(ok, ev) := linkChildren in
    if negb ok then (false, p, ev)
    else (true, set_isLinked true p, ev).

(** [void PlayerBintr::UnlinkAll()] *)
Definition UnlinkAll (p : PlayerBintr) : PlayerBintr * list Event :=
  if is_null (m_pSource p) || is_null (m_pSink p) then (p, [])
  else if negb (Bintr.m_isLinked (bintr p)) then (p, [])
  else if negb (source_UnlinkFromSink c) then (p, [SourceUnlinkFromSink])
  else (set_isLinked false p,
        [SourceUnlinkFromSink; SourceUnlinkAll; SinkUnlinkAll]).

(** The loop of [HandleStop] over the termination listeners: each call sits
    in its own try/catch, so an exception is caught and the loop goes on. *)
Fixpoint callListeners (listeners : list (Z * Z)) : list Event :=
  match listeners with
  | [] => []
  | (listener, clientData) :: rest =>
      ListenerCalled listener clientData
        :: (if listener_throws c listener
            then [ListenerExceptionCaught listener] else [])
        ++ callListeners rest
  end.

(** [void PlayerBintr::HandleStop()].  A failed [SetState] is logged and
    nothing else.  The listeners are walked in the order of the map; nothing
    below depends on which order that is. *)
Definition HandleStop (p : PlayerBintr) : PlayerBintr * list Event :=
  let '(p, unlinked) := UnlinkAll p in
  (p, [SetState GST_STATE_NULL]
        ++ unlinked
        ++ (if g_main_loop_is_running c then [CondSignal] else [])
        ++ callListeners (map_to_list (m_terminationEventListeners p))).

(** [bool PlayerBintr::Stop()].  With the main loop running, the caller adds
    the one-shot [PlayerStop] timeout and waits on the condition; the loop
    thread then runs [HandleStop], which signals it.  The hand-over is
    sequential from the caller's side and is embedded as such. *)
Definition Stop (p : PlayerBintr) : bool * PlayerBintr * list Event :=
  if negb (IsLinked p) then (false, p, [])
  else
    let '(p', handled) := HandleStop p in
    if g_main_loop_is_running c
    then (true, p',
          [SendEos; Sleep 1; TimeoutAdd 1 GLib.PlayerStop; CondWait] ++ handled)
    else (true, p', [SendEos; Sleep 1] ++ handled).

(** The calls [LinkAll] makes on the children, given which of them succeed:
    the Source's [LinkAll], then the Sink's, then [LinkToSink], up to and
    including the first one that fails. *)
Definition linkCalls : list Event :=
  SourceLinkAll
    :: (if source_LinkAll c
        then SinkLinkAll
               :: (if sink_LinkAll c then [SourceLinkToSink] else [])
        else []).

(** C3, as the spec words it, as far as the link state goes: [Stop] on a
    linked Player always ends with the Player not linked. *)
Definition stopAsWorded (p : PlayerBintr) : Prop :=
  IsLinked p = true ->
  fst (fst (Stop p)) = true
  /\ IsLinked (snd (fst (Stop p))) = false.

End WithCollaborators.

Section WithStateManager.

(** [GetState] and [SetState] belong to [PipelineStateMgr], which is not
    among the embedded sources: [currentState] is the state [GetState]
    reports and [SetState_ok] tells which state changes succeed. *)
Variable c : Collaborators.
Variable currentState : GstState.
Variable SetState_ok : GstState -> bool.

(** [bool PlayerBintr::Play()] *)
Definition Play (p : PlayerBintr) : bool * PlayerBintr * list Event :=
  match currentState with
  | GST_STATE_NULL =>
      let '(linked, p', ev) := LinkAll c p in
      if negb linked then (false, p', ev)
      else if negb (SetState_ok GST_STATE_PAUSED)
      then (false, p', ev ++ [SetState GST_STATE_PAUSED])
      else (SetState_ok GST_STATE_PLAYING, p',
            ev ++ [SetState GST_STATE_PAUSED; SetState GST_STATE_PLAYING])
  | _ => (SetState_ok GST_STATE_PLAYING, p, [SetState GST_STATE_PLAYING])
  end.

(** [void PlayerBintr::HandlePause()].  A failed [SetState] is logged and
    nothing else. *)
Definition HandlePause : list Event :=
  [SetState GST_STATE_PAUSED]
    ++ (if g_main_loop_is_running c then [CondSignal] else []).

(** [bool PlayerBintr::Pause()], with the hand-over to the main loop
    embedded as in [Stop]. *)
Definition Pause (p : PlayerBintr) : bool * PlayerBintr * list Event :=
  match currentState with
  | GST_STATE_PLAYING =>
      if g_main_loop_is_running c
      then (true, p, [TimeoutAdd 1 GLib.PlayerPause; CondWait] ++ HandlePause)
      else (true, p, HandlePause)
  | _ => (false, p, [])
  end.

End WithStateManager.

(** [bool PlayerBintr::AddTerminationEventListener(listener, clientData)] *)
Definition AddTerminationEventListener (listener clientData : Z)
    (p : PlayerBintr) : bool * PlayerBintr :=
  match m_terminationEventListeners p !! listener with
  | Some _ => (false, p)
  | None =>
      (true, set_terminationEventListeners
               (<[listener := clientData]> (m_terminationEventListeners p)) p)
  end.

(** [bool PlayerBintr::RemoveTerminationEventListener(listener)] *)
Definition RemoveTerminationEventListener (listener : Z) (p : PlayerBintr)
  : bool * PlayerBintr :=
  match m_terminationEventListeners p !! listener with
  | None => (false, p)
  | Some _ =>
      (true, set_terminationEventListeners
               (delete listener (m_terminationEventListeners p)) p)
  end.

(** The listener calls recorded in a sequence of events. *)
Definition listenerCalls (events : list Event) : list (Z * Z) :=
  omap (fun e => match e with
                 | ListenerCalled l d => Some (l, d)
                 | _ => None
                 end) events.

End Player.

(** ** The slot pool of the Source Aggregator

    DslPipelineSourcesBintr.h declares the pool,
    [std::vector<bool> m_usedRequestPadIds], "used on add/remove to find the
    next available pad id"; the member functions that use it are in
    DslPipelineSourcesBintr.cpp, which is not among the embedded sources. *)

Module SlotPool.

(** Modelled from the spec: the allocation and release of slot ids, whose
    code (PipelineSourcesBintr::AddChild / RemoveChild) is missing.  The
    pool is "a bounded set of boolean used flags, one per possible slot
    index"; its length is the capacity. *)
Definition create (capacity : nat) : list bool := replicate capacity false.

(** Modelled from the spec: "scans from index 0 upward and returns the first
    free index". *)
Fixpoint firstFree (pool : list bool) : option nat :=
  match pool with
  | [] => None
  | used :: rest =>
      if used then option_map S (firstFree rest) else Some 0%nat
  end.

(** Modelled from the spec: [Allocate() -> slotId] "returns the first free
    index, marking it used; fails only if the pool is exhausted". *)
Definition Allocate (pool : list bool) : option (nat * list bool) :=
  match firstFree pool with
  | Some i => Some (i, <[i := true]> pool)
  | None => None
  end.

(** Modelled from the spec: [Release(slotId)] "clears the used flag;
    releasing an unused or out-of-range index is a no-op". *)
Definition Release (slotId : nat) (pool : list bool) : list bool :=
  <[slotId := false]> pool.

Inductive Op : Set :=
| OpAllocate
| OpRelease (slotId : nat).

(** A sequence of allocations and releases; an allocation that fails leaves
    the pool as it is. *)
Fixpoint run (ops : list Op) (pool : list bool) : list bool :=
  match ops with
  | [] => pool
  | OpAllocate :: ops' =>
      match Allocate pool with
      | Some (_, pool') => run ops' pool'
      | None => run ops' pool
      end
  | OpRelease i :: ops' => run ops' (Release i pool)
  end.

End SlotPool.

(** ** class Services, pipeline services (DslServicesPipeline.cpp) *)

Module Services.

(** The result codes used by the two services below (DslApi.h gives them
    their numbers). *)
Inductive DslReturnType : Set :=
| DSL_RESULT_SUCCESS
| DSL_RESULT_PIPELINE_NAME_NOT_FOUND
| DSL_RESULT_COMPONENT_NAME_NOT_FOUND
| DSL_RESULT_COMPONENT_NOT_THE_CORRECT_TYPE
| DSL_RESULT_PIPELINE_STREAMMUX_SET_FAILED
| DSL_RESULT_PIPELINE_AUDIOMIX_SET_FAILED
| DSL_RESULT_PIPELINE_THREW_EXCEPTION.

(** [streammux_type] (DslPipelineSourcesBintr.h) *)
Inductive streammux_type : Set :=
| DSL_VIDEOMUX
| DSL_AUDIOMUX.

(** The dynamic type of a registered component, as far as
    [DSL_RETURN_IF_COMPONENT_IS_NOT_AUDIO_SOURCE] tells. *)
Inductive ComponentType : Set :=
| AudioSourceBintr
| OtherBintr.

(** What a call into the engine does: it returns a boolean or throws. *)
Inductive Outcome : Set :=
| Returned (ok : bool)
| Threw.

Section WithEngine.

(** The pipeline object and the two member functions of [PipelineBintr] the
    services delegate to; DslPipelineBintr.cpp is not among the embedded
    sources.  An audio source is passed by its identity, its name. *)
Variable PipelineBintr : Type.
Variable SetStreammuxNumSurfacesPerFrame :
  streammux_type -> Z -> PipelineBintr -> Outcome * PipelineBintr.
Variable SetAudiomixVolume :
  string -> float -> PipelineBintr -> Outcome * PipelineBintr.

Record Services : Type := mkServices {
  m_pipelines : gmap string PipelineBintr;
  m_components : gmap string ComponentType
}.

Definition set_pipeline (name : string) (p : PipelineBintr) (s : Services)
  : Services :=
  mkServices (<[name := p]> (m_pipelines s)) (m_components s).

(** [DslReturnType Services::PipelineStreammuxNumSurfacesPerFrameSet(
    const char* name, streammux_type streammux, uint num)] *)
Definition PipelineStreammuxNumSurfacesPerFrameSet (name : string)
    (streammux : streammux_type) (num : Z) (s : Services)
  : DslReturnType * Services :=
  match m_pipelines s !! name with
  | None => (DSL_RESULT_PIPELINE_NAME_NOT_FOUND, s)
  | Some pipeline =>
      if 4 <? num then (DSL_RESULT_PIPELINE_STREAMMUX_SET_FAILED, s)
      else
        match SetStreammuxNumSurfacesPerFrame streammux num pipeline with
        | (Returned false, pipeline') =>
            (DSL_RESULT_PIPELINE_STREAMMUX_SET_FAILED,
             set_pipeline name pipeline' s)
        | (Returned true, pipeline') =>
            (DSL_RESULT_SUCCESS, set_pipeline name pipeline' s)
        | (Threw, pipeline') =>
            (DSL_RESULT_PIPELINE_THREW_EXCEPTION,
             set_pipeline name pipeline' s)
        end
  end.

(** [DslReturnType Services::PipelineAudiomixVolumeSet(const char* name,
    const char* source, double volume)] *)
Definition PipelineAudiomixVolumeSet (name source : string) (volume : float)
    (s : Services) : DslReturnType * Services :=
  match m_pipelines s !! name with
  | None => (DSL_RESULT_PIPELINE_NAME_NOT_FOUND, s)
  | Some pipeline =>
      match m_components s !! source with
      | None => (DSL_RESULT_COMPONENT_NAME_NOT_FOUND, s)
      | Some OtherBintr => (DSL_RESULT_COMPONENT_NOT_THE_CORRECT_TYPE, s)
      | Some AudioSourceBintr =>
          if PrimFloat.ltb volume 0%float || PrimFloat.ltb 10%float volume
          then (DSL_RESULT_PIPELINE_AUDIOMIX_SET_FAILED, s)
          else
            match SetAudiomixVolume source volume pipeline with
            | (Returned false, pipeline') =>
                (DSL_RESULT_PIPELINE_AUDIOMIX_SET_FAILED,
                 set_pipeline name pipeline' s)
            | (Returned true, pipeline') =>
                (DSL_RESULT_SUCCESS, set_pipeline name pipeline' s)
            | (Threw, pipeline') =>
                (DSL_RESULT_PIPELINE_THREW_EXCEPTION,
                 set_pipeline name pipeline' s)
            end
      end
  end.

End WithEngine.

(** The result code a service makes of what the engine did, [failed] being
    the code of the service's own "set failed". *)
Definition resultOf (o : Outcome) (failed : DslReturnType) : DslReturnType :=
  match o with
  | Returned true => DSL_RESULT_SUCCESS
  | Returned false => failed
  | Threw => DSL_RESULT_PIPELINE_THREW_EXCEPTION
  end.

(** *** Further pipeline services *)

(** The result codes of the services below that the two services above do
    not return. *)
Inductive FurtherResult : Set :=
| Common (r : DslReturnType)
| DSL_RESULT_PIPELINE_NAME_NOT_UNIQUE
| DSL_RESULT_PIPELINE_SET_FAILED.

Section WithFurtherEngine.

(** As above, the pipeline object and the member functions of
    [PipelineBintr] the services delegate to are parameters, and so are the
    two constants of DslApi.h the range checks compare with. *)
Variable PipelineBintr : Type.
Variable DSL_NVBUF_MEM_TYPE_SURFACE_ARRAY : Z.
Variable DSL_PIPELINE_LINK_METHOD_BY_ADD_ORDER : Z.
Variable SetStreammuxNvbufMemType : Z -> PipelineBintr -> Outcome * PipelineBintr.
Variable SetAudiomixMuteEnabled :
  string -> bool -> PipelineBintr -> Outcome * PipelineBintr.

(** [SetLinkMethod] returns nothing: it comes back ([true]) or throws
    ([false]), and leaves the pipeline in some state either way. *)
Variable SetLinkMethod : Z -> PipelineBintr -> bool * PipelineBintr.

(** [DslReturnType Services::PipelineStreammuxNvbufMemTypeSet(
    const char* name, uint type)] *)
Definition PipelineStreammuxNvbufMemTypeSet (name : string) (type : Z)
    (s : Services PipelineBintr) : DslReturnType * Services PipelineBintr :=
  match m_pipelines PipelineBintr s !! name with
  | None => (DSL_RESULT_PIPELINE_NAME_NOT_FOUND, s)
  | Some pipeline =>
      if DSL_NVBUF_MEM_TYPE_SURFACE_ARRAY <? type
      then (DSL_RESULT_PIPELINE_STREAMMUX_SET_FAILED, s)
      else
        match SetStreammuxNvbufMemType type pipeline with
        | (Returned false, pipeline') =>
            (DSL_RESULT_PIPELINE_STREAMMUX_SET_FAILED,
             set_pipeline PipelineBintr name pipeline' s)
        | (Returned true, pipeline') =>
            (DSL_RESULT_SUCCESS, set_pipeline PipelineBintr name pipeline' s)
        | (Threw, pipeline') =>
            (DSL_RESULT_PIPELINE_THREW_EXCEPTION,
             set_pipeline PipelineBintr name pipeline' s)
        end
  end.

(** [DslReturnType Services::PipelineAudiomixMuteEnabledSet(const char* name,
    const char* source, boolean enabled)] *)
Definition PipelineAudiomixMuteEnabledSet (name source : string)
    (enabled : bool) (s : Services PipelineBintr)
  : DslReturnType * Services PipelineBintr :=
  match m_pipelines PipelineBintr s !! name with
  | None => (DSL_RESULT_PIPELINE_NAME_NOT_FOUND, s)
  | Some pipeline =>
      match m_components PipelineBintr s !! source with
      | None => (DSL_RESULT_COMPONENT_NAME_NOT_FOUND, s)
      | Some OtherBintr => (DSL_RESULT_COMPONENT_NOT_THE_CORRECT_TYPE, s)
      | Some AudioSourceBintr =>
          match SetAudiomixMuteEnabled source enabled pipeline with
          | (Returned false, pipeline') =>
              (DSL_RESULT_PIPELINE_AUDIOMIX_SET_FAILED,
               set_pipeline PipelineBintr name pipeline' s)
          | (Returned true, pipeline') =>
              (DSL_RESULT_SUCCESS, set_pipeline PipelineBintr name pipeline' s)
          | (Threw, pipeline') =>
              (DSL_RESULT_PIPELINE_THREW_EXCEPTION,
               set_pipeline PipelineBintr name pipeline' s)
          end
      end
  end.

(** [DslReturnType Services::PipelineLinkMethodSet(const char* name,
    uint linkMethod)] *)
Definition PipelineLinkMethodSet (name : string) (linkMethod : Z)
    (s : Services PipelineBintr) : FurtherResult * Services PipelineBintr :=
  match m_pipelines PipelineBintr s !! name with
  | None => (Common DSL_RESULT_PIPELINE_NAME_NOT_FOUND, s)
  | Some pipeline =>
      if DSL_PIPELINE_LINK_METHOD_BY_ADD_ORDER <? linkMethod
      then (DSL_RESULT_PIPELINE_SET_FAILED, s)
      else
        match SetLinkMethod linkMethod pipeline with
        | (true, pipeline') =>
            (Common DSL_RESULT_SUCCESS, set_pipeline PipelineBintr name pipeline' s)
        | (false, pipeline') =>
            (Common DSL_RESULT_PIPELINE_THREW_EXCEPTION,
             set_pipeline PipelineBintr name pipeline' s)
        end
  end.

(** The registry of [PipelineNew], [PipelineDelete] and [PipelineListSize]
    holds shared pointers, which can be null ([None]): [m_pipelines[name]]
    on a name that is not in the map puts a null pointer there.
    [DSL_RETURN_IF_PIPELINE_NAME_NOT_FOUND] (DslServicesValidate.h, not among
    the embedded sources) is taken to look the name up with [find], as in
    the services above: a name registered with a null pointer is found. *)
Abbreviation Registry := (Services (option PipelineBintr)).

(** [new PipelineBintr(name)]: the new pipeline, or [None] when the
    constructor throws.  [RemoveAllChildren] comes back ([true]) or throws
    ([false]), and leaves the pipeline in some state either way. *)
Variable construct : string -> option PipelineBintr.
Variable RemoveAllChildren : PipelineBintr -> bool * PipelineBintr.

(** [DslReturnType Services::PipelineNew(const char* name)] *)
Definition PipelineNew (name : string) (s : Registry) : FurtherResult * Registry :=
  match m_pipelines _ s !! name with
  | Some (Some _) => (DSL_RESULT_PIPELINE_NAME_NOT_UNIQUE, s)
  | _ =>
      match construct name with
      | Some pipeline =>
          (Common DSL_RESULT_SUCCESS, set_pipeline _ name (Some pipeline) s)
      | None =>
          (Common DSL_RESULT_PIPELINE_THREW_EXCEPTION, set_pipeline _ name None s)
      end
  end.

(** [DslReturnType Services::PipelineDelete(const char* name)].  The call
    through a null pointer is undefined behaviour: [None]. *)
Definition PipelineDelete (name : string) (s : Registry)
  : option (DslReturnType * Registry) :=
  match m_pipelines _ s !! name with
  | None => Some (DSL_RESULT_PIPELINE_NAME_NOT_FOUND, s)
  | Some None => None
  | Some (Some pipeline) =>
      match RemoveAllChildren pipeline with
      | (true, _) =>
          Some (DSL_RESULT_SUCCESS,
                mkServices _ (delete name (m_pipelines _ s)) (m_components _ s))
      | (false, pipeline') =>
          Some (DSL_RESULT_PIPELINE_THREW_EXCEPTION,
                set_pipeline _ name (Some pipeline') s)
      end
  end.

(** [uint Services::PipelineListSize()] *)
Definition PipelineListSize (s : Registry) : nat := size (m_pipelines _ s).

End WithFurtherEngine.

(** What a setter service may change: the pipeline registered as [name],
    and nothing else.  The components, the registered names and every other
    pipeline are as before. *)
Definition touchesOnly {PipelineBintr : Type} (name : string)
    (s s' : Services PipelineBintr) : Prop :=
  m_components _ s' = m_components _ s
  /\ (forall n, is_Some (m_pipelines _ s' !! n) <-> is_Some (m_pipelines _ s !! n))
  /\ (forall n, n <> name -> m_pipelines _ s' !! n = m_pipelines _ s !! n).

(** A volume outside the closed interval [0.0, 10.0]: it is not the case
    that 0.0 <= volume and volume <= 10.0 in the order of binary64.  A NaN,
    which compares with nothing, is outside. *)
Definition outsideVolumeRange (volume : float) : Prop :=
  PrimFloat.leb 0%float volume && PrimFloat.leb volume 10%float = false.

End Services.

(** ** The audio mixer's ports *)

Module Audiomix.

(** Modelled from the spec: the Multiplexer port state, "per attached-input
    configuration (mute flag, gain/volume in [0.0, 10.0]), keyed by the
    identity of the owning input component".  The classes that hold it
    (PipelineBintr, AudiomixBintr) are not among the embedded sources. *)
Record Port : Set := mkPort {
  mute : bool;
  volume : float
}.

(** Modelled from the spec: [SetVolume(child, v)] "rejects values outside
    [0.0, 10.0] without mutation and without affecting other ports"; it
    configures the port of an attached child.  A value is accepted when it
    lies in the closed interval, 0.0 <= v and v <= 10.0; every other value,
    a NaN included, is rejected. *)
Definition SetVolume (child : string) (v : float) (ports : gmap string Port)
  : bool * gmap string Port :=
  if PrimFloat.leb 0%float v && PrimFloat.leb v 10%float then
    match ports !! child with
    | Some port => (true, <[child := mkPort (mute port) v]> ports)
    | None => (false, ports)
    end
  else (false, ports).

Definition GetVolume (child : string) (ports : gmap string Port) : option float :=
  volume <$> ports !! child.

(** Modelled from the spec: [PipelineBintr::SetAudiomixVolume], the engine
    call behind [PipelineAudiomixVolumeSet], for a pipeline seen as the port
    table of its audio mixer; it reports [SetVolume]'s verdict and does not
    throw. *)
Definition SetAudiomixVolume (source : string) (v : float)
    (ports : gmap string Port) : Services.Outcome * gmap string Port :=
  let '(ok, ports') := SetVolume source v ports in
  (Services.Returned ok, ports').

End Audiomix.

(** ** Sample objects, for the examples *)

Module Fixtures.

(** The value DslApi.h gives the offset. *)
Definition OFFSET : Z := 16.

(** A registry in which streams 0 and 2 of pipeline 0 are active and stream
    1 is not. *)
Definition cameras : gmap Z string :=
  <[0 := "camera-0"]> (<[2 := "camera-2"]> ∅).

(** A registry in which streams 0, 1 and 2 of pipeline 0 are active. *)
Definition threeCameras : gmap Z string :=
  <[0 := "camera-0"]> (<[1 := "camera-1"]> (<[2 := "camera-2"]> ∅)).

(** A registry in which stream 0 of pipeline 0 is not active. *)
Definition camera1_only : gmap Z string := <[1 := "camera-1"]> ∅.

Definition linkedBintr : Bintr.t := Bintr.mk true 0 true 3 0 0.
Definition unlinkedBintr : Bintr.t := Bintr.mk true 0 false 0 0 0.
Definition linkedUnownedBintr : Bintr.t := Bintr.mk false 0 true 0 0 0.

Definition showSourceTimer (id : Z) : GLib.GSource :=
  GLib.mkGSource id 100 GLib.ShowSourceTimerHandler.

(** A linked Tiler of three streams that shows all of them; no timer. *)
Definition idleTiler : Tiler.TilerBintr :=
  Tiler.mkTiler linkedBintr ∅ 1280 720 0 0 false "" ∅ 0 (-1) 0 0 0 false.

Definition idle : Tiler.World :=
  Tiler.mkWorld idleTiler (GLib.mkGMainContext 1 []).

(** The idle Tiler after [SetShowSource(2, 5, false)]. *)
Definition afterShow2 : Tiler.World :=
  snd (Tiler.SetShowSource OFFSET threeCameras 2 5 false idle).

(** The same Tiler, added to a pipeline but not linked. *)
Definition unlinkedTiler : Tiler.TilerBintr :=
  Tiler.mkTiler unlinkedBintr ∅ 1280 720 0 0 false "" ∅ 0 (-1) 0 0 0 false.

(** Stream 2 is shown for 5 seconds, of which 50 ticks remain; timer 1. *)
Definition showing2 : Tiler.World :=
  Tiler.mkWorld
    (Tiler.mkTiler linkedBintr ∅ 1280 720 0 0 false "camera-2" ∅ 0 2 5 50 1 false)
    (GLib.mkGMainContext 2 [showSourceTimer 1]).

(** As [showing2], on the last tick. *)
Definition showing2_lastTick : Tiler.World :=
  Tiler.mkWorld
    (Tiler.mkTiler linkedBintr ∅ 1280 720 0 0 false "camera-2" ∅ 0 2 5 1 1 false)
    (GLib.mkGMainContext 2 [showSourceTimer 1]).

(** The Tiler cycles every 2 seconds and shows stream 0; 7 ticks remain. *)
Definition cycling0 : Tiler.World :=
  Tiler.mkWorld
    (Tiler.mkTiler linkedBintr ∅ 1280 720 0 0 false "camera-0" ∅ 0 0 2 7 1 true)
    (GLib.mkGMainContext 2 [showSourceTimer 1]).

(** As [cycling0], on the last tick of the period. *)
Definition cycling0_lastTick : Tiler.World :=
  Tiler.mkWorld
    (Tiler.mkTiler linkedBintr ∅ 1280 720 0 0 false "camera-0" ∅ 0 0 2 1 1 true)
    (GLib.mkGMainContext 2 [showSourceTimer 1]).

(** The Tiler cycles and shows stream 2, on the last tick of the period. *)
Definition cycling2_lastTick : Tiler.World :=
  Tiler.mkWorld
    (Tiler.mkTiler linkedBintr ∅ 1280 720 0 0 false "camera-2" ∅ 0 2 2 1 1 true)
    (GLib.mkGMainContext 2 [showSourceTimer 1]).

(** Every call on the children succeeds, no main loop runs, and listener
    101 throws. *)
Definition cooperative : Player.Collaborators :=
  Player.mkCollaborators true true true true false
    (fun listener => listener =? 101).

(** As [cooperative], with the main loop running. *)
Definition cooperativeLooping : Player.Collaborators :=
  Player.mkCollaborators true true true true true
    (fun listener => listener =? 101).

(** The Source cannot be unlinked from the Sink. *)
Definition stuck : Player.Collaborators :=
  Player.mkCollaborators true true true false false
    (fun _ => false).

(** The Sink fails to link. *)
Definition sinkFails : Player.Collaborators :=
  Player.mkCollaborators true false true true false
    (fun _ => false).

(** A Player with both children and two termination listeners. *)
Definition player (linked : bool) : Player.PlayerBintr :=
  Player.mkPlayer (Bintr.mk false 0 linked 0 0 0)
    (Some "file-source"%string) (Some "window-sink"%string)
    (<[101 := 7]> (<[102 := 8]> ∅)).

(** A sample engine for the num-surfaces-per-frame setting: a pipeline is
    the pair of the settings of its video and audio Streammuxers, and the
    setter always succeeds. *)
Definition sampleSetNumSurfaces (streammux : Services.streammux_type) (num : Z)
    (p : Z * Z) : Services.Outcome * (Z * Z) :=
  match streammux with
  | Services.DSL_VIDEOMUX => (Services.Returned true, (num, snd p))
  | Services.DSL_AUDIOMUX => (Services.Returned true, (fst p, num))
  end.

Definition surfaces : Services.Services (Z * Z) :=
  Services.mkServices (Z * Z) (<["studio"%string := (1, 1)]> ∅) ∅.

(** The ports of a mixer with a microphone at volume 1.0 and a muted radio
    at 2.5. *)
Definition studio : gmap string Audiomix.Port :=
  <["microphone"%string := Audiomix.mkPort false 1%float]>
    (<["radio"%string := Audiomix.mkPort true 2.5%float]> ∅).

(** One pipeline, two audio sources, and a camera that is not one. *)
Definition services : Services.Services (gmap string Audiomix.Port) :=
  Services.mkServices (gmap string Audiomix.Port)
    (<["studio"%string := studio]> ∅)
    (<["microphone"%string := Services.AudioSourceBintr]>
       (<["radio"%string := Services.AudioSourceBintr]>
          (<["camera"%string := Services.OtherBintr]> ∅))).

(** The idle Tiler with one show-source listener and no notification
    pending. *)
Definition watchedIdle : Tiler.World :=
  Tiler.mkWorld
    (Tiler.mkTiler linkedBintr ∅ 1280 720 0 0 false "" (<[501 := 9]> ∅)
       0 (-1) 0 0 0 false)
    (GLib.mkGMainContext 1 []).

(** What a new tiler element reports: all sources shown, GPU 0. *)
Definition elementDefaults : Tiler.ElementDefaults :=
  Tiler.mkElementDefaults (-1) 0 0 0.

(** A state manager that fails to reach PAUSED. *)
Definition pauseFails (state : Player.GstState) : bool :=
  match state with
  | Player.GST_STATE_PAUSED => false
  | _ => true
  end.

(** A sample engine for the memory type and the link method: the pipeline
    is the pair of the two settings, and both setters succeed. *)
Definition sampleSetMemType (type : Z) (p : Z * Z) : Services.Outcome * (Z * Z) :=
  (Services.Returned true, (type, snd p)).

Definition sampleSetLinkMethod (linkMethod : Z) (p : Z * Z) : bool * (Z * Z) :=
  (true, (fst p, linkMethod)).

(** A registry without pipelines, a constructor that returns and one that
    throws; a pipeline is the number of its children. *)
Definition emptyRegistry : Services.Services (option nat) :=
  Services.mkServices (option nat) ∅ ∅.

Definition constructs (name : string) : option nat := Some 0%nat.
Definition constructorThrows (name : string) : option nat := None.
Definition removesChildren (pipeline : nat) : bool * nat := (true, 0%nat).

End Fixtures.

(** * Properties *)

(** ** Machine integers *)

Lemma to_uint_small (z : Z) : 0 <= z < UINT_MODULUS -> to_uint z = z.
Proof. intros H. unfold to_uint. apply Z.mod_small. exact H. Qed.

Lemma to_int_small (z : Z) : 0 <= z < 2 ^ 31 -> to_int z = z.
Proof.
  intros H. unfold to_int, UINT_MODULUS.
  rewrite Z.mod_small by lia.
  destruct (Z.ltb_spec z (2 ^ 31)); [reflexivity | lia].
Qed.

(** ** The Tiler's show-source state machine *)

Section TilerFacts.

Variable OFFSET : Z.
Variable names : gmap Z string.

Abbreviation sourceIdOf := (Tiler.sourceIdOf OFFSET).
Abbreviation commitShowSource := (Tiler.commitShowSource).
Abbreviation SetShowSource_1 := (Tiler.SetShowSource_1 OFFSET names).
Abbreviation SetShowSource := (Tiler.SetShowSource OFFSET names).
Abbreviation CycleAllSources := (Tiler.CycleAllSources OFFSET names).
Abbreviation HandleShowSourceTimer := (Tiler.HandleShowSourceTimer OFFSET names).
Abbreviation dispatch := (Tiler.dispatch OFFSET names).
Abbreviation sameTimerState := Tiler.sameTimerState.
Abbreviation addedSources := Tiler.addedSources.
Abbreviation notifyOnly := Tiler.notifyOnly.
Abbreviation cancelled := Tiler.cancelled.

Lemma commitShowSource_spec (streamId : Z) (w : Tiler.World) :
  Tiler.m_showStreamId (Tiler.tiler (commitShowSource streamId w)) = streamId
  /\ sameTimerState w (commitShowSource streamId w)
  /\ exists added, addedSources w (commitShowSource streamId w) added
                   /\ notifyOnly added.
Proof.
  unfold Tiler.commitShowSource, Tiler.sameTimerState, Tiler.addedSources.
  destruct (negb _ && _); cbn.
  - repeat split; try reflexivity.
    eexists; split; [reflexivity |]. repeat constructor.
  - repeat split; try reflexivity.
    exists []. split; [symmetry; apply app_nil_r | constructor].
Qed.

Lemma SetShowSource_1_spec (streamId : Z) (w : Tiler.World) :
  let r := SetShowSource_1 streamId w in
  sameTimerState w (snd r)
  /\ (exists added, addedSources w (snd r) added /\ notifyOnly added)
  /\ (fst r = true ->
        Tiler.m_showStreamId (Tiler.tiler (snd r)) = streamId)
  /\ (fst r = false ->
        Tiler.m_showStreamId (Tiler.tiler (snd r)) = Tiler.m_showStreamId (Tiler.tiler w)
        /\ Tiler.loop (snd r) = Tiler.loop w)
  /\ (fst r = true <->
        streamId = -1 \/ is_Some (names !! sourceIdOf (Tiler.tiler w) streamId)).
Proof.
  unfold Tiler.SetShowSource_1, Tiler._sourceNameGet. cbn zeta.
  destruct (Z.eqb_spec streamId (-1)) as [-> | Hne]; cbn [negb].
  - match goal with |- context [commitShowSource ?s ?v] =>
      destruct (commitShowSource_spec s v) as (Hid & Hsame & Hadd) end.
    cbn [fst snd]. repeat split; try apply Hsame; auto; try discriminate.
  - change (sourceIdOf (Tiler.tiler (Tiler.on_tiler (Tiler.set_wstrSourceName "") w)) streamId)
      with (sourceIdOf (Tiler.tiler w) streamId).
    destruct (names !! sourceIdOf (Tiler.tiler w) streamId) as [name |] eqn:Hlk.
    + match goal with |- context [commitShowSource ?s ?v] =>
        destruct (commitShowSource_spec s v) as (Hid & Hsame & Hadd) end.
      cbn [fst snd]. repeat split; try apply Hsame; auto; try discriminate.
    + cbn [fst snd]. unfold Tiler.sameTimerState, Tiler.addedSources. cbn.
      repeat split; try discriminate.
      * exists []. split; [symmetry; apply app_nil_r | constructor].
      * intros [? | [x Hx]]; [contradiction | discriminate].
Qed.


Lemma startShowSourceTimer_spec (w : Tiler.World) :
  let w' := Tiler.startShowSourceTimer w in
  Tiler.m_showSourceTimerId (Tiler.tiler w') = Z.pos (GLib.next_source_id (Tiler.loop w))
  /\ addedSources w w'
       [GLib.mkGSource (Tiler.m_showSourceTimerId (Tiler.tiler w'))
          Tiler.TICK_PERIOD_MS GLib.ShowSourceTimerHandler]
  /\ Tiler.bintr (Tiler.tiler w') = Tiler.bintr (Tiler.tiler w)
  /\ Tiler.m_showStreamId (Tiler.tiler w') = Tiler.m_showStreamId (Tiler.tiler w)
  /\ Tiler.m_showSourceTimeout (Tiler.tiler w') = Tiler.m_showSourceTimeout (Tiler.tiler w)
  /\ Tiler.m_showSourceCounter (Tiler.tiler w') = Tiler.m_showSourceCounter (Tiler.tiler w)
  /\ Tiler.m_showSourceCycle (Tiler.tiler w') = Tiler.m_showSourceCycle (Tiler.tiler w).
Proof. cbn. unfold Tiler.addedSources. cbn. repeat split; reflexivity. Qed.

(** C9.  A negative stream id is refused before anything is written:
    [SetShowSource] returns [false], and the Tiler (its cycle flag included)
    and the timers of the main context are exactly as before. *)
Theorem SetShowSource_negative_id_untouched :
  forall (w : Tiler.World) (streamId timeout : Z) (hasPrecedence : bool),
    streamId < 0 ->
    SetShowSource streamId timeout hasPrecedence w = (false, w).
Proof.
  intros w streamId timeout hasPrecedence Hneg.
  unfold Tiler.SetShowSource.
  destruct (Z.ltb_spec streamId 0) as [_ | Hge]; [reflexivity | lia].
Qed.

(** C1, amended.  While a show-source timer runs for another slot, a call
    without precedence returns [false] and leaves the shown slot, the
    timeout, the remaining ticks, the timer handle and the main context as
    they were; the cycle flag is cleared all the same, unless the requested
    slot is negative.  The same call with precedence returns [true] and
    shows the requested slot when that slot is not negative and names a
    registered source. *)
Theorem SetShowSource_other_slot_while_timer_runs :
  forall (w : Tiler.World) (streamId timeout : Z),
    Tiler.m_showSourceTimerId (Tiler.tiler w) <> 0 ->
    streamId <> Tiler.m_showStreamId (Tiler.tiler w) ->
    (let r := SetShowSource streamId timeout false w in
     fst r = false
     /\ Tiler.m_showStreamId (Tiler.tiler (snd r)) = Tiler.m_showStreamId (Tiler.tiler w)
     /\ Tiler.m_showSourceTimeout (Tiler.tiler (snd r)) = Tiler.m_showSourceTimeout (Tiler.tiler w)
     /\ Tiler.m_showSourceCounter (Tiler.tiler (snd r)) = Tiler.m_showSourceCounter (Tiler.tiler w)
     /\ Tiler.m_showSourceTimerId (Tiler.tiler (snd r)) = Tiler.m_showSourceTimerId (Tiler.tiler w)
     /\ Tiler.loop (snd r) = Tiler.loop w
     /\ Tiler.m_showSourceCycle (Tiler.tiler (snd r)) =
          (if streamId <? 0 then Tiler.m_showSourceCycle (Tiler.tiler w) else false))
    /\ (0 <= streamId ->
        is_Some (names !! sourceIdOf (Tiler.tiler w) streamId) ->
        let r := SetShowSource streamId timeout true w in
        fst r = true
        /\ Tiler.m_showStreamId (Tiler.tiler (snd r)) = streamId).
Proof.
  intros w streamId timeout Htimer Hother. split.
  - unfold Tiler.SetShowSource.
    destruct (Z.ltb_spec streamId 0) as [Hneg | Hge]; cbn zeta.
    + cbn. repeat split; reflexivity.
    + cbn [Tiler.on_tiler Tiler.tiler Tiler.set_showSourceCycle Tiler.m_showStreamId
           Tiler.m_showSourceTimerId].
      destruct (Z.eqb_spec streamId (Tiler.m_showStreamId (Tiler.tiler w)));
        [contradiction |].
      destruct (Z.eqb_spec (Tiler.m_showSourceTimerId (Tiler.tiler w)) 0);
        [contradiction |].
      cbn. repeat split; reflexivity.
  - intros Hge Hreg. unfold Tiler.SetShowSource.
    destruct (Z.ltb_spec streamId 0) as [Hneg | _]; [lia |]. cbn zeta.
    cbn [Tiler.on_tiler Tiler.tiler Tiler.set_showSourceCycle Tiler.m_showStreamId
         Tiler.m_showSourceTimerId].
    destruct (Z.eqb_spec streamId (Tiler.m_showStreamId (Tiler.tiler w)));
      [contradiction |].
    rewrite andb_false_r. cbn [negb].
    match goal with |- context [SetShowSource_1 streamId ?v] =>
      pose proof (SetShowSource_1_spec streamId v) as Hspec;
      destruct (SetShowSource_1 streamId v) as [ok w1] end.
    cbn [fst snd] in Hspec. destruct Hspec as (_ & _ & Hshown & _ & Hok).
    assert (ok = true) as -> by (apply Hok; right; exact Hreg).
    specialize (Hshown eq_refl). cbn [negb].
    destruct (negb _); cbn [fst snd]; split; try reflexivity; exact Hshown.
Qed.


Lemma cancelShowSourceTimer_spec (w : Tiler.World) :
  let w' := Tiler.cancelShowSourceTimer w in
  Tiler.m_showSourceTimerId (Tiler.tiler w') = 0
  /\ GLib.sources (Tiler.loop w') =
       cancelled (Tiler.m_showSourceTimerId (Tiler.tiler w)) (GLib.sources (Tiler.loop w))
  /\ Tiler.bintr (Tiler.tiler w') = Tiler.bintr (Tiler.tiler w)
  /\ Tiler.m_showStreamId (Tiler.tiler w') = Tiler.m_showStreamId (Tiler.tiler w).
Proof.
  unfold Tiler.cancelShowSourceTimer, Tiler.cancelled. cbn zeta.
  destruct (Z.eqb_spec (Tiler.m_showSourceTimerId (Tiler.tiler w)) 0) as [Hz | Hnz];
    cbn; repeat split; try reflexivity. exact Hz.
Qed.

(** C6, amended.  [CycleAllSources(0)] returns [false] and changes nothing.
    With another timeout the call returns [true]; it detaches the running
    show-source timer, sets the cycle flag and the timeout, and sets the
    remaining ticks to ten times the timeout modulo 2^32; it shows slot 0
    when slot 0 names a registered source and keeps the shown slot
    otherwise; and, when the remaining ticks are not zero, it attaches one
    new 100 ms show-source timer, whose id becomes the timer handle. *)
Theorem CycleAllSources_restarts_cycle :
  forall (w : Tiler.World) (timeout : Z),
    CycleAllSources 0 w = (false, w)
    /\ (timeout <> 0 ->
        let r := CycleAllSources timeout w in
        let t := Tiler.tiler w in
        let t' := Tiler.tiler (snd r) in
        fst r = true
        /\ Tiler.m_showSourceCycle t' = true
        /\ Tiler.m_showSourceTimeout t' = timeout
        /\ Tiler.m_showSourceCounter t' = to_uint (timeout * 10)
        /\ (is_Some (names !! sourceIdOf t 0) -> Tiler.m_showStreamId t' = 0)
        /\ (names !! sourceIdOf t 0 = None ->
              Tiler.m_showStreamId t' = Tiler.m_showStreamId t)
        /\ (to_uint (timeout * 10) <> 0 ->
              0 < Tiler.m_showSourceTimerId t'
              /\ exists notify,
                   notifyOnly notify
                   /\ GLib.sources (Tiler.loop (snd r)) =
                        cancelled (Tiler.m_showSourceTimerId t)
                                  (GLib.sources (Tiler.loop w))
                        ++ notify
                        ++ [GLib.mkGSource (Tiler.m_showSourceTimerId t')
                              100 GLib.ShowSourceTimerHandler])).
Proof.
  intros w timeout. split; [reflexivity |].
  intros Hnz. unfold Tiler.CycleAllSources.
  destruct (Z.eqb_spec timeout 0) as [? | _]; [contradiction |]. cbn zeta.
  destruct (cancelShowSourceTimer_spec w) as (Hid & Hsrc & Hb & Hshown).
  set (w0 := Tiler.cancelShowSourceTimer w) in *.
  set (w1 := Tiler.on_tiler (Tiler.set_showSourceTimeout timeout)
               (Tiler.on_tiler (Tiler.set_showSourceCycle true) w0)).
  pose proof (SetShowSource_1_spec 0 w1) as Hspec. cbn zeta in Hspec.
  destruct (SetShowSource_1 0 w1) as [ok w2]. cbn [fst snd] in *.
  destruct Hspec as ((Hb2 & Hto & Hcnt & Htid & Hcyc) & (notify & Hadd & Hnotify)
                     & Hshown1 & Hkept & Hok).
  assert (Hsid : sourceIdOf (Tiler.tiler w1) 0 = sourceIdOf (Tiler.tiler w) 0).
  { unfold Tiler.sourceIdOf. cbn. rewrite Hb. reflexivity. }
  rewrite Hsid in Hok.
  assert (Hshow :
    (is_Some (names !! sourceIdOf (Tiler.tiler w) 0) ->
       Tiler.m_showStreamId (Tiler.tiler w2) = 0)
    /\ (names !! sourceIdOf (Tiler.tiler w) 0 = None ->
       Tiler.m_showStreamId (Tiler.tiler w2) = Tiler.m_showStreamId (Tiler.tiler w))).
  { split.
    - intros Hreg. apply Hshown1, Hok. right. exact Hreg.
    - intros Hnone. destruct ok.
      + destruct (proj1 Hok eq_refl) as [? | [x Hx']]; [discriminate | congruence].
      + destruct (Hkept eq_refl) as [-> _]. cbn. exact Hshown. }
  destruct Hshow as [Hreg Hunreg].
  cbn [Tiler.on_tiler Tiler.tiler Tiler.loop Tiler.set_showSourceCounter
       Tiler.m_showSourceTimerId Tiler.m_showSourceCounter Tiler.m_showSourceTimeout].
  rewrite Htid, Hto. cbn [w1 Tiler.on_tiler Tiler.tiler Tiler.set_showSourceTimeout
    Tiler.set_showSourceCycle Tiler.m_showSourceTimerId Tiler.m_showSourceTimeout].
  rewrite Hid. cbn [Z.eqb andb].
  change (timeout * Tiler.TICKS_PER_SECOND) with (timeout * 10).
  destruct (Z.eqb_spec (to_uint (timeout * 10)) 0) as [Hzero | Hticks]; cbn [negb fst snd].
  - cbn. rewrite Hcyc, Hto. cbn. repeat split; auto; contradiction.
  - cbn. rewrite Hcyc, Hto. cbn. repeat split; auto; try lia.
    exists notify. split; [exact Hnotify |].
    unfold Tiler.addedSources in Hadd. rewrite Hadd. cbn. rewrite Hsrc.
    rewrite <- app_assoc. reflexivity.
Qed.

(** C2, amended.  On a linked Tiler a tick takes one off the remaining ticks
    (modulo 2^32) and, while they are not zero, changes nothing else and
    returns "continue".  When they reach zero while cycling (batch size
    between 1 and 2^31), the handler resets them to ten times the timeout,
    returns "continue" and keeps the timer handle; it advances the shown
    slot to (slot + 1) mod batchSize when that slot names a registered
    source and keeps the shown slot otherwise.  When they reach zero while
    not cycling, the handler clears the timer handle, shows all slots (-1)
    and returns "stop"; the main loop then detaches the timer. *)
Theorem HandleShowSourceTimer_tick :
  forall (w : Tiler.World),
    Tiler.IsLinked (Tiler.tiler w) = true ->
    let t := Tiler.tiler w in
    let ticks := to_uint (Tiler.m_showSourceCounter t - 1) in
    let batchSize := Bintr.m_batchSize (Tiler.bintr t) in
    (ticks <> 0 ->
       HandleShowSourceTimer w =
         Some (true, Tiler.on_tiler (Tiler.set_showSourceCounter ticks) w))
    /\ (ticks = 0 -> Tiler.m_showSourceCycle t = true ->
        0 < batchSize <= 2 ^ 31 ->
        -1 <= Tiler.m_showStreamId t < 2 ^ 31 - 1 ->
        let next := (Tiler.m_showStreamId t + 1) mod batchSize in
        exists w',
          HandleShowSourceTimer w = Some (true, w')
          /\ Tiler.m_showSourceCounter (Tiler.tiler w') =
               to_uint (Tiler.m_showSourceTimeout t * 10)
          /\ Tiler.m_showSourceTimerId (Tiler.tiler w') = Tiler.m_showSourceTimerId t
          /\ Tiler.m_showSourceCycle (Tiler.tiler w') = true
          /\ (is_Some (names !! sourceIdOf t next) ->
                Tiler.m_showStreamId (Tiler.tiler w') = next)
          /\ (names !! sourceIdOf t next = None ->
                Tiler.m_showStreamId (Tiler.tiler w') = Tiler.m_showStreamId t))
    /\ (ticks = 0 -> Tiler.m_showSourceCycle t = false ->
        (exists w',
           HandleShowSourceTimer w = Some (false, w')
           /\ Tiler.m_showSourceTimerId (Tiler.tiler w') = 0
           /\ Tiler.m_showStreamId (Tiler.tiler w') = -1)
        /\ forall s,
             List.find (fun s => GLib.source_id s =? Tiler.m_showSourceTimerId t)
                       (GLib.sources (Tiler.loop w)) = Some s ->
             GLib.callback s = GLib.ShowSourceTimerHandler ->
             exists w'',
               dispatch (Tiler.m_showSourceTimerId t) w = Some w''
               /\ Tiler.m_showSourceTimerId (Tiler.tiler w'') = 0
               /\ Tiler.m_showStreamId (Tiler.tiler w'') = -1
               /\ GLib.attached (Tiler.m_showSourceTimerId t) (Tiler.loop w'') = false).
Proof.
  intros w Hlinked t ticks batchSize.
  assert (Hstop : ticks = 0 -> Tiler.m_showSourceCycle t = false ->
    exists w',
      HandleShowSourceTimer w = Some (false, w')
      /\ Tiler.m_showSourceTimerId (Tiler.tiler w') = 0
      /\ Tiler.m_showStreamId (Tiler.tiler w') = -1).
  { intros Hzero Hcycle. unfold Tiler.HandleShowSourceTimer.
    rewrite Hlinked. cbn [negb]. cbn zeta.
    cbn [Tiler.on_tiler Tiler.tiler Tiler.set_showSourceCounter
         Tiler.m_showSourceCounter Tiler.m_showSourceCycle].
    fold t. fold ticks. rewrite Hzero, Hcycle. cbn [Z.eqb].
    match goal with |- context [SetShowSource_1 (-1) ?v] =>
      pose proof (SetShowSource_1_spec (-1) v) as Hspec;
      destruct (SetShowSource_1 (-1) v) as [ok w1] end.
    cbn [fst snd] in *.
    destruct Hspec as ((_ & _ & _ & Htid & _) & _ & Hshown & _ & Hok).
    eexists. split; [reflexivity |]. split.
    - rewrite Htid. reflexivity.
    - apply Hshown, Hok. left. reflexivity. }
  split; [| split].
  - intros Hticks. unfold Tiler.HandleShowSourceTimer.
    rewrite Hlinked. cbn [negb]. cbn zeta.
    cbn [Tiler.on_tiler Tiler.tiler Tiler.set_showSourceCounter Tiler.m_showSourceCounter].
    fold t. fold ticks.
    destruct (Z.eqb_spec ticks 0); [contradiction | reflexivity].
  - intros Hzero Hcycle Hbatch Hslot next.
    unfold Tiler.HandleShowSourceTimer.
    rewrite Hlinked. cbn [negb]. cbn zeta.
    cbn [Tiler.on_tiler Tiler.tiler Tiler.set_showSourceCounter
         Tiler.m_showSourceCounter Tiler.m_showSourceCycle Tiler.bintr
         Tiler.m_showSourceTimeout Tiler.m_showStreamId].
    fold t. fold ticks. fold batchSize. rewrite Hzero, Hcycle. cbn [Z.eqb].
    destruct (Z.eqb_spec batchSize 0); [lia |].
    assert (Hnext : to_int (to_uint (Tiler.m_showStreamId t + 1) mod batchSize) = next).
    { rewrite to_uint_small by (unfold UINT_MODULUS; lia).
      apply to_int_small.
      pose proof (Z.mod_pos_bound (Tiler.m_showStreamId t + 1) batchSize). lia. }
    rewrite Hnext.
    match goal with |- context [SetShowSource_1 next ?v] =>
      pose proof (SetShowSource_1_spec next v) as Hspec;
      destruct (SetShowSource_1 next v) as [ok w1] end.
    cbn [fst snd] in *.
    destruct Hspec as ((_ & _ & Hcnt & Htid & Hcyc) & _ & Hshown & Hkept & Hok).
    exists w1. split; [reflexivity |].
    repeat split.
    + rewrite Hcnt. reflexivity.
    + rewrite Htid. reflexivity.
    + rewrite Hcyc. cbn. exact Hcycle.
    + intros Hreg. apply Hshown, Hok. right. exact Hreg.
    + intros Hnone. destruct ok.
      * destruct (proj1 Hok eq_refl) as [Hm1 | [x Hx]].
        -- pose proof (Z.mod_pos_bound (Tiler.m_showStreamId t + 1) batchSize).
           unfold next in Hm1. lia.
        -- unfold Tiler.sourceIdOf in Hx, Hnone. cbn in Hx. fold t in Hx. congruence.
      * destruct (Hkept eq_refl) as [-> _]. reflexivity.
  - intros Hzero Hcycle. split; [exact (Hstop Hzero Hcycle) |].
    intros s Hfind Hcb.
    destruct (Hstop Hzero Hcycle) as (w' & Hrun & Htid & Hshown).
    unfold Tiler.dispatch. fold t. rewrite Hfind, Hcb, Hrun.
    eexists. split; [reflexivity |]. cbn [Tiler.tiler Tiler.loop].
    repeat split; try assumption.
    unfold GLib.attached, GLib.g_source_remove, GLib.detach. cbn [GLib.sources].
    apply not_true_is_false. intros Hex.
    apply existsb_exists in Hex as (x & Hin & Hx).
    apply filter_In in Hin as (_ & Hkeep). rewrite Hx in Hkeep. discriminate.
Qed.

End TilerFacts.

(** *** The Tiler's theorems at sample inputs *)

Lemma SetShowSource_negative_id_untouched_witness :
  -2 < 0
  /\ Tiler.SetShowSource Fixtures.OFFSET Fixtures.cameras (-2) 5 true Fixtures.cycling0
     = (false, Fixtures.cycling0).
Proof.
  split; [lia |].
  apply (SetShowSource_negative_id_untouched Fixtures.OFFSET Fixtures.cameras
           Fixtures.cycling0 (-2) 5 true).
  lia.
Defined.

(** [SetShowSource(2, 5, false)] on the idle Tiler succeeds; a following
    [SetShowSource(1, 5, false)] fails and stream 2 stays shown; the same
    call with precedence succeeds and stream 1 is shown. *)
Lemma SetShowSource_other_slot_while_timer_runs_witness :
  let without :=
    Tiler.SetShowSource Fixtures.OFFSET Fixtures.threeCameras 1 5 false Fixtures.afterShow2 in
  let with_ :=
    Tiler.SetShowSource Fixtures.OFFSET Fixtures.threeCameras 1 5 true Fixtures.afterShow2 in
  fst (Tiler.SetShowSource Fixtures.OFFSET Fixtures.threeCameras 2 5 false Fixtures.idle)
    = true
  /\ fst without = false
  /\ Tiler.m_showStreamId (Tiler.tiler (snd without)) = 2
  /\ Tiler.m_showSourceCounter (Tiler.tiler (snd without)) = 50
  /\ fst with_ = true
  /\ Tiler.m_showStreamId (Tiler.tiler (snd with_)) = 1.
Proof.
  assert (Htimer : Tiler.m_showSourceTimerId (Tiler.tiler Fixtures.afterShow2) <> 0)
    by (vm_compute; discriminate).
  assert (Hother : 1 <> Tiler.m_showStreamId (Tiler.tiler Fixtures.afterShow2))
    by (vm_compute; discriminate).
  destruct (SetShowSource_other_slot_while_timer_runs Fixtures.OFFSET
              Fixtures.threeCameras Fixtures.afterShow2 1 5 Htimer Hother)
    as [(Hres & Hshown & _ & Hticks & _) Hwith].
  assert (Hreg : is_Some (Fixtures.threeCameras
                   !! Tiler.sourceIdOf Fixtures.OFFSET (Tiler.tiler Fixtures.afterShow2) 1))
    by (exists "camera-1"%string; vm_compute; reflexivity).
  destruct (Hwith ltac:(lia) Hreg) as (Hres' & Hshown').
  split; [vm_compute; reflexivity |].
  split; [exact Hres |].
  split; [rewrite Hshown; vm_compute; reflexivity |].
  split; [rewrite Hticks; vm_compute; reflexivity |].
  split; [exact Hres' | exact Hshown'].
Defined.

(** A request without precedence made while the Tiler cycles is refused and
    yet ends the cycling; a request with precedence for a slot that names no
    registered source is refused. *)
Lemma SetShowSource_other_slot_counterexample :
  ~ Tiler.precedenceAsWorded Fixtures.OFFSET Fixtures.cameras Fixtures.cycling0 2 5
  /\ ~ Tiler.precedenceAsWorded Fixtures.OFFSET Fixtures.cameras Fixtures.showing2 1 5.
Proof.
  split; intros Hworded.
  - assert (Htimer : Tiler.m_showSourceTimerId (Tiler.tiler Fixtures.cycling0) <> 0)
      by (simpl; lia).
    assert (Hother : 2 <> Tiler.m_showStreamId (Tiler.tiler Fixtures.cycling0))
      by (simpl; lia).
    destruct (Hworded Htimer Hother) as [[_ (_ & _ & _ & Hcycle & _)] _].
    vm_compute in Hcycle. discriminate.
  - assert (Htimer : Tiler.m_showSourceTimerId (Tiler.tiler Fixtures.showing2) <> 0)
      by (simpl; lia).
    assert (Hother : 1 <> Tiler.m_showStreamId (Tiler.tiler Fixtures.showing2))
      by (simpl; lia).
    destruct (Hworded Htimer Hother) as [_ [Hres _]].
    vm_compute in Hres. discriminate.
Defined.

Lemma CycleAllSources_restarts_cycle_witness :
  let r := Tiler.CycleAllSources Fixtures.OFFSET Fixtures.cameras 2 Fixtures.showing2 in
  fst r = true
  /\ Tiler.m_showSourceCycle (Tiler.tiler (snd r)) = true
  /\ Tiler.m_showSourceCounter (Tiler.tiler (snd r)) = 20
  /\ Tiler.m_showStreamId (Tiler.tiler (snd r)) = 0
  /\ 0 < Tiler.m_showSourceTimerId (Tiler.tiler (snd r)).
Proof.
  destruct (CycleAllSources_restarts_cycle Fixtures.OFFSET Fixtures.cameras
              Fixtures.showing2 2) as [_ Hcycle].
  assert (Hnz : 2 <> 0) by lia.
  destruct (Hcycle Hnz) as (Hres & Hflag & _ & Hticks & Hzero & _ & Htimer).
  split; [exact Hres |]. split; [exact Hflag |]. split; [exact Hticks |].
  split.
  - apply Hzero. exists "camera-0"%string. vm_compute. reflexivity.
  - apply Htimer. vm_compute. discriminate.
Defined.

(** With no source registered for slot 0 the shown slot stays at -1; with a
    timeout of 2^31 seconds the tick count wraps to zero and no timer is
    started. *)
Lemma CycleAllSources_counterexample :
  ~ Tiler.cycleAsWorded Fixtures.OFFSET Fixtures.camera1_only Fixtures.idle 2
  /\ ~ Tiler.cycleAsWorded Fixtures.OFFSET Fixtures.cameras Fixtures.idle (2 ^ 31).
Proof.
  split; intros Hworded.
  - assert (Hrange : 0 < 2 < UINT_MODULUS) by (unfold UINT_MODULUS; lia).
    destruct (Hworded Hrange) as (_ & _ & Hshown & _).
    vm_compute in Hshown. discriminate.
  - assert (Hrange : 0 < 2 ^ 31 < UINT_MODULUS) by (unfold UINT_MODULUS; lia).
    destruct (Hworded Hrange) as (_ & _ & _ & Htimer).
    apply Htimer. vm_compute. reflexivity.
Defined.

(** The last tick of a single-source show: the timer stops, all sources
    are shown and the main loop detaches timer 1.  The last tick of a period
    while cycling at stream 2 of 3: the timer goes on for another 20 ticks
    and stream 0 is shown. *)
Lemma HandleShowSourceTimer_tick_witness :
  (exists w'',
     Tiler.dispatch Fixtures.OFFSET Fixtures.cameras 1 Fixtures.showing2_lastTick = Some w''
     /\ Tiler.m_showSourceTimerId (Tiler.tiler w'') = 0
     /\ Tiler.m_showStreamId (Tiler.tiler w'') = -1
     /\ GLib.attached 1 (Tiler.loop w'') = false)
  /\ (exists w',
        Tiler.HandleShowSourceTimer Fixtures.OFFSET Fixtures.cameras
          Fixtures.cycling2_lastTick = Some (true, w')
        /\ Tiler.m_showSourceCounter (Tiler.tiler w') = 20
        /\ Tiler.m_showStreamId (Tiler.tiler w') = 0).
Proof.
  split.
  - assert (Hlinked : Tiler.IsLinked (Tiler.tiler Fixtures.showing2_lastTick) = true)
      by reflexivity.
    destruct (HandleShowSourceTimer_tick Fixtures.OFFSET Fixtures.cameras
                Fixtures.showing2_lastTick Hlinked) as (_ & _ & Hstop).
    destruct (Hstop eq_refl eq_refl) as [_ Hloop].
    apply (Hloop (Fixtures.showSourceTimer 1)); reflexivity.
  - assert (Hlinked : Tiler.IsLinked (Tiler.tiler Fixtures.cycling2_lastTick) = true)
      by reflexivity.
    destruct (HandleShowSourceTimer_tick Fixtures.OFFSET Fixtures.cameras
                Fixtures.cycling2_lastTick Hlinked) as (_ & Hcycle & _).
    assert (Hbatch : 0 < Bintr.m_batchSize (Tiler.bintr (Tiler.tiler Fixtures.cycling2_lastTick))
                     <= 2 ^ 31) by (simpl; lia).
    assert (Hslot : -1 <= Tiler.m_showStreamId (Tiler.tiler Fixtures.cycling2_lastTick)
                    < 2 ^ 31 - 1) by (simpl; lia).
    destruct (Hcycle eq_refl eq_refl Hbatch Hslot)
      as (w' & Hrun & Hticks & _ & _ & Hnext & _).
    exists w'. split; [exact Hrun |]. split; [exact Hticks |].
    apply Hnext. exists "camera-0"%string. vm_compute. reflexivity.
Defined.

(** Cycling over three streams of which stream 1 is not registered: on
    expiry the shown slot stays at 0. *)
Lemma HandleShowSourceTimer_tick_counterexample :
  ~ Tiler.tickAsWorded Fixtures.OFFSET Fixtures.cameras Fixtures.cycling0_lastTick.
Proof.
  intros Hworded.
  destruct (Hworded eq_refl eq_refl eq_refl) as (w' & Hrun & _ & Hshown).
  vm_compute in Hrun. injection Hrun as <-.
  vm_compute in Hshown. discriminate.
Defined.

(** ** The minimalist Player *)

Section PlayerFacts.

Variable c : Player.Collaborators.

(** C4.  [LinkAll] returns [false], calls nothing and changes nothing when
    the Source or the Sink is missing or the Player is linked already.
    Otherwise it links the Source, then the Sink, then the Source to the
    Sink, stopping at the first failure; it returns [true] and sets
    [m_isLinked] exactly when all three succeed, and on a failure the Player
    is as before, not linked. *)
Theorem LinkAll_links_source_sink_in_order :
  forall p : Player.PlayerBintr,
    (Player.m_pSource p = None \/ Player.m_pSink p = None
     \/ Player.IsLinked p = true ->
       Player.LinkAll c p = (false, p, []))
    /\ (Player.m_pSource p <> None -> Player.m_pSink p <> None ->
        Player.IsLinked p = false ->
        let allOk := Player.source_LinkAll c && Player.sink_LinkAll c
                     && Player.source_LinkToSink c in
        let r := Player.LinkAll c p in
        fst (fst r) = allOk
        /\ Player.IsLinked (snd (fst r)) = allOk
        /\ snd r = Player.linkCalls c
        /\ (allOk = false -> snd (fst r) = p)).
Proof.
  intros p. unfold Player.LinkAll, Player.IsLinked, Bintr.IsLinked. split.
  - intros [Hsrc | [Hsink | Hlinked]].
    + rewrite Hsrc. reflexivity.
    + rewrite Hsink. rewrite orb_true_r. reflexivity.
    + rewrite Hlinked. destruct (_ || _); reflexivity.
  - intros Hsrc Hsink Hunlinked.
    destruct (Player.m_pSource p); [| contradiction].
    destruct (Player.m_pSink p); [| contradiction].
    cbn [Player.is_null orb]. rewrite Hunlinked.
    unfold Player.linkChildren, Player.linkCalls.
    destruct (Player.source_LinkAll c), (Player.sink_LinkAll c),
      (Player.source_LinkToSink c); cbn;
      repeat split; try reflexivity; try assumption; try discriminate.
Qed.

Lemma listenerCalls_app (xs ys : list Player.Event) :
  Player.listenerCalls (xs ++ ys) = Player.listenerCalls xs ++ Player.listenerCalls ys.
Proof. unfold Player.listenerCalls. apply omap_app. Qed.

Lemma listenerCalls_callListeners (listeners : list (Z * Z)) :
  Player.listenerCalls (Player.callListeners c listeners) = listeners.
Proof.
  induction listeners as [| [l d] rest IH]; [reflexivity |].
  cbn [Player.callListeners].
  change (Player.ListenerCalled l d :: ?x)
    with ([Player.ListenerCalled l d] ++ x).
  rewrite !listenerCalls_app, IH.
  destruct (Player.listener_throws c l); reflexivity.
Qed.

Lemma UnlinkAll_spec (p : Player.PlayerBintr) :
  let r := Player.UnlinkAll c p in
  Player.listenerCalls (snd r) = []
  /\ Player.m_terminationEventListeners (fst r) = Player.m_terminationEventListeners p
  /\ (Player.m_pSource p <> None -> Player.m_pSink p <> None ->
      Player.source_UnlinkFromSink c = true ->
      Player.IsLinked (fst r) = false)
  /\ (Player.IsLinked p = true -> Player.m_pSource p <> None ->
      Player.m_pSink p <> None -> Player.source_UnlinkFromSink c = false ->
      fst r = p).
Proof.
  unfold Player.UnlinkAll, Player.IsLinked, Bintr.IsLinked.
  destruct (Player.m_pSource p), (Player.m_pSink p); cbn [Player.is_null orb];
    try (cbn; repeat split; auto; intros; congruence).
  destruct (Bintr.m_isLinked (Player.bintr p)) eqn:Hlinked; cbn [negb].
  - destruct (Player.source_UnlinkFromSink c); cbn;
      repeat split; auto; intros; congruence.
  - cbn. repeat split; auto; intros; congruence.
Qed.

Lemma HandleStop_spec (p : Player.PlayerBintr) :
  let r := Player.HandleStop c p in
  Player.listenerCalls (snd r) = map_to_list (Player.m_terminationEventListeners p)
  /\ Player.m_terminationEventListeners (fst r) = Player.m_terminationEventListeners p
  /\ (Player.m_pSource p <> None -> Player.m_pSink p <> None ->
      Player.source_UnlinkFromSink c = true ->
      Player.IsLinked (fst r) = false).
Proof.
  unfold Player.HandleStop.
  pose proof (UnlinkAll_spec p) as Hun. cbn zeta in Hun.
  destruct (Player.UnlinkAll c p) as [p1 unlinked]. cbn [fst snd] in *.
  destruct Hun as (Hnone & Hsame & Hunlinks & _).
  split; [| split; assumption].
  rewrite !listenerCalls_app, Hnone, listenerCalls_callListeners, Hsame.
  destruct (Player.g_main_loop_is_running c); reflexivity.
Qed.

(** C3, amended.  [Stop] on a Player that is not linked returns [false],
    calls nothing and changes nothing.  On a linked Player it returns
    [true] and calls every registered termination listener exactly once,
    whichever of them throw; the Player ends not linked when unlinking the
    Source from the Sink succeeds. *)
Theorem Stop_unlinks_and_calls_each_listener_once :
  forall p : Player.PlayerBintr,
    (Player.IsLinked p = false -> Player.Stop c p = (false, p, []))
    /\ (Player.IsLinked p = true ->
        let r := Player.Stop c p in
        let listeners := Player.m_terminationEventListeners p in
        fst (fst r) = true
        /\ NoDup (Player.listenerCalls (snd r))
        /\ (forall l d, (l, d) ∈ Player.listenerCalls (snd r) <-> listeners !! l = Some d)
        /\ Player.m_terminationEventListeners (snd (fst r)) = listeners
        /\ (Player.m_pSource p <> None -> Player.m_pSink p <> None ->
            Player.source_UnlinkFromSink c = true ->
            Player.IsLinked (snd (fst r)) = false)).
Proof.
  intros p. unfold Player.Stop. split.
  - intros Hunlinked. rewrite Hunlinked. reflexivity.
  - intros Hlinked. rewrite Hlinked. cbn [negb].
    pose proof (HandleStop_spec p) as Hstop. cbn zeta in Hstop.
    destruct (Player.HandleStop c p) as [p1 handled]. cbn [fst snd] in Hstop.
    destruct Hstop as (Hcalls & Hsame & Hunlinks).
    assert (Hall : forall pre, Player.listenerCalls pre = [] ->
      Player.listenerCalls (pre ++ handled)
      = map_to_list (Player.m_terminationEventListeners p)).
    { intros pre Hpre. rewrite listenerCalls_app, Hpre, Hcalls. reflexivity. }
    destruct (Player.g_main_loop_is_running c); cbn [fst snd];
      (split; [reflexivity |]);
      rewrite Hall by reflexivity;
      (split; [apply NoDup_map_to_list |]);
      (split; [intros l d; apply elem_of_map_to_list |]);
      (split; [exact Hsame | exact Hunlinks]).
Qed.

End PlayerFacts.

(** *** The Player's theorems at sample inputs *)

Lemma LinkAll_links_source_sink_in_order_witness :
  let good := Player.LinkAll Fixtures.cooperative (Fixtures.player false) in
  let bad := Player.LinkAll Fixtures.sinkFails (Fixtures.player false) in
  (fst (fst good) = true
   /\ Player.IsLinked (snd (fst good)) = true
   /\ snd good = [Player.SourceLinkAll; Player.SinkLinkAll; Player.SourceLinkToSink])
  /\ (fst (fst bad) = false
      /\ snd (fst bad) = Fixtures.player false
      /\ snd bad = [Player.SourceLinkAll; Player.SinkLinkAll])
  /\ Player.LinkAll Fixtures.cooperative (Fixtures.player true)
     = (false, Fixtures.player true, []).
Proof.
  assert (Hsrc : Player.m_pSource (Fixtures.player false) <> None) by discriminate.
  assert (Hsink : Player.m_pSink (Fixtures.player false) <> None) by discriminate.
  destruct (LinkAll_links_source_sink_in_order Fixtures.cooperative
              (Fixtures.player false)) as [_ Hgood].
  destruct (Hgood Hsrc Hsink eq_refl) as (Hres & Hlinked & Hcalls & _).
  destruct (LinkAll_links_source_sink_in_order Fixtures.sinkFails
              (Fixtures.player false)) as [_ Hbad].
  destruct (Hbad Hsrc Hsink eq_refl) as (Hres' & _ & Hcalls' & Hsame).
  destruct (LinkAll_links_source_sink_in_order Fixtures.cooperative
              (Fixtures.player true)) as [Hrefused _].
  split; [| split].
  - split; [exact Hres |]. split; [exact Hlinked | exact Hcalls].
  - split; [exact Hres' |]. split; [exact (Hsame eq_refl) | exact Hcalls'].
  - apply Hrefused. right. right. reflexivity.
Defined.

(** Listener 101 throws; both listeners are called, and the Player ends
    not linked, with or without a running main loop. *)
Lemma Stop_unlinks_and_calls_each_listener_once_witness :
  let r := Player.Stop Fixtures.cooperative (Fixtures.player true) in
  let r' := Player.Stop Fixtures.cooperativeLooping (Fixtures.player true) in
  fst (fst r) = true
  /\ Player.IsLinked (snd (fst r)) = false
  /\ NoDup (Player.listenerCalls (snd r))
  /\ (101, 7) ∈ Player.listenerCalls (snd r)
  /\ (102, 8) ∈ Player.listenerCalls (snd r)
  /\ Player.IsLinked (snd (fst r')) = false
  /\ (101, 7) ∈ Player.listenerCalls (snd r')
  /\ Player.Stop Fixtures.cooperative (Fixtures.player false)
     = (false, Fixtures.player false, []).
Proof.
  destruct (Stop_unlinks_and_calls_each_listener_once Fixtures.cooperative
              (Fixtures.player true)) as [_ Hlinked].
  destruct (Hlinked eq_refl) as (Hres & Hnodup & Hcalled & _ & Hunlinked).
  destruct (Stop_unlinks_and_calls_each_listener_once Fixtures.cooperativeLooping
              (Fixtures.player true)) as [_ Hlinked'].
  destruct (Hlinked' eq_refl) as (_ & _ & Hcalled' & _ & Hunlinked').
  destruct (Stop_unlinks_and_calls_each_listener_once Fixtures.cooperative
              (Fixtures.player false)) as [Hidle _].
  split; [exact Hres |].
  split; [apply Hunlinked; [discriminate | discriminate | reflexivity] |].
  split; [exact Hnodup |].
  split; [apply Hcalled; reflexivity |].
  split; [apply Hcalled; reflexivity |].
  split; [apply Hunlinked'; [discriminate | discriminate | reflexivity] |].
  split; [apply Hcalled'; reflexivity |].
  apply Hidle. reflexivity.
Defined.

(** When the Source cannot be unlinked from the Sink, [Stop] returns [true]
    and the Player is still linked. *)
Lemma Stop_counterexample :
  ~ Player.stopAsWorded Fixtures.stuck (Fixtures.player true).
Proof.
  intros Hworded. destruct (Hworded eq_refl) as [_ Hunlinked].
  vm_compute in Hunlinked. discriminate.
Defined.

(** ** The pipeline services *)

Section ServicesFacts.

Variable PipelineBintr : Type.
Variable SetStreammuxNumSurfacesPerFrame :
  Services.streammux_type -> Z -> PipelineBintr -> Services.Outcome * PipelineBintr.
Variable SetAudiomixVolume :
  string -> float -> PipelineBintr -> Services.Outcome * PipelineBintr.

Abbreviation NumSurfacesPerFrameSet :=
  (Services.PipelineStreammuxNumSurfacesPerFrameSet PipelineBintr
     SetStreammuxNumSurfacesPerFrame).
Abbreviation AudiomixVolumeSet :=
  (Services.PipelineAudiomixVolumeSet PipelineBintr SetAudiomixVolume).

(** C10.  For a pipeline that exists, a num-surfaces-per-frame above 4 is
    answered with [DSL_RESULT_PIPELINE_STREAMMUX_SET_FAILED] and the
    services are left as they were, whatever the engine would have done;
    a value of at most 4 is handed to the engine's setter, whose outcome
    and updated pipeline are what the service returns. *)
Theorem NumSurfacesPerFrameSet_above_4_refused :
  forall (s : Services.Services PipelineBintr) (name : string)
         (streammux : Services.streammux_type) (num : Z)
         (pipeline : PipelineBintr),
    Services.m_pipelines PipelineBintr s !! name = Some pipeline ->
    (4 < num ->
       NumSurfacesPerFrameSet name streammux num s
       = (Services.DSL_RESULT_PIPELINE_STREAMMUX_SET_FAILED, s))
    /\ (num <= 4 ->
        let e := SetStreammuxNumSurfacesPerFrame streammux num pipeline in
        NumSurfacesPerFrameSet name streammux num s
        = (Services.resultOf (fst e) Services.DSL_RESULT_PIPELINE_STREAMMUX_SET_FAILED,
           Services.set_pipeline PipelineBintr name (snd e) s)).
Proof.
  intros s name streammux num pipeline Hfound.
  unfold Services.PipelineStreammuxNumSurfacesPerFrameSet. rewrite Hfound.
  split; intros Hnum.
  - destruct (Z.ltb_spec 4 num); [reflexivity | lia].
  - destruct (Z.ltb_spec 4 num); [lia |]. cbn zeta.
    destruct (SetStreammuxNumSurfacesPerFrame streammux num pipeline)
      as [[[|] |] pipeline']; reflexivity.
Qed.

(** C5.  Setting the volume to a value outside the closed interval
    [0.0, 10.0] is never answered with success and leaves the services, and
    so the previous volume and every port of every pipeline, as they were.
    A value below 0.0 or above 10.0 is refused by the range check of the
    service itself, whatever the engine would have done; a value outside
    the interval that passes that check, as a NaN does, is refused by the
    mixer of the specification.  The volumes 0.0 and 10.0 pass the range
    check: for a pipeline and an audio source that exist they are handed to
    the engine's setter, whose outcome and updated pipeline are what the
    service returns.  With the mixer of the specification as the engine,
    the call succeeds for a source that has a port, whose volume becomes
    the new one while every other port is kept. *)
Theorem AudiomixVolumeSet_range_inclusive :
  forall (s : Services.Services PipelineBintr) (name source : string)
         (volume : float),
    (Services.outsideVolumeRange volume ->
       forall m : Services.Services (gmap string Audiomix.Port),
         let r := Services.PipelineAudiomixVolumeSet _ Audiomix.SetAudiomixVolume
                    name source volume m in
         fst r <> Services.DSL_RESULT_SUCCESS /\ snd r = m)
    /\ (PrimFloat.ltb volume 0%float || PrimFloat.ltb 10%float volume = true ->
        fst (AudiomixVolumeSet name source volume s) <> Services.DSL_RESULT_SUCCESS
        /\ snd (AudiomixVolumeSet name source volume s) = s)
    /\ (volume = 0%float \/ volume = 10%float ->
        forall pipeline,
          Services.m_pipelines PipelineBintr s !! name = Some pipeline ->
          Services.m_components PipelineBintr s !! source
            = Some Services.AudioSourceBintr ->
          let e := SetAudiomixVolume source volume pipeline in
          AudiomixVolumeSet name source volume s
          = (Services.resultOf (fst e) Services.DSL_RESULT_PIPELINE_AUDIOMIX_SET_FAILED,
             Services.set_pipeline PipelineBintr name (snd e) s))
    /\ (volume = 0%float \/ volume = 10%float ->
        forall (m : Services.Services (gmap string Audiomix.Port))
               (ports : gmap string Audiomix.Port) (port : Audiomix.Port),
          Services.m_pipelines _ m !! name = Some ports ->
          Services.m_components _ m !! source = Some Services.AudioSourceBintr ->
          ports !! source = Some port ->
          Services.PipelineAudiomixVolumeSet _ Audiomix.SetAudiomixVolume
            name source volume m
          = (Services.DSL_RESULT_SUCCESS,
             Services.set_pipeline _ name
               (<[source := Audiomix.mkPort (Audiomix.mute port) volume]> ports) m)).
Proof.
  intros s name source volume.
  assert (Hboundary : volume = 0%float \/ volume = 10%float ->
    PrimFloat.ltb volume 0%float || PrimFloat.ltb 10%float volume = false
    /\ PrimFloat.leb 0%float volume && PrimFloat.leb volume 10%float = true).
  { intros [-> | ->]; split; reflexivity. }
  split; [| split; [| split]].
  - intros Hout m r. subst r. unfold Services.PipelineAudiomixVolumeSet.
    destruct (Services.m_pipelines _ m !! name) as [ports |] eqn:Hports;
      [| split; [discriminate | reflexivity]].
    destruct (Services.m_components _ m !! source) as [[|] |];
      try (split; [discriminate | reflexivity]).
    destruct (PrimFloat.ltb volume 0%float || PrimFloat.ltb 10%float volume);
      [split; [discriminate | reflexivity] |].
    unfold Audiomix.SetAudiomixVolume, Audiomix.SetVolume.
    unfold Services.outsideVolumeRange in Hout. rewrite Hout.
    split; [discriminate |].
    unfold Services.set_pipeline. destruct m as [pipelines components].
    cbn in *. rewrite (insert_id _ _ _ Hports). reflexivity.
  - intros Hcheck. unfold Services.PipelineAudiomixVolumeSet.
    destruct (Services.m_pipelines PipelineBintr s !! name);
      [| split; [discriminate | reflexivity]].
    destruct (Services.m_components PipelineBintr s !! source) as [[|] |];
      try (split; [discriminate | reflexivity]).
    rewrite Hcheck. split; [discriminate | reflexivity].
  - intros Hin pipeline Hpipeline Hsource.
    unfold Services.PipelineAudiomixVolumeSet.
    rewrite Hpipeline, Hsource, (proj1 (Hboundary Hin)). cbn zeta.
    destruct (SetAudiomixVolume source volume pipeline) as [[[|] |] pipeline'];
      reflexivity.
  - intros Hin m ports port Hpipeline Hsource Hport.
    unfold Services.PipelineAudiomixVolumeSet.
    rewrite Hpipeline, Hsource, (proj1 (Hboundary Hin)).
    unfold Audiomix.SetAudiomixVolume, Audiomix.SetVolume.
    rewrite (proj2 (Hboundary Hin)), Hport. reflexivity.
Qed.

End ServicesFacts.

(** *** The services' theorems at sample inputs *)

(** A NaN is outside the interval although the service's range check lets
    it through; the infinities are outside and caught by that check. *)
Example range_check_on_special_values :
  Services.outsideVolumeRange nan
  /\ PrimFloat.ltb nan 0%float || PrimFloat.ltb 10%float nan = false
  /\ Services.outsideVolumeRange infinity
  /\ PrimFloat.ltb 10%float infinity = true
  /\ Services.outsideVolumeRange neg_infinity
  /\ PrimFloat.ltb neg_infinity 0%float = true.
Proof. repeat split. Qed.

Lemma NumSurfacesPerFrameSet_above_4_refused_witness :
  Services.PipelineStreammuxNumSurfacesPerFrameSet (Z * Z)
    Fixtures.sampleSetNumSurfaces "studio" Services.DSL_VIDEOMUX 5 Fixtures.surfaces
  = (Services.DSL_RESULT_PIPELINE_STREAMMUX_SET_FAILED, Fixtures.surfaces)
  /\ fst (Services.PipelineStreammuxNumSurfacesPerFrameSet (Z * Z)
            Fixtures.sampleSetNumSurfaces "studio" Services.DSL_VIDEOMUX 4
            Fixtures.surfaces)
     = Services.DSL_RESULT_SUCCESS.
Proof.
  assert (Hfound : Services.m_pipelines (Z * Z) Fixtures.surfaces
                     !! "studio"%string = Some (1, 1)) by reflexivity.
  split.
  - apply (NumSurfacesPerFrameSet_above_4_refused (Z * Z)
             Fixtures.sampleSetNumSurfaces Fixtures.surfaces "studio"
             Services.DSL_VIDEOMUX 5 (1, 1) Hfound).
    lia.
  - destruct (NumSurfacesPerFrameSet_above_4_refused (Z * Z)
                Fixtures.sampleSetNumSurfaces Fixtures.surfaces "studio"
                Services.DSL_VIDEOMUX 4 (1, 1) Hfound) as [_ Hpass].
    rewrite Hpass by lia. reflexivity.
Defined.

(** With the mixer of the specification: 11.0 and a NaN are refused and
    nothing changes; 0.0 and 10.0 are accepted, and 10.0 becomes the
    microphone's volume while the radio keeps its own. *)
Lemma AudiomixVolumeSet_range_inclusive_witness :
  let set v := Services.PipelineAudiomixVolumeSet (gmap string Audiomix.Port)
                 Audiomix.SetAudiomixVolume "studio" "microphone" v
                 Fixtures.services in
  (fst (set 11%float) <> Services.DSL_RESULT_SUCCESS
   /\ snd (set 11%float) = Fixtures.services)
  /\ (fst (set nan) <> Services.DSL_RESULT_SUCCESS
      /\ snd (set nan) = Fixtures.services)
  /\ fst (set 0%float) = Services.DSL_RESULT_SUCCESS
  /\ set 10%float
     = (Services.DSL_RESULT_SUCCESS,
        Services.set_pipeline _ "studio"
          (<["microphone"%string := Audiomix.mkPort false 10%float]> Fixtures.studio)
          Fixtures.services).
Proof.
  intros set.
  assert (Habove : Services.outsideVolumeRange 11%float) by reflexivity.
  assert (Hnan : Services.outsideVolumeRange nan) by reflexivity.
  assert (Hpipeline : Services.m_pipelines _ Fixtures.services
                        !! "studio"%string = Some Fixtures.studio) by reflexivity.
  assert (Hsource : Services.m_components _ Fixtures.services
                      !! "microphone"%string = Some Services.AudioSourceBintr)
    by reflexivity.
  assert (Hport : Fixtures.studio !! "microphone"%string
                  = Some (Audiomix.mkPort false 1%float)) by reflexivity.
  split; [| split; [| split]].
  - destruct (AudiomixVolumeSet_range_inclusive _ Audiomix.SetAudiomixVolume
                Fixtures.services "studio" "microphone" 11%float) as (Hout & _).
    exact (Hout Habove Fixtures.services).
  - destruct (AudiomixVolumeSet_range_inclusive _ Audiomix.SetAudiomixVolume
                Fixtures.services "studio" "microphone" nan) as (Hout & _).
    exact (Hout Hnan Fixtures.services).
  - destruct (AudiomixVolumeSet_range_inclusive _ Audiomix.SetAudiomixVolume
                Fixtures.services "studio" "microphone" 0%float) as (_ & _ & _ & Hin).
    unfold set.
    rewrite (Hin (or_introl eq_refl) Fixtures.services Fixtures.studio _
               Hpipeline Hsource Hport).
    reflexivity.
  - destruct (AudiomixVolumeSet_range_inclusive _ Audiomix.SetAudiomixVolume
                Fixtures.services "studio" "microphone" 10%float) as (_ & _ & _ & Hin).
    exact (Hin (or_intror eq_refl) Fixtures.services Fixtures.studio _
             Hpipeline Hsource Hport).
Defined.

(** ** The slot pool *)

Section SlotPoolFacts.

Local Open Scope nat_scope.

Lemma firstFree_Some (pool : list bool) (i : nat) :
  SlotPool.firstFree pool = Some i ->
  pool !! i = Some false /\ forall j, j < i -> pool !! j = Some true.
Proof.
  revert i. induction pool as [| used rest IH]; intros i Hfree; [discriminate |].
  cbn in Hfree. destruct used.
  - destruct (SlotPool.firstFree rest) as [k |]; [| discriminate].
    injection Hfree as <-. destruct (IH k eq_refl) as [Hk Hbelow].
    split; [exact Hk |].
    intros [| j] Hj; [reflexivity |]. cbn. apply Hbelow. lia.
  - injection Hfree as <-. split; [reflexivity | intros j Hj; lia].
Qed.

Lemma firstFree_None (pool : list bool) :
  SlotPool.firstFree pool = None <->
  forall j, j < length pool -> pool !! j = Some true.
Proof.
  induction pool as [| used rest IH]; cbn.
  - split; [intros _ j Hj; lia | reflexivity].
  - destruct used.
    + destruct (SlotPool.firstFree rest) as [k |]; cbn.
      * split; [discriminate |]. intros Hall.
        assert (Hrest : forall j, j < length rest -> rest !! j = Some true).
        { intros j Hj. apply (Hall (S j)). lia. }
        apply IH in Hrest. discriminate.
      * split; [| reflexivity]. intros _ [| j] Hj; [reflexivity |].
        cbn. apply IH; [reflexivity | lia].
    + split; [discriminate |]. intros Hall.
      specialize (Hall 0 ltac:(lia)). discriminate.
Qed.

Lemma run_length (ops : list SlotPool.Op) (pool : list bool) :
  length (SlotPool.run ops pool) = length pool.
Proof.
  revert pool. induction ops as [| [| i] ops IH]; intros pool; cbn.
  - reflexivity.
  - unfold SlotPool.Allocate. destruct (SlotPool.firstFree pool).
    + rewrite IH. apply length_insert.
    + apply IH.
  - rewrite IH. apply length_insert.
Qed.

(** C8.  In the pool reached from an empty pool of any capacity by any
    sequence of allocations and releases, an allocation returns the lowest
    free index and marks exactly that index used; it fails exactly when
    every index below the capacity is used.  With a capacity of at least
    three, three allocations give 0, 1 and 2, and after the release of 1
    the next allocation gives 1 again. *)
Theorem Allocate_lowest_free_first :
  forall (capacity : nat) (ops : list SlotPool.Op),
    let pool := SlotPool.run ops (SlotPool.create capacity) in
    (forall i pool',
       SlotPool.Allocate pool = Some (i, pool') ->
       pool !! i = Some false
       /\ (forall j, j < i -> pool !! j = Some true)
       /\ pool' !! i = Some true
       /\ (forall j, j <> i -> pool' !! j = pool !! j)
       /\ length pool' = capacity)
    /\ (SlotPool.Allocate pool = None <->
        forall j, j < capacity -> pool !! j = Some true)
    /\ (3 <= capacity ->
        exists p1 p2 p3 p4,
          SlotPool.Allocate (SlotPool.create capacity) = Some (0, p1)
          /\ SlotPool.Allocate p1 = Some (1, p2)
          /\ SlotPool.Allocate p2 = Some (2, p3)
          /\ SlotPool.Allocate (SlotPool.Release 1 p3) = Some (1, p4)).
Proof.
  intros capacity ops pool.
  assert (Hlen : length pool = capacity).
  { unfold pool. rewrite run_length. apply length_replicate. }
  split; [| split].
  - intros i pool' Halloc. unfold SlotPool.Allocate in Halloc.
    destruct (SlotPool.firstFree pool) as [k |] eqn:Hfree; [| discriminate].
    injection Halloc as <- <-.
    destruct (firstFree_Some pool k Hfree) as [Hk Hbelow].
    split; [exact Hk |]. split; [exact Hbelow |].
    split; [| split].
    + apply list_lookup_insert_eq. apply lookup_lt_Some in Hk. exact Hk.
    + intros j Hj. apply list_lookup_insert_ne. congruence.
    + rewrite length_insert. exact Hlen.
  - rewrite <- Hlen, <- firstFree_None. unfold SlotPool.Allocate.
    destruct (SlotPool.firstFree pool); split; intros; congruence.
  - intros Hcap.
    destruct capacity as [| [| [| n]]]; try lia.
    repeat eexists.
Qed.

End SlotPoolFacts.

Lemma Allocate_lowest_free_first_witness :
  exists p3 p4,
    SlotPool.run [SlotPool.OpAllocate; SlotPool.OpAllocate; SlotPool.OpAllocate]
      (SlotPool.create 4) = p3
    /\ SlotPool.Allocate (SlotPool.Release 1 p3) = Some (1%nat, p4)
    /\ p4 !! 1%nat = Some true
    /\ SlotPool.Allocate (SlotPool.create 0) = None.
Proof.
  destruct (Allocate_lowest_free_first 4
              [SlotPool.OpAllocate; SlotPool.OpAllocate; SlotPool.OpAllocate;
               SlotPool.OpRelease 1]) as (Hlowest & _ & _).
  destruct (Allocate_lowest_free_first 0 []) as (_ & Hfull & _).
  destruct (Allocate_lowest_free_first 4 []) as (_ & _ & Hscenario).
  destruct (Hscenario ltac:(lia)) as (p1 & p2 & p3 & p4 & H1 & H2 & H3 & H4).
  exists p3, p4.
  assert (Hrun : SlotPool.run
                   [SlotPool.OpAllocate; SlotPool.OpAllocate; SlotPool.OpAllocate]
                   (SlotPool.create 4) = p3).
  { cbn [SlotPool.run]. rewrite H1, H2, H3. reflexivity. }
  split; [exact Hrun |]. split; [exact H4 |]. split.
  - apply (Hlowest 1%nat p4).
    cbn [SlotPool.run]. rewrite H1, H2, H3. exact H4.
  - apply Hfull. intros j Hj. cbn in Hj. lia.
Defined.

(** ** GPU id and buffer memory type of a linked node *)

Section NodeFacts.

Variable OFFSET : Z.
Variable names : gmap Z string.

Abbreviation bintrOf w := (Tiler.bintr (Tiler.tiler w)).

Lemma SetShowSource_1_bintr (streamId : Z) (w : Tiler.World) :
  bintrOf (snd (Tiler.SetShowSource_1 OFFSET names streamId w)) = bintrOf w.
Proof. apply (SetShowSource_1_spec OFFSET names streamId w). Qed.

Lemma SetShowSource_bintr (streamId timeout : Z) (hasPrecedence : bool)
    (w : Tiler.World) :
  bintrOf (snd (Tiler.SetShowSource OFFSET names streamId timeout hasPrecedence w))
  = bintrOf w.
Proof.
  unfold Tiler.SetShowSource.
  destruct (streamId <? 0); [reflexivity |]. cbn zeta.
  destruct (negb (streamId =? _)).
  - destruct (negb _ && negb hasPrecedence); [reflexivity |].
    match goal with |- context [Tiler.SetShowSource_1 _ _ streamId ?v] =>
      pose proof (SetShowSource_1_bintr streamId v) as Hb;
      destruct (Tiler.SetShowSource_1 OFFSET names streamId v) as [ok w1] end.
    cbn [snd] in Hb. destruct ok; cbn [negb]; [| exact Hb].
    destruct (negb _); cbn; exact Hb.
  - destruct (_ && _); reflexivity.
Qed.

Lemma CycleAllSources_bintr (timeout : Z) (w : Tiler.World) :
  bintrOf (snd (Tiler.CycleAllSources OFFSET names timeout w)) = bintrOf w.
Proof.
  unfold Tiler.CycleAllSources.
  destruct (timeout =? 0); [reflexivity |]. cbn zeta.
  match goal with |- context [Tiler.SetShowSource_1 _ _ 0 ?v] =>
    pose proof (SetShowSource_1_bintr 0 v) as Hb;
    destruct (Tiler.SetShowSource_1 OFFSET names 0 v) as [ok w1] end.
  cbn [snd] in *.
  assert (Hc : bintrOf (Tiler.cancelShowSourceTimer w) = bintrOf w)
    by apply (cancelShowSourceTimer_spec w).
  destruct (_ && _); cbn; rewrite Hb; exact Hc.
Qed.

Lemma ShowAllSources_bintr (w : Tiler.World) :
  bintrOf (Tiler.ShowAllSources OFFSET names w) = bintrOf w.
Proof.
  unfold Tiler.ShowAllSources. cbn zeta.
  assert (Hc : bintrOf (Tiler.cancelShowSourceTimer w) = bintrOf w)
    by apply (cancelShowSourceTimer_spec w).
  destruct (negb (Tiler.m_showSourceTimerId (Tiler.tiler w) =? 0));
    destruct (negb (_ =? -1)); try rewrite SetShowSource_1_bintr;
    try reflexivity; exact Hc.
Qed.

Lemma HandleShowSourceTimer_bintr (w w' : Tiler.World) (keep : bool) :
  Tiler.HandleShowSourceTimer OFFSET names w = Some (keep, w') ->
  bintrOf w' = bintrOf w.
Proof.
  unfold Tiler.HandleShowSourceTimer.
  destruct (negb _); [intros [= _ <-]; reflexivity |]. cbn zeta.
  destruct (_ =? 0); [| intros [= _ <-]; reflexivity].
  destruct (Tiler.m_showSourceCycle _).
  - destruct (_ =? 0); [discriminate |].
    intros [= _ <-]. rewrite SetShowSource_1_bintr. reflexivity.
  - intros [= _ <-].
    match goal with |- context [Tiler.commitShowSource (-1) ?v] =>
      destruct (commitShowSource_spec (-1) v) as (_ & (Hb & _) & _) end.
    rewrite Hb. reflexivity.
Qed.

Lemma dispatch_bintr (id : Z) (w w' : Tiler.World) :
  Tiler.dispatch OFFSET names id w = Some w' -> bintrOf w' = bintrOf w.
Proof.
  unfold Tiler.dispatch.
  destruct (find _ _) as [s |]; [| intros [= <-]; reflexivity].
  destruct (GLib.callback s); try (intros [= <-]; reflexivity).
  destruct (Tiler.HandleShowSourceTimer OFFSET names w) as [[keep w1] |] eqn:Hrun;
    [| discriminate].
  apply HandleShowSourceTimer_bintr in Hrun.
  destruct keep; intros [= <-]; exact Hrun.
Qed.

(** One call on a linked Tiler leaves its GPU id and its buffer memory type
    as they were. *)
Lemma step_linked (op : Tiler.Op) (w w' : Tiler.World) :
  Tiler.IsLinked (Tiler.tiler w) = true ->
  Tiler.step OFFSET names op w = Some w' ->
  Bintr.m_gpuId (bintrOf w') = Bintr.m_gpuId (bintrOf w)
  /\ Bintr.m_nvbufMemType (bintrOf w') = Bintr.m_nvbufMemType (bintrOf w).
Proof.
  unfold Tiler.IsLinked, Bintr.IsLinked. intros Hlinked.
  destruct op; cbn [Tiler.step]; intros Hstep;
    try (injection Hstep as <-).
  - unfold Tiler.LinkAll. cbn. rewrite Hlinked. split; reflexivity.
  - unfold Tiler.UnlinkAll. cbn. rewrite Hlinked. split; reflexivity.
  - split; reflexivity.
  - split; reflexivity.
  - unfold Tiler.SetFrameNumberingEnabled. cbn.
    destruct (_ && enabled); [split; reflexivity |].
    destruct (_ && negb enabled); split; reflexivity.
  - unfold Tiler.AddShowSourceListener. cbn.
    destruct (_ !! listener); split; reflexivity.
  - unfold Tiler.RemoveShowSourceListener. cbn.
    destruct (_ !! listener); split; reflexivity.
  - rewrite SetShowSource_bintr. split; reflexivity.
  - rewrite CycleAllSources_bintr. split; reflexivity.
  - rewrite ShowAllSources_bintr. split; reflexivity.
  - apply dispatch_bintr in Hstep. rewrite Hstep. split; reflexivity.
  - unfold Tiler.SetGpuId. cbn. rewrite Hlinked. split; reflexivity.
  - unfold Tiler.SetNvbufMemType. cbn. rewrite Hlinked. split; reflexivity.
  - split; reflexivity.
  - split; reflexivity.
Qed.

(** C7, amended.  On a linked node (the base Container Node and the Tiler)
    [SetGpuId] returns [false] and changes nothing, and so does the Tiler's
    [SetNvbufMemType]; the base [SetNvbufMemType] returns [false] and
    changes nothing while the node is in use.  Consequently, along any
    sequence of calls on a Tiler, a call made while the Tiler is linked
    leaves its GPU id and its buffer memory type as they were. *)
Theorem gpuId_and_memType_fixed_while_linked :
  forall (b : Bintr.t) (t : Tiler.TilerBintr) (gpuId nvbufMemType : Z),
    (Bintr.IsLinked b = true -> Bintr.SetGpuId gpuId b = (false, b))
    /\ (Bintr.IsInUse b = true ->
        Bintr.SetNvbufMemType nvbufMemType b = (false, b))
    /\ (Tiler.IsLinked t = true ->
        Tiler.SetGpuId gpuId t = (false, t)
        /\ Tiler.SetNvbufMemType nvbufMemType t = (false, t))
    /\ (forall (ops : list Tiler.Op) (w : Tiler.World) (visited : list Tiler.World)
               (i : nat) (s s' : Tiler.World),
          Tiler.run OFFSET names ops w = Some visited ->
          visited !! i = Some s -> visited !! S i = Some s' ->
          Tiler.IsLinked (Tiler.tiler s) = true ->
          Bintr.m_gpuId (bintrOf s') = Bintr.m_gpuId (bintrOf s)
          /\ Bintr.m_nvbufMemType (bintrOf s') = Bintr.m_nvbufMemType (bintrOf s)).
Proof.
  intros b t gpuId nvbufMemType. split; [| split; [| split]].
  - intros Hlinked. unfold Bintr.SetGpuId. rewrite Hlinked. reflexivity.
  - intros Hused. unfold Bintr.SetNvbufMemType. rewrite Hused. reflexivity.
  - unfold Tiler.IsLinked, Bintr.IsLinked, Tiler.SetGpuId, Tiler.SetNvbufMemType.
    intros ->. split; reflexivity.
  - intros ops. induction ops as [| op ops IH]; intros w visited i s s' Hrun Hs Hs' Hlinked.
    + injection Hrun as <-. destruct i; discriminate.
    + cbn [Tiler.run] in Hrun.
      destruct (Tiler.step OFFSET names op w) as [w1 |] eqn:Hstep; [| discriminate].
      destruct (Tiler.run OFFSET names ops w1) as [rest |] eqn:Hrest; [| discriminate].
      injection Hrun as <-.
      destruct i as [| i].
      * injection Hs as <-. cbn in Hs'.
        assert (rest !! 0%nat = Some w1) as Hhead.
        { destruct ops; cbn [Tiler.run] in Hrest.
          - injection Hrest as <-. reflexivity.
          - destruct (Tiler.step OFFSET names o w1); [| discriminate].
            destruct (Tiler.run OFFSET names ops _); [| discriminate].
            injection Hrest as <-. reflexivity. }
        destruct rest as [| r rest']; [discriminate Hhead |].
        cbn in Hhead, Hs'. injection Hhead as ->. injection Hs' as <-.
        exact (step_linked op w w1 Hlinked Hstep).
      * exact (IH w1 rest i s s' Hrest Hs Hs' Hlinked).
Qed.

End NodeFacts.

(** *** The theorem at sample inputs *)

(** The base setter of the memory type looks at [IsInUse()] only: on a
    linked node that is not in use it goes through. *)
Example SetNvbufMemType_on_linked_node_not_in_use :
  Bintr.IsLinked Fixtures.linkedUnownedBintr = true
  /\ Bintr.SetNvbufMemType 3 Fixtures.linkedUnownedBintr
     = (true, Bintr.set_nvbufMemType 3 Fixtures.linkedUnownedBintr).
Proof. split; reflexivity. Qed.

(** A linked Tiler through a cycle start, a tick, a refused change of GPU and
    of memory type: neither value moves. *)
Lemma gpuId_and_memType_fixed_while_linked_witness :
  Bintr.SetGpuId 1 Fixtures.linkedBintr = (false, Fixtures.linkedBintr)
  /\ Tiler.SetGpuId 1 Fixtures.idleTiler = (false, Fixtures.idleTiler)
  /\ Tiler.SetNvbufMemType 3 Fixtures.idleTiler = (false, Fixtures.idleTiler)
  /\ exists visited s s',
       Tiler.run Fixtures.OFFSET Fixtures.cameras
         [Tiler.OpCycleAllSources 2; Tiler.OpSetGpuId 1; Tiler.OpSetNvbufMemType 3]
         Fixtures.idle = Some visited
       /\ visited !! 1%nat = Some s /\ visited !! 2%nat = Some s'
       /\ Bintr.m_gpuId (Tiler.bintr (Tiler.tiler s')) = Bintr.m_gpuId (Tiler.bintr (Tiler.tiler s)).
Proof.
  destruct (gpuId_and_memType_fixed_while_linked Fixtures.OFFSET Fixtures.cameras
              Fixtures.linkedBintr Fixtures.idleTiler 1 3)
    as (Hbase & _ & Htiler & Hrun).
  destruct (Htiler eq_refl) as [Hgpu Hmem].
  split; [exact (Hbase eq_refl) |]. split; [exact Hgpu |]. split; [exact Hmem |].
  destruct (Tiler.run Fixtures.OFFSET Fixtures.cameras
              [Tiler.OpCycleAllSources 2; Tiler.OpSetGpuId 1; Tiler.OpSetNvbufMemType 3]
              Fixtures.idle) as [visited |] eqn:Hvisited; [| discriminate].
  destruct visited as [| w0 [| s [| s' rest]]]; try discriminate.
  exists (w0 :: s :: s' :: rest), s, s'.
  split; [reflexivity |]. split; [reflexivity |]. split; [reflexivity |].
  assert (Hlinked : Tiler.IsLinked (Tiler.tiler s) = true).
  { cbn in Hvisited. injection Hvisited as _ <- _. reflexivity. }
  exact (proj1 (Hrun _ Fixtures.idle _ 1%nat s s' Hvisited eq_refl eq_refl Hlinked)).
Defined.

(** A node that is in use but not linked accepts a new GPU id, in the base
    class and in the Tiler alike. *)
Lemma setters_while_in_use_counterexample :
  ~ Bintr.settersAsWorded Fixtures.unlinkedBintr 1 3
  /\ Bintr.IsInUse (Tiler.bintr Fixtures.unlinkedTiler) = true
  /\ fst (Tiler.SetGpuId 1 Fixtures.unlinkedTiler) = true
  /\ Bintr.m_gpuId (Tiler.bintr (snd (Tiler.SetGpuId 1 Fixtures.unlinkedTiler))) = 1.
Proof.
  split; [| repeat split].
  intros Hworded.
  destruct (Hworded (or_intror eq_refl)) as [Hgpu _].
  discriminate Hgpu.
Defined.

(** * Further properties *)

(** ** The Tiler: showing all sources, refreshing, and the timers *)

Section TilerTimerFacts.

Variable OFFSET : Z.
Variable names : gmap Z string.

Abbreviation SetShowSource_1 := (Tiler.SetShowSource_1 OFFSET names).
Abbreviation SetShowSource := (Tiler.SetShowSource OFFSET names).
Abbreviation ShowAllSources := (Tiler.ShowAllSources OFFSET names).
Abbreviation HandleShowSourceTimer := (Tiler.HandleShowSourceTimer OFFSET names).
Abbreviation dispatch := (Tiler.dispatch OFFSET names).
Abbreviation dispatches := (Tiler.dispatches OFFSET names).
Abbreviation sourceIdOf := (Tiler.sourceIdOf OFFSET).

Lemma filter_detach (P : GLib.GSource -> bool) (id : Z) (l : list GLib.GSource) :
  List.filter P (GLib.detach id l) = GLib.detach id (List.filter P l).
Proof.
  unfold GLib.detach. induction l as [| x l IH]; [reflexivity |]. cbn.
  destruct (negb (GLib.source_id x =? id)) eqn:Hid, (P x) eqn:HP; cbn;
    rewrite ?Hid, ?HP, IH; reflexivity.
Qed.

Lemma notifyOnly_no_showSourceTimer (added : list GLib.GSource) :
  Tiler.notifyOnly added -> List.filter Tiler.isShowSourceTimer added = [].
Proof.
  unfold Tiler.notifyOnly. induction 1 as [| x l Hx _ IH]; [reflexivity |].
  cbn. unfold Tiler.isShowSourceTimer at 1. rewrite Hx. exact IH.
Qed.

(** X1.  [ShowAllSources] always ends with all sources shown (-1) and no
    timer handle; the show-source timer that was running is detached and no
    other show-source timer is touched; the cycle flag is cleared when a
    timer was running and kept otherwise; the timeout and the remaining
    ticks stay as they were.  A second call changes nothing. *)
Theorem ShowAllSources_shows_all_and_stops_timer :
  forall w : Tiler.World,
    let w' := ShowAllSources w in
    let t := Tiler.tiler w in
    let t' := Tiler.tiler w' in
    Tiler.m_showStreamId t' = -1
    /\ Tiler.m_showSourceTimerId t' = 0
    /\ Tiler.m_showSourceCycle t' =
         Tiler.m_showSourceCycle t && (Tiler.m_showSourceTimerId t =? 0)
    /\ Tiler.m_showSourceTimeout t' = Tiler.m_showSourceTimeout t
    /\ Tiler.m_showSourceCounter t' = Tiler.m_showSourceCounter t
    /\ Tiler.showSourceTimers w' =
         Tiler.cancelled (Tiler.m_showSourceTimerId t) (Tiler.showSourceTimers w)
    /\ ShowAllSources w' = w'.
Proof.
  intros w w' t t'.
  assert (Hfacts :
    Tiler.m_showStreamId t' = -1
    /\ Tiler.m_showSourceTimerId t' = 0
    /\ Tiler.m_showSourceCycle t' =
         Tiler.m_showSourceCycle t && (Tiler.m_showSourceTimerId t =? 0)
    /\ Tiler.m_showSourceTimeout t' = Tiler.m_showSourceTimeout t
    /\ Tiler.m_showSourceCounter t' = Tiler.m_showSourceCounter t
    /\ Tiler.showSourceTimers w' =
         Tiler.cancelled (Tiler.m_showSourceTimerId t) (Tiler.showSourceTimers w)).
  { unfold t', w', Tiler.ShowAllSources. cbn zeta.
    set (w1 := if negb (Tiler.m_showSourceTimerId (Tiler.tiler w) =? 0)
               then Tiler.on_tiler (Tiler.set_showSourceCycle false)
                      (Tiler.cancelShowSourceTimer w)
               else w).
    assert (H1 :
      Tiler.m_showSourceTimerId (Tiler.tiler w1) = 0
      /\ Tiler.m_showSourceCycle (Tiler.tiler w1) =
           Tiler.m_showSourceCycle t && (Tiler.m_showSourceTimerId t =? 0)
      /\ Tiler.m_showSourceTimeout (Tiler.tiler w1) = Tiler.m_showSourceTimeout t
      /\ Tiler.m_showSourceCounter (Tiler.tiler w1) = Tiler.m_showSourceCounter t
      /\ Tiler.m_showStreamId (Tiler.tiler w1) = Tiler.m_showStreamId t
      /\ Tiler.showSourceTimers w1 =
           Tiler.cancelled (Tiler.m_showSourceTimerId t) (Tiler.showSourceTimers w)).
    { unfold w1, Tiler.cancelShowSourceTimer, Tiler.cancelled, Tiler.showSourceTimers.
      fold t.
      destruct (Z.eqb_spec (Tiler.m_showSourceTimerId t) 0) as [Hz | Hnz]; cbn.
      - rewrite andb_true_r. repeat split; try reflexivity. exact Hz.
      - rewrite andb_false_r, filter_detach. repeat split; reflexivity. }
    destruct H1 as (Hid & Hcycle & Hto & Hcnt & Hslot & Htimers).
    destruct (Z.eqb_spec (Tiler.m_showStreamId (Tiler.tiler w1)) (-1)) as [Hall | Hone];
      cbn [negb].
    - repeat split; assumption.
    - pose proof (SetShowSource_1_spec OFFSET names (-1) w1) as Hspec.
      cbn zeta in Hspec.
      destruct (SetShowSource_1 (-1) w1) as [ok w2]. cbn [fst snd] in *.
      destruct Hspec as ((_ & Hto2 & Hcnt2 & Hid2 & Hcycle2)
                         & (added & Hadd & Hnotify) & Hshown & _ & Hok).
      split; [apply Hshown, Hok; left; reflexivity |].
      rewrite Hid2, Hcycle2, Hto2, Hcnt2.
      repeat split; try assumption.
      unfold Tiler.showSourceTimers, Tiler.addedSources in *.
      rewrite Hadd, List.filter_app, (notifyOnly_no_showSourceTimer added Hnotify),
        app_nil_r.
      exact Htimers. }
  destruct Hfacts as (Hslot & Hid & Hrest).
  split; [exact Hslot |]. split; [exact Hid |].
  destruct Hrest as (Hc & Hto & Hcnt & Htimers).
  repeat split; try assumption.
  unfold Tiler.ShowAllSources at 1. cbn zeta.
  change (Tiler.tiler w') with t'.
  rewrite Hid. cbn [Z.eqb negb].
  change (Tiler.tiler w') with t'.
  rewrite Hslot. reflexivity.
Qed.

(** X2.  [SetShowSource] for the slot that is shown already only refreshes:
    it returns [true], clears the cycle flag, stores the timeout and ten
    times the timeout (modulo 2^32) as remaining ticks, and leaves the shown
    slot, the source name, the element and the pending notification as they
    were.  A running timer is kept and no second one is added; without a
    running timer one is added exactly when the remaining ticks are not
    zero. *)
Theorem SetShowSource_same_slot_refreshes :
  forall (w : Tiler.World) (timeout : Z) (hasPrecedence : bool),
    0 <= Tiler.m_showStreamId (Tiler.tiler w) ->
    let t := Tiler.tiler w in
    let r := SetShowSource (Tiler.m_showStreamId t) timeout hasPrecedence w in
    let t' := Tiler.tiler (snd r) in
    fst r = true
    /\ Tiler.m_showStreamId t' = Tiler.m_showStreamId t
    /\ Tiler.m_showSourceCycle t' = false
    /\ Tiler.m_showSourceTimeout t' = timeout
    /\ Tiler.m_showSourceCounter t' = to_uint (timeout * 10)
    /\ Tiler.m_wstrSourceName t' = Tiler.m_wstrSourceName t
    /\ Tiler.m_pTiler t' = Tiler.m_pTiler t
    /\ Tiler.m_notifyClientsTimerId t' = Tiler.m_notifyClientsTimerId t
    /\ (Tiler.m_showSourceTimerId t <> 0 \/ to_uint (timeout * 10) = 0 ->
        Tiler.m_showSourceTimerId t' = Tiler.m_showSourceTimerId t
        /\ Tiler.loop (snd r) = Tiler.loop w)
    /\ (Tiler.m_showSourceTimerId t = 0 -> to_uint (timeout * 10) <> 0 ->
        Tiler.m_showSourceTimerId t' = Z.pos (GLib.next_source_id (Tiler.loop w))
        /\ GLib.sources (Tiler.loop (snd r)) =
             GLib.sources (Tiler.loop w)
             ++ [GLib.mkGSource (Z.pos (GLib.next_source_id (Tiler.loop w)))
                   100 GLib.ShowSourceTimerHandler]).
Proof.
  intros w timeout hasPrecedence Hslot t r t'. subst t' r t.
  unfold Tiler.SetShowSource.
  destruct (Z.ltb_spec (Tiler.m_showStreamId (Tiler.tiler w)) 0) as [? | _]; [lia |].
  cbn zeta.
  cbn [Tiler.on_tiler Tiler.tiler Tiler.set_showSourceCycle Tiler.m_showStreamId].
  rewrite Z.eqb_refl. cbn [negb].
  unfold Tiler.TICKS_PER_SECOND, Tiler.startShowSourceTimer, Tiler.TICK_PERIOD_MS.
  cbn -[to_uint Z.mul Z.eqb].
  destruct (Z.eqb_spec (Tiler.m_showSourceTimerId (Tiler.tiler w)) 0) as [Hidle | Hrunning];
    destruct (Z.eqb_spec (to_uint (timeout * 10)) 0) as [Hzero | Hticks];
    cbn; repeat split; try reflexivity; try assumption;
    try (intros; contradiction); try (intros [? | ?]; contradiction);
    try (intros; lia).
Qed.

(** X3.  [SetShowSource] with precedence over a running timer for another,
    active slot never detaches the running timer.  The call succeeds, the
    new slot is shown and the tick count is the timeout times 10 as a
    uint.  When that count is not zero a new show-source timer is started
    beside the running one: the main context holds one show-source timer
    more than before, and the timer handle is the id of the new one.  When
    the count is zero no timer is started: the handle and the show-source
    timers of the main context are as before. *)
Theorem SetShowSource_with_precedence_keeps_old_timer :
  forall (w : Tiler.World) (streamId timeout : Z),
    Tiler.m_showSourceTimerId (Tiler.tiler w) <> 0 ->
    streamId <> Tiler.m_showStreamId (Tiler.tiler w) ->
    0 <= streamId ->
    is_Some (names !! sourceIdOf (Tiler.tiler w) streamId) ->
    let r := SetShowSource streamId timeout true w in
    let ticks := to_uint (timeout * 10) in
    fst r = true
    /\ Tiler.m_showStreamId (Tiler.tiler (snd r)) = streamId
    /\ Tiler.m_showSourceCounter (Tiler.tiler (snd r)) = ticks
    /\ (ticks <> 0 ->
        exists newId,
          Tiler.m_showSourceTimerId (Tiler.tiler (snd r)) = newId
          /\ 0 < newId
          /\ Tiler.showSourceTimers (snd r) =
               Tiler.showSourceTimers w
               ++ [GLib.mkGSource newId 100 GLib.ShowSourceTimerHandler])
    /\ (ticks = 0 ->
        Tiler.m_showSourceTimerId (Tiler.tiler (snd r))
        = Tiler.m_showSourceTimerId (Tiler.tiler w)
        /\ Tiler.showSourceTimers (snd r) = Tiler.showSourceTimers w).
Proof.
  intros w streamId timeout Htimer Hother Hge Hreg r ticks. subst r ticks.
  unfold Tiler.SetShowSource.
  destruct (Z.ltb_spec streamId 0) as [? | _]; [lia |]. cbn zeta.
  cbn [Tiler.on_tiler Tiler.tiler Tiler.set_showSourceCycle Tiler.m_showStreamId
       Tiler.m_showSourceTimerId].
  destruct (Z.eqb_spec streamId (Tiler.m_showStreamId (Tiler.tiler w)));
    [contradiction |].
  rewrite andb_false_r. cbn [negb].
  match goal with |- context [SetShowSource_1 streamId ?v] =>
    pose proof (SetShowSource_1_spec OFFSET names streamId v) as Hspec;
    destruct (SetShowSource_1 streamId v) as [ok w1] end.
  cbn [fst snd] in Hspec.
  destruct Hspec as ((_ & Hto & _ & Hhandle & _) & (added & Hadd & Hnotify)
                     & Hshown & _ & Hok).
  assert (ok = true) as -> by (apply Hok; right; exact Hreg).
  specialize (Hshown eq_refl).
  cbn [negb].
  cbn [Tiler.on_tiler Tiler.tiler Tiler.set_showSourceCounter Tiler.m_showSourceCounter].
  rewrite Hto.
  cbn [Tiler.on_tiler Tiler.tiler Tiler.set_showSourceTimeout Tiler.m_showSourceTimeout].
  change (timeout * Tiler.TICKS_PER_SECOND) with (timeout * 10).
  assert (Htimers : Tiler.showSourceTimers w1 = Tiler.showSourceTimers w).
  { unfold Tiler.showSourceTimers, Tiler.addedSources in *.
    rewrite Hadd. cbn. rewrite List.filter_app.
    rewrite (notifyOnly_no_showSourceTimer added Hnotify), app_nil_r.
    reflexivity. }
  destruct (Z.eqb_spec (to_uint (timeout * 10)) 0) as [Hzero | Hticks]; cbn [negb].
  - split; [reflexivity |]. split; [exact Hshown |].
    split; [reflexivity |]. split; [intros Hnot; contradiction |].
    intros _. split; [exact Hhandle | exact Htimers].
  - split; [reflexivity |]. split; [exact Hshown |].
    split; [reflexivity |]. split; [| intros Hnone; contradiction].
    intros _. eexists. split; [reflexivity |]. split; [cbn; lia |].
    unfold Tiler.showSourceTimers in *. cbn. rewrite List.filter_app, Htimers.
    reflexivity.
Qed.


(** *** Ticks *)

Lemma on_tiler_counter_eta (w : Tiler.World) :
  Tiler.on_tiler (Tiler.set_showSourceCounter (Tiler.m_showSourceCounter (Tiler.tiler w))) w
  = w.
Proof. destruct w as [[] ?]. reflexivity. Qed.

Lemma dispatch_show_source_timer (id : Z) (w : Tiler.World) :
  Tiler.ticking id w ->
  dispatch id w =
    match HandleShowSourceTimer w with
    | Some (true, w') => Some w'
    | Some (false, w') =>
        Some (Tiler.mkWorld (Tiler.tiler w') (GLib.g_source_remove id (Tiler.loop w')))
    | None => None
    end.
Proof.
  intros (_ & _ & s & Hfind & Hcb). unfold Tiler.dispatch.
  rewrite Hfind, Hcb. reflexivity.
Qed.

Lemma tick_continue (w : Tiler.World) :
  Tiler.IsLinked (Tiler.tiler w) = true ->
  to_uint (Tiler.m_showSourceCounter (Tiler.tiler w) - 1) <> 0 ->
  HandleShowSourceTimer w =
    Some (true,
          Tiler.on_tiler
            (Tiler.set_showSourceCounter
               (to_uint (Tiler.m_showSourceCounter (Tiler.tiler w) - 1))) w).
Proof.
  intros Hlinked Hticks. unfold Tiler.HandleShowSourceTimer.
  rewrite Hlinked. cbn [negb]. cbn zeta.
  cbn [Tiler.on_tiler Tiler.tiler Tiler.set_showSourceCounter Tiler.m_showSourceCounter].
  destruct (Z.eqb_spec (to_uint (Tiler.m_showSourceCounter (Tiler.tiler w) - 1)) 0);
    [contradiction | reflexivity].
Qed.

Lemma tick_stop (w : Tiler.World) :
  Tiler.IsLinked (Tiler.tiler w) = true ->
  to_uint (Tiler.m_showSourceCounter (Tiler.tiler w) - 1) = 0 ->
  Tiler.m_showSourceCycle (Tiler.tiler w) = false ->
  exists w',
    HandleShowSourceTimer w = Some (false, w')
    /\ Tiler.m_showSourceTimerId (Tiler.tiler w') = 0
    /\ Tiler.m_showStreamId (Tiler.tiler w') = -1.
Proof.
  intros Hlinked Hzero Hcycle. unfold Tiler.HandleShowSourceTimer.
  rewrite Hlinked. cbn [negb]. cbn zeta.
  cbn [Tiler.on_tiler Tiler.tiler Tiler.set_showSourceCounter
       Tiler.m_showSourceCounter Tiler.m_showSourceCycle].
  rewrite Hzero, Hcycle. cbn [Z.eqb].
  match goal with |- context [SetShowSource_1 (-1) ?v] =>
    pose proof (SetShowSource_1_spec OFFSET names (-1) v) as Hspec;
    destruct (SetShowSource_1 (-1) v) as [ok w1] end.
  cbn [fst snd] in *.
  destruct Hspec as ((_ & _ & _ & Htid & _) & _ & Hshown & _ & Hok).
  eexists. split; [reflexivity |]. split.
  - rewrite Htid. reflexivity.
  - apply Hshown, Hok. left. reflexivity.
Qed.

Lemma find_app_Some {A : Type} (f : A -> bool) (l added : list A) (x : A) :
  List.find f l = Some x -> List.find f (l ++ added) = Some x.
Proof.
  induction l as [| y l IH]; [discriminate |]. cbn.
  destruct (f y); [trivial | exact IH].
Qed.

Lemma tick_cycle (w : Tiler.World) (id : Z) :
  Tiler.ticking id w ->
  to_uint (Tiler.m_showSourceCounter (Tiler.tiler w) - 1) = 0 ->
  Tiler.m_showSourceCycle (Tiler.tiler w) = true ->
  let t := Tiler.tiler w in
  let batchSize := Bintr.m_batchSize (Tiler.bintr t) in
  0 < batchSize <= 2 ^ 31 ->
  0 <= Tiler.m_showStreamId t < batchSize ->
  Tiler.allRegistered OFFSET names t batchSize ->
  exists w',
    HandleShowSourceTimer w = Some (true, w')
    /\ Tiler.ticking id w'
    /\ Tiler.bintr (Tiler.tiler w') = Tiler.bintr t
    /\ Tiler.m_showSourceCycle (Tiler.tiler w') = true
    /\ Tiler.m_showSourceTimeout (Tiler.tiler w') = Tiler.m_showSourceTimeout t
    /\ Tiler.m_showSourceCounter (Tiler.tiler w') =
         to_uint (Tiler.m_showSourceTimeout t * 10)
    /\ Tiler.m_showStreamId (Tiler.tiler w') =
         (Tiler.m_showStreamId t + 1) mod batchSize.
Proof.
  intros (Hlinked & Hid & src & Hfind & Hcb) Hzero Hcycle t batchSize Hbatch Hslot Hreg.
  unfold Tiler.HandleShowSourceTimer.
  rewrite Hlinked. cbn [negb]. cbn zeta.
  cbn [Tiler.on_tiler Tiler.tiler Tiler.set_showSourceCounter
       Tiler.m_showSourceCounter Tiler.m_showSourceCycle Tiler.bintr
       Tiler.m_showSourceTimeout Tiler.m_showStreamId].
  rewrite Hzero, Hcycle. cbn [Z.eqb]. fold t. fold batchSize.
  destruct (Z.eqb_spec batchSize 0); [lia |].
  set (next := (Tiler.m_showStreamId t + 1) mod batchSize).
  assert (Hrange : 0 <= next < batchSize) by (apply Z.mod_pos_bound; lia).
  assert (Hnext : to_int (to_uint (Tiler.m_showStreamId t + 1) mod batchSize) = next).
  { rewrite to_uint_small by (unfold UINT_MODULUS; lia).
    apply to_int_small. fold next. lia. }
  rewrite Hnext.
  match goal with |- context [SetShowSource_1 next ?v] =>
    pose proof (SetShowSource_1_spec OFFSET names next v) as Hspec;
    destruct (SetShowSource_1 next v) as [ok w1] end.
  cbn [fst snd] in *.
  destruct Hspec as ((Hb & Hto & Hcnt & Htid & Hcyc) & (added & Hadd & _)
                     & Hshown & _ & Hok).
  exists w1. split; [reflexivity |].
  assert (Hlinked1 : Tiler.bintr (Tiler.tiler w1) = Tiler.bintr t) by exact Hb.
  split.
  { unfold Tiler.ticking, Tiler.IsLinked. rewrite Hlinked1.
    split; [exact Hlinked |]. split; [rewrite Htid; exact Hid |].
    exists src. split; [| exact Hcb].
    unfold Tiler.addedSources in Hadd. rewrite Hadd. apply find_app_Some.
    exact Hfind. }
  split; [exact Hlinked1 |].
  split; [rewrite Hcyc; exact Hcycle |].
  split; [rewrite Hto; reflexivity |].
  split; [rewrite Hcnt; reflexivity |].
  apply Hshown, Hok. right. apply (Hreg next Hrange).
Qed.

Lemma dispatches_add (n m : nat) (id : Z) (w : Tiler.World) :
  dispatches (n + m) id w =
    match dispatches n id w with
    | Some w' => dispatches m id w'
    | None => None
    end.
Proof.
  revert w. induction n as [| n IH]; intros w; [reflexivity |]. cbn.
  destruct (dispatch id w); [apply IH | reflexivity].
Qed.

(** While more than [k] ticks remain, [k] dispatches only count down. *)
Lemma dispatches_count_down (k : nat) (id : Z) (w : Tiler.World) :
  Tiler.ticking id w ->
  Z.of_nat k < Tiler.m_showSourceCounter (Tiler.tiler w) < UINT_MODULUS ->
  dispatches k id w =
    Some (Tiler.on_tiler
            (Tiler.set_showSourceCounter
               (Tiler.m_showSourceCounter (Tiler.tiler w) - Z.of_nat k)) w).
Proof.
  revert w. induction k as [| k IH]; intros w Hticking Hcount.
  - cbn [Tiler.dispatches Z.of_nat]. rewrite Z.sub_0_r, on_tiler_counter_eta.
    reflexivity.
  - cbn [Tiler.dispatches].
    rewrite (dispatch_show_source_timer id w Hticking).
    assert (Hsmall : to_uint (Tiler.m_showSourceCounter (Tiler.tiler w) - 1)
                     = Tiler.m_showSourceCounter (Tiler.tiler w) - 1)
      by (apply to_uint_small; lia).
    rewrite tick_continue; [| apply Hticking | rewrite Hsmall; lia].
    rewrite Hsmall.
    set (w1 := Tiler.on_tiler
                 (Tiler.set_showSourceCounter
                    (Tiler.m_showSourceCounter (Tiler.tiler w) - 1)) w).
    rewrite (IH w1).
    + replace (Tiler.m_showSourceCounter (Tiler.tiler w) - Z.of_nat (S k))
        with (Tiler.m_showSourceCounter (Tiler.tiler w1) - Z.of_nat k)
        by (cbn; lia).
      reflexivity.
    + destruct Hticking as (Hl & Hi & Hs). repeat split; assumption.
    + cbn. lia.
Qed.

(** X4.  A show that is not cycling lasts exactly as many ticks as remain:
    while ticks remain, dispatching the timer only counts them down, and the
    dispatch that takes the last one shows all sources (-1), clears the
    timer handle and detaches the timer, after which a further dispatch of
    it does nothing. *)
Theorem show_lasts_the_remaining_ticks :
  forall (w : Tiler.World) (id : Z),
    Tiler.ticking id w ->
    Tiler.m_showSourceCycle (Tiler.tiler w) = false ->
    1 <= Tiler.m_showSourceCounter (Tiler.tiler w) < UINT_MODULUS ->
    let remaining := Tiler.m_showSourceCounter (Tiler.tiler w) in
    (forall k, 0 <= k < remaining ->
       dispatches (Z.to_nat k) id w =
         Some (Tiler.on_tiler (Tiler.set_showSourceCounter (remaining - k)) w))
    /\ exists w',
         dispatches (Z.to_nat remaining) id w = Some w'
         /\ Tiler.m_showStreamId (Tiler.tiler w') = -1
         /\ Tiler.m_showSourceTimerId (Tiler.tiler w') = 0
         /\ GLib.attached id (Tiler.loop w') = false
         /\ dispatch id w' = Some w'.
Proof.
  intros w id Hticking Hcycle Hcount remaining.
  assert (Hdown : forall k, 0 <= k < remaining ->
    dispatches (Z.to_nat k) id w =
      Some (Tiler.on_tiler (Tiler.set_showSourceCounter (remaining - k)) w)).
  { intros k Hk. rewrite (dispatches_count_down (Z.to_nat k) id w Hticking).
    - rewrite Z2Nat.id by lia. reflexivity.
    - rewrite Z2Nat.id by lia. fold remaining. lia. }
  split; [exact Hdown |].
  replace (Z.to_nat remaining) with (Z.to_nat (remaining - 1) + 1)%nat by lia.
  rewrite dispatches_add, (Hdown (remaining - 1)) by lia.
  replace (remaining - (remaining - 1)) with 1 by lia.
  set (w1 := Tiler.on_tiler (Tiler.set_showSourceCounter 1) w).
  assert (Hticking1 : Tiler.ticking id w1).
  { destruct Hticking as (Hl & Hi & Hs). repeat split; assumption. }
  cbn [Tiler.dispatches].
  rewrite (dispatch_show_source_timer id w1 Hticking1).
  destruct (tick_stop w1) as (w' & Hrun & Htid & Hshown);
    [apply Hticking1 | reflexivity | exact Hcycle |].
  rewrite Hrun. eexists. split; [reflexivity |].
  cbn [Tiler.tiler Tiler.loop].
  assert (Hgone : GLib.attached id (GLib.g_source_remove id (Tiler.loop w')) = false).
  { unfold GLib.attached, GLib.g_source_remove, GLib.detach. cbn [GLib.sources].
    apply not_true_is_false. intros Hex.
    apply existsb_exists in Hex as (x & Hin & Hx).
    apply filter_In in Hin as (_ & Hkeep). rewrite Hx in Hkeep. discriminate. }
  repeat split; try assumption.
  unfold Tiler.dispatch. cbn [Tiler.loop].
  destruct (find _ _) as [x |] eqn:Hfind; [| reflexivity].
  exfalso. apply find_some in Hfind as (Hin & Hx).
  unfold GLib.attached in Hgone.
  assert (Hex : existsb (fun s => GLib.source_id s =? id)
                  (GLib.sources (GLib.g_source_remove id (Tiler.loop w'))) = true)
    by (apply existsb_exists; exists x; split; assumption).
  congruence.
Qed.

(** X5.  Cycling visits the slots in turn: on a linked Tiler whose streams
    below the batch size all have a registered source, the dispatches that
    use up the remaining ticks and then [k] more periods of ten times the
    timeout leave slot (slot + 1 + k) mod batchSize shown, with a full
    period of ticks remaining and the same timer still running. *)
Theorem cycling_visits_slots_in_turn :
  forall (w : Tiler.World) (id : Z) (k : nat),
    let t := Tiler.tiler w in
    let batchSize := Bintr.m_batchSize (Tiler.bintr t) in
    let period := to_uint (Tiler.m_showSourceTimeout t * 10) in
    Tiler.ticking id w ->
    Tiler.m_showSourceCycle t = true ->
    0 < batchSize <= 2 ^ 31 ->
    Tiler.allRegistered OFFSET names t batchSize ->
    0 <= Tiler.m_showStreamId t < batchSize ->
    1 <= Tiler.m_showSourceCounter t < UINT_MODULUS ->
    period <> 0 ->
    exists w',
      dispatches (Z.to_nat (Tiler.m_showSourceCounter t) + k * Z.to_nat period) id w
        = Some w'
      /\ Tiler.m_showStreamId (Tiler.tiler w') =
           (Tiler.m_showStreamId t + 1 + Z.of_nat k) mod batchSize
      /\ Tiler.m_showSourceCounter (Tiler.tiler w') = period
      /\ Tiler.m_showSourceCycle (Tiler.tiler w') = true
      /\ Tiler.ticking id w'.
Proof.
  intros w id k t batchSize period Hticking Hcycle Hbatch Hreg Hslot Hcount Hperiod.
  assert (Hprange : 1 <= period < UINT_MODULUS).
  { unfold period, to_uint in *.
    pose proof (Z.mod_pos_bound (Tiler.m_showSourceTimeout t * 10) UINT_MODULUS).
    unfold UINT_MODULUS in *. lia. }
  (* one period, from any state of the cycle *)
  assert (Hone : forall v : Tiler.World,
    Tiler.ticking id v ->
    Tiler.bintr (Tiler.tiler v) = Tiler.bintr t ->
    Tiler.m_showSourceCycle (Tiler.tiler v) = true ->
    Tiler.m_showSourceTimeout (Tiler.tiler v) = Tiler.m_showSourceTimeout t ->
    0 <= Tiler.m_showStreamId (Tiler.tiler v) < batchSize ->
    1 <= Tiler.m_showSourceCounter (Tiler.tiler v) < UINT_MODULUS ->
    exists v',
      dispatches (Z.to_nat (Tiler.m_showSourceCounter (Tiler.tiler v))) id v = Some v'
      /\ Tiler.ticking id v'
      /\ Tiler.bintr (Tiler.tiler v') = Tiler.bintr t
      /\ Tiler.m_showSourceCycle (Tiler.tiler v') = true
      /\ Tiler.m_showSourceTimeout (Tiler.tiler v') = Tiler.m_showSourceTimeout t
      /\ Tiler.m_showSourceCounter (Tiler.tiler v') = period
      /\ Tiler.m_showStreamId (Tiler.tiler v') =
           (Tiler.m_showStreamId (Tiler.tiler v) + 1) mod batchSize).
  { intros v Hv Hb Hc Hto Hs Hn.
    set (c := Tiler.m_showSourceCounter (Tiler.tiler v)) in *.
    replace (Z.to_nat c) with (Z.to_nat (c - 1) + 1)%nat by lia.
    rewrite dispatches_add, (dispatches_count_down (Z.to_nat (c - 1)) id v Hv)
      by (rewrite Z2Nat.id by lia; fold c; lia).
    rewrite Z2Nat.id by lia. fold c. replace (c - (c - 1)) with 1 by lia.
    set (v1 := Tiler.on_tiler (Tiler.set_showSourceCounter 1) v).
    assert (Hv1 : Tiler.ticking id v1).
    { destruct Hv as (Hl & Hi & Hsrc). repeat split; assumption. }
    cbn [Tiler.dispatches].
    rewrite (dispatch_show_source_timer id v1 Hv1).
    destruct (tick_cycle v1 id Hv1) as (v' & Hrun & Hv' & Hb' & Hc' & Hto' & Hcnt' & Hs').
    - reflexivity.
    - exact Hc.
    - cbn. rewrite Hb. exact Hbatch.
    - cbn. rewrite Hb. exact Hs.
    - cbn. rewrite Hb. intros j Hj.
      unfold Tiler.sourceIdOf. cbn. rewrite Hb. apply (Hreg j Hj).
    - rewrite Hrun. exists v'. split; [reflexivity |].
      cbn in Hb', Hto', Hcnt', Hs'. rewrite Hb in Hb', Hs'. rewrite Hto in Hto', Hcnt'.
      repeat split; try assumption; apply Hv'. }
  assert (Hall : exists w',
    dispatches (Z.to_nat (Tiler.m_showSourceCounter t) + k * Z.to_nat period) id w
      = Some w'
    /\ Tiler.ticking id w'
    /\ Tiler.bintr (Tiler.tiler w') = Tiler.bintr t
    /\ Tiler.m_showSourceCycle (Tiler.tiler w') = true
    /\ Tiler.m_showSourceTimeout (Tiler.tiler w') = Tiler.m_showSourceTimeout t
    /\ Tiler.m_showSourceCounter (Tiler.tiler w') = period
    /\ Tiler.m_showStreamId (Tiler.tiler w') =
         (Tiler.m_showStreamId t + 1 + Z.of_nat k) mod batchSize).
  { induction k as [| k IH].
    - rewrite Nat.mul_0_l, Nat.add_0_r, Z.add_0_r.
      exact (Hone w Hticking eq_refl Hcycle eq_refl Hslot Hcount).
    - destruct IH as (v & Hrun & Hv & Hb & Hc & Hto & Hcnt & Hs).
      replace (Z.to_nat (Tiler.m_showSourceCounter t) + S k * Z.to_nat period)%nat
        with ((Z.to_nat (Tiler.m_showSourceCounter t) + k * Z.to_nat period)
              + Z.to_nat period)%nat by lia.
      rewrite dispatches_add, Hrun.
      assert (Hsv : 0 <= Tiler.m_showStreamId (Tiler.tiler v) < batchSize)
        by (rewrite Hs; apply Z.mod_pos_bound; lia).
      assert (Hcv : 1 <= Tiler.m_showSourceCounter (Tiler.tiler v) < UINT_MODULUS)
        by (rewrite Hcnt; exact Hprange).
      destruct (Hone v Hv Hb Hc Hto Hsv Hcv)
        as (v' & Hrun' & Hv' & Hb' & Hc' & Hto' & Hcnt' & Hs').
      rewrite Hcnt in Hrun'. exists v'.
      split; [exact Hrun' |].
      repeat split; try assumption; try apply Hv'.
      rewrite Hs', Hs, Z.add_mod_idemp_l by lia.
      f_equal. lia. }
  destruct Hall as (w' & Hrun & Hw' & _ & Hc & _ & Hcnt & Hs).
  exists w'. repeat split; try assumption; apply Hw'.
Qed.


(** X6.  A refresh of the shown slot with a timeout of zero while its timer
    runs does not end the show: the remaining ticks become zero with the
    timer still attached, and the next tick wraps them around to 2^32 - 1
    and keeps the timer, so that the slot stays shown. *)
Theorem SetShowSource_zero_timeout_on_running_timer :
  forall (w : Tiler.World) (id : Z) (hasPrecedence : bool),
    Tiler.ticking id w ->
    id <> 0 ->
    0 <= Tiler.m_showStreamId (Tiler.tiler w) ->
    let slot := Tiler.m_showStreamId (Tiler.tiler w) in
    let r := SetShowSource slot 0 hasPrecedence w in
    fst r = true
    /\ Tiler.m_showSourceCounter (Tiler.tiler (snd r)) = 0
    /\ Tiler.ticking id (snd r)
    /\ dispatch id (snd r) =
         Some (Tiler.on_tiler (Tiler.set_showSourceCounter (UINT_MODULUS - 1)) (snd r))
    /\ Tiler.m_showStreamId (Tiler.tiler (snd r)) = slot.
Proof.
  intros w id hasPrecedence Hticking Hid Hslot slot r.
  assert (Hr : r = (true,
    Tiler.on_tiler (Tiler.set_showSourceCounter 0)
      (Tiler.on_tiler (Tiler.set_showSourceTimeout 0)
         (Tiler.on_tiler (Tiler.set_showSourceCycle false) w)))).
  { unfold r, slot, Tiler.SetShowSource.
    destruct (Z.ltb_spec (Tiler.m_showStreamId (Tiler.tiler w)) 0) as [? | _]; [lia |].
    cbn zeta.
    cbn [Tiler.on_tiler Tiler.tiler Tiler.set_showSourceCycle Tiler.m_showStreamId].
    rewrite Z.eqb_refl. cbn [negb].
    cbn -[Z.eqb].
    destruct Hticking as (_ & Htid & _). rewrite Htid.
    destruct (Z.eqb_spec id 0); [contradiction | reflexivity]. }
  rewrite Hr. cbn [fst snd].
  set (w1 := Tiler.on_tiler (Tiler.set_showSourceCounter 0)
               (Tiler.on_tiler (Tiler.set_showSourceTimeout 0)
                  (Tiler.on_tiler (Tiler.set_showSourceCycle false) w))).
  assert (Hticking1 : Tiler.ticking id w1).
  { destruct Hticking as (Hl & Hi & Hs). repeat split; assumption. }
  split; [reflexivity |]. split; [reflexivity |]. split; [exact Hticking1 |].
  split; [| reflexivity].
  rewrite (dispatch_show_source_timer id w1 Hticking1).
  rewrite tick_continue; [reflexivity | apply Hticking1 | cbn; discriminate].
Qed.

(** X7.  Change notifications are coalesced: [SetShowSource(int)] adds the
    one-shot notification timer only when the Tiler has listeners and none
    is pending.  With a notification pending, or without listeners, a
    change adds no timer; otherwise it adds exactly one, so that two changes
    in a row leave one notification timer, not two. *)
Theorem SetShowSource_1_coalesces_notifications :
  forall (w : Tiler.World) (a b : Z),
    let listeners := Tiler.m_showSourceListeners (Tiler.tiler w) in
    let pending := Tiler.m_notifyClientsTimerId (Tiler.tiler w) in
    let notify := GLib.mkGSource (Z.pos (GLib.next_source_id (Tiler.loop w))) 1
                    GLib.NotifyClientsTimerHandler in
    let r1 := SetShowSource_1 a w in
    let r2 := SetShowSource_1 b (snd r1) in
    (size listeners = 0%nat \/ pending <> 0 ->
       Tiler.loop (snd r1) = Tiler.loop w
       /\ Tiler.m_notifyClientsTimerId (Tiler.tiler (snd r1)) = pending)
    /\ (size listeners <> 0%nat -> pending = 0 -> fst r1 = true ->
        GLib.sources (Tiler.loop (snd r1)) = GLib.sources (Tiler.loop w) ++ [notify]
        /\ Tiler.m_notifyClientsTimerId (Tiler.tiler (snd r1)) = GLib.source_id notify
        /\ GLib.sources (Tiler.loop (snd r2)) = GLib.sources (Tiler.loop w) ++ [notify]).
Proof.
  intros w a b listeners pending notify r1 r2.
  assert (Hquiet : forall (v : Tiler.World) (s : Z),
    size (Tiler.m_showSourceListeners (Tiler.tiler v)) = 0%nat
    \/ Tiler.m_notifyClientsTimerId (Tiler.tiler v) <> 0 ->
    Tiler.loop (snd (SetShowSource_1 s v)) = Tiler.loop v
    /\ Tiler.m_notifyClientsTimerId (Tiler.tiler (snd (SetShowSource_1 s v)))
       = Tiler.m_notifyClientsTimerId (Tiler.tiler v)).
  { intros v s Hv.
    assert (Hcond : negb (size (Tiler.m_showSourceListeners (Tiler.tiler v)) =? 0)%nat
                    && (Tiler.m_notifyClientsTimerId (Tiler.tiler v) =? 0) = false).
    { destruct Hv as [-> | Hp]; [reflexivity |].
      destruct (Z.eqb_spec (Tiler.m_notifyClientsTimerId (Tiler.tiler v)) 0);
        [contradiction | apply andb_false_r]. }
    unfold Tiler.SetShowSource_1, Tiler.commitShowSource. cbn zeta.
    destruct (negb (s =? -1)); [destruct (Tiler._sourceNameGet _ _) |];
      cbn -[size Nat.eqb Z.eqb]; rewrite ?Hcond; split; reflexivity. }
  split; [apply Hquiet |].
  intros Hlisteners Hpending Hok.
  assert (Hfirst :
    GLib.sources (Tiler.loop (snd r1)) = GLib.sources (Tiler.loop w) ++ [notify]
    /\ Tiler.m_notifyClientsTimerId (Tiler.tiler (snd r1)) = GLib.source_id notify).
  { assert (Hcond : negb (size listeners =? 0)%nat && (pending =? 0) = true).
    { unfold pending in *. rewrite Hpending.
      destruct (Nat.eqb_spec (size listeners) 0); [contradiction | reflexivity]. }
    revert Hok. unfold r1, Tiler.SetShowSource_1, Tiler.commitShowSource. cbn zeta.
    destruct (negb (a =? -1)); [destruct (Tiler._sourceNameGet _ _) |];
      cbn -[size Nat.eqb Z.eqb]; fold listeners; fold pending;
      rewrite ?Hcond; try discriminate; intros _; split; reflexivity. }
  destruct Hfirst as [Hsources Hid].
  split; [exact Hsources |]. split; [exact Hid |].
  destruct (Hquiet (snd r1) b) as [Hloop _].
  - right. rewrite Hid. cbn. discriminate.
  - unfold r2. rewrite Hloop. exact Hsources.
Qed.

(** X8.  A request to show a stream that is not active is refused, and the
    Tiler goes on showing what it showed: the shown stream, the element's
    properties, the remaining ticks, the timer and the main context are as
    before.  What the refused request does change: cycling is switched off
    and, when the request got as far as the lookup (no timer running, or
    with precedence), the timeout is the requested one and the source name
    kept for the listeners is empty. *)
Theorem SetShowSource_inactive_stream_refused :
  forall (w : Tiler.World) (streamId timeout : Z) (hasPrecedence : bool),
    let t := Tiler.tiler w in
    0 <= streamId ->
    streamId <> Tiler.m_showStreamId t ->
    names !! sourceIdOf t streamId = None ->
    let r := SetShowSource streamId timeout hasPrecedence w in
    let t' := Tiler.tiler (snd r) in
    fst r = false
    /\ Tiler.m_showStreamId t' = Tiler.m_showStreamId t
    /\ Tiler.m_pTiler t' = Tiler.m_pTiler t
    /\ Tiler.m_showSourceCounter t' = Tiler.m_showSourceCounter t
    /\ Tiler.m_showSourceTimerId t' = Tiler.m_showSourceTimerId t
    /\ Tiler.loop (snd r) = Tiler.loop w
    /\ Tiler.m_showSourceCycle t' = false
    /\ (Tiler.m_showSourceTimerId t = 0 \/ hasPrecedence = true ->
        Tiler.m_showSourceTimeout t' = timeout
        /\ Tiler.m_wstrSourceName t' = ""%string)
    /\ (Tiler.m_showSourceTimerId t <> 0 -> hasPrecedence = false ->
        Tiler.m_showSourceTimeout t' = Tiler.m_showSourceTimeout t
        /\ Tiler.m_wstrSourceName t' = Tiler.m_wstrSourceName t).
Proof.
  intros w streamId timeout hasPrecedence t Hpos Hother Hinactive r t'.
  subst r t'. unfold Tiler.SetShowSource.
  destruct (Z.ltb_spec streamId 0); [lia |]. cbn zeta.
  cbn [Tiler.on_tiler Tiler.tiler Tiler.set_showSourceCycle Tiler.m_showStreamId
       Tiler.m_showSourceTimerId].
  fold t.
  destruct (Z.eqb_spec streamId (Tiler.m_showStreamId t)); [contradiction |].
  cbn [negb].
  destruct (Z.eqb_spec (Tiler.m_showSourceTimerId t) 0) as [Hidle | Hruns];
    cbn [negb andb].
  - unfold Tiler.SetShowSource_1, Tiler._sourceNameGet. cbn zeta.
    destruct (Z.eqb_spec streamId (-1)); [lia |]. cbn [negb].
    change (names !! _) with (names !! sourceIdOf t streamId).
    rewrite Hinactive. cbn.
    repeat split; try reflexivity; intros; try contradiction.
  - destruct hasPrecedence; cbn [negb].
    + unfold Tiler.SetShowSource_1, Tiler._sourceNameGet. cbn zeta.
      destruct (Z.eqb_spec streamId (-1)); [lia |]. cbn [negb].
      change (names !! _) with (names !! sourceIdOf t streamId).
      rewrite Hinactive. cbn.
      repeat split; try reflexivity; intros; try discriminate.
    + cbn. repeat split; try reflexivity; intros;
        match goal with
        | H : _ \/ _ |- _ => destruct H; [contradiction | discriminate]
        end.
Qed.

(** X9.  Cycling stalls in front of a stream that is not active.  When the
    stream after the shown one has no registered source, the end of each
    period restarts the count and leaves the shown stream as it is: however
    many times the timer is dispatched, the Tiler shows the same stream,
    its element is untouched, it still cycles and the timer stays. *)
Theorem cycling_stalls_before_inactive_stream :
  forall (w : Tiler.World) (id : Z) (n : nat),
    let t := Tiler.tiler w in
    let batchSize := Bintr.m_batchSize (Tiler.bintr t) in
    Tiler.ticking id w ->
    Tiler.m_showSourceCycle t = true ->
    0 < batchSize <= 2 ^ 31 ->
    0 <= Tiler.m_showStreamId t < batchSize ->
    0 <= Tiler.m_showSourceCounter t < UINT_MODULUS ->
    names !! sourceIdOf t ((Tiler.m_showStreamId t + 1) mod batchSize) = None ->
    exists w',
      dispatches n id w = Some w'
      /\ Tiler.m_showStreamId (Tiler.tiler w') = Tiler.m_showStreamId t
      /\ Tiler.m_pTiler (Tiler.tiler w') = Tiler.m_pTiler t
      /\ Tiler.m_showSourceCycle (Tiler.tiler w') = true
      /\ Tiler.ticking id w'
      /\ Tiler.loop w' = Tiler.loop w.
Proof.
  intros w id n t batchSize Hticking Hcycle Hbatch Hslot Hcounter Hinactive.
  set (next := (Tiler.m_showStreamId t + 1) mod batchSize) in *.
  assert (Hall : forall (m : nat) (w0 : Tiler.World),
    Tiler.ticking id w0 ->
    Tiler.bintr (Tiler.tiler w0) = Tiler.bintr t ->
    Tiler.m_showSourceCycle (Tiler.tiler w0) = true ->
    Tiler.m_showStreamId (Tiler.tiler w0) = Tiler.m_showStreamId t ->
    0 <= Tiler.m_showSourceCounter (Tiler.tiler w0) < UINT_MODULUS ->
    exists w',
      dispatches m id w0 = Some w'
      /\ Tiler.m_showStreamId (Tiler.tiler w') = Tiler.m_showStreamId t
      /\ Tiler.m_pTiler (Tiler.tiler w') = Tiler.m_pTiler (Tiler.tiler w0)
      /\ Tiler.m_showSourceCycle (Tiler.tiler w') = true
      /\ Tiler.ticking id w'
      /\ Tiler.loop w' = Tiler.loop w0).
  { induction m as [| m IH]; intros w0 Htick0 Hb0 Hcyc0 Hslot0 Hcnt0.
    - exists w0. repeat split; try assumption; try reflexivity; apply Htick0.
    - cbn [Tiler.dispatches].
      rewrite (dispatch_show_source_timer id w0 Htick0).
      pose proof Htick0 as (Hlinked0 & Hid0 & src & Hfind0 & Hcb0).
      assert (Hstep : exists w1,
        HandleShowSourceTimer w0 = Some (true, w1)
        /\ Tiler.bintr (Tiler.tiler w1) = Tiler.bintr t
        /\ Tiler.m_showSourceCycle (Tiler.tiler w1) = true
        /\ Tiler.m_showStreamId (Tiler.tiler w1) = Tiler.m_showStreamId t
        /\ 0 <= Tiler.m_showSourceCounter (Tiler.tiler w1) < UINT_MODULUS
        /\ Tiler.m_pTiler (Tiler.tiler w1) = Tiler.m_pTiler (Tiler.tiler w0)
        /\ Tiler.m_showSourceTimerId (Tiler.tiler w1) = id
        /\ Tiler.loop w1 = Tiler.loop w0).
      { assert (Hmod : 0 <= to_uint (Tiler.m_showSourceCounter (Tiler.tiler w0) - 1)
                       < UINT_MODULUS).
        { unfold to_uint. apply Z.mod_pos_bound. unfold UINT_MODULUS. lia. }
        destruct (Z.eq_dec
          (to_uint (Tiler.m_showSourceCounter (Tiler.tiler w0) - 1)) 0) as [Hzero | Hmore].
        - unfold Tiler.HandleShowSourceTimer.
          rewrite Hlinked0. cbn [negb]. cbn zeta.
          cbn [Tiler.on_tiler Tiler.tiler Tiler.set_showSourceCounter
               Tiler.m_showSourceCounter Tiler.m_showSourceCycle Tiler.bintr
               Tiler.m_showSourceTimeout Tiler.m_showStreamId].
          rewrite Hzero, Hcyc0. cbn [Z.eqb]. rewrite Hb0, Hslot0.
          fold batchSize.
          destruct (Z.eqb_spec batchSize 0); [lia |].
          assert (Hrange : 0 <= next < batchSize)
            by (apply Z.mod_pos_bound; lia).
          assert (Hnext : to_int (to_uint (Tiler.m_showStreamId t + 1) mod batchSize)
                          = next).
          { rewrite to_uint_small by (unfold UINT_MODULUS; lia).
            apply to_int_small. fold next. lia. }
          rewrite Hnext.
          unfold Tiler.SetShowSource_1, Tiler._sourceNameGet. cbn zeta.
          destruct (Z.eqb_spec next (-1)); [lia |]. cbn [negb].
          match goal with |- context [names !! ?k] =>
            replace (names !! k) with (names !! sourceIdOf t next)
              by (unfold Tiler.sourceIdOf; cbn; rewrite Hb0; reflexivity) end.
          rewrite Hinactive. eexists. split; [reflexivity |]. cbn.
          repeat split; try assumption; try reflexivity.
          + unfold to_uint. apply Z.mod_pos_bound. unfold UINT_MODULUS. lia.
          + unfold to_uint. apply Z.mod_pos_bound. unfold UINT_MODULUS. lia.
        - rewrite (tick_continue w0 Hlinked0 Hmore).
          eexists. split; [reflexivity |]. cbn.
          repeat split; try assumption; try reflexivity; apply Hmod. }
      destruct Hstep as (w1 & Hhandle & Hb1 & Hcyc1 & Hslot1 & Hcnt1 & Hel1 & Hid1 & Hloop1).
      rewrite Hhandle.
      assert (Htick1 : Tiler.ticking id w1).
      { unfold Tiler.ticking, Tiler.IsLinked. rewrite Hb1, <- Hb0.
        split; [exact Hlinked0 |]. split; [exact Hid1 |].
        exists src. rewrite Hloop1. split; assumption. }
      destruct (IH w1 Htick1 Hb1 Hcyc1 Hslot1 Hcnt1)
        as (w' & Hrun & Hshown & Hel & Hcyc & Htick & Hloop).
      exists w'. split; [exact Hrun |]. split; [exact Hshown |].
      split; [rewrite Hel; exact Hel1 |]. split; [exact Hcyc |].
      split; [exact Htick |]. rewrite Hloop. exact Hloop1. }
  exact (Hall n w Hticking eq_refl Hcycle eq_refl Hcounter).
Qed.

End TilerTimerFacts.

(** ** The Tiler: listeners, frame numbering, element properties, linking *)

Section TilerStateFacts.

Variable OFFSET : Z.
Variable names : gmap Z string.

Lemma set_showSourceListeners_eta (t : Tiler.TilerBintr) :
  Tiler.set_showSourceListeners (Tiler.m_showSourceListeners t) t = t.
Proof. destruct t. reflexivity. Qed.

(** X10.  The show-source listeners are unique by callback.  Adding a
    callback that is registered is refused and leaves its client data as it
    is; adding a new one registers it with its client data and touches no
    other listener, and removing it again gives back the Tiler as it was.
    Removing a callback that is not registered is refused; removing a
    registered one drops it and no other. *)
Theorem show_source_listeners_unique_by_callback :
  forall (t : Tiler.TilerBintr) (listener clientData : Z),
    let listeners := Tiler.m_showSourceListeners t in
    (is_Some (listeners !! listener) ->
       Tiler.AddShowSourceListener listener clientData t = (false, t)
       /\ fst (Tiler.RemoveShowSourceListener listener t) = true
       /\ Tiler.m_showSourceListeners (snd (Tiler.RemoveShowSourceListener listener t))
          = delete listener listeners)
    /\ (listeners !! listener = None ->
        Tiler.RemoveShowSourceListener listener t = (false, t)
        /\ fst (Tiler.AddShowSourceListener listener clientData t) = true
        /\ Tiler.m_showSourceListeners (snd (Tiler.AddShowSourceListener listener clientData t))
           = <[listener := clientData]> listeners
        /\ Tiler.RemoveShowSourceListener listener
             (snd (Tiler.AddShowSourceListener listener clientData t)) = (true, t)).
Proof.
  intros t listener clientData listeners.
  unfold Tiler.AddShowSourceListener, Tiler.RemoveShowSourceListener. fold listeners.
  split.
  - intros [d Hd]. rewrite Hd. repeat split; reflexivity.
  - intros Hnone. rewrite Hnone. cbn [fst snd].
    split; [reflexivity |]. split; [reflexivity |]. split; [reflexivity |].
    subst listeners. destruct t. cbn in *.
    rewrite lookup_insert_eq. f_equal.
    rewrite (delete_insert_id _ _ _ Hnone). reflexivity.
Qed.

(** X11.  Frame numbering is a toggle.  A request for the setting that is in
    force is refused and changes nothing.  A request for the other setting
    stores it before the pad probe handler is added or removed and returns
    what that call returns, so that after a failed call the new setting is
    in force all the same and repeating the request is refused. *)
Theorem SetFrameNumberingEnabled_toggles :
  forall (t : Tiler.TilerBintr) (enabled pph : bool),
    (Tiler.GetFrameNumberingEnabled t = enabled ->
       Tiler.SetFrameNumberingEnabled enabled pph t = (false, t))
    /\ (Tiler.GetFrameNumberingEnabled t <> enabled ->
        let r := Tiler.SetFrameNumberingEnabled enabled pph t in
        fst r = pph
        /\ Tiler.GetFrameNumberingEnabled (snd r) = enabled
        /\ forall pph',
             Tiler.SetFrameNumberingEnabled enabled pph' (snd r) = (false, snd r)).
Proof.
  intros t enabled pph.
  unfold Tiler.SetFrameNumberingEnabled, Tiler.GetFrameNumberingEnabled.
  split.
  - intros <-. destruct (Tiler.m_frameNumberingEnabled t); reflexivity.
  - intros Hother.
    destruct (Tiler.m_frameNumberingEnabled t), enabled; try contradiction;
      cbn; repeat split; reflexivity.
Qed.

Ltac mirror_unfold :=
  unfold Tiler.mirrored, Tiler.SetAttribute; cbn -[insert lookup].

Ltac mirror_lookup :=
  repeat first [rewrite lookup_insert_eq | rewrite lookup_insert_ne by discriminate];
  first [reflexivity | assumption].

Ltac mirror_solve :=
  mirror_unfold; repeat (split; [mirror_lookup |]); mirror_lookup.

Lemma commitShowSource_mirrored (streamId : Z) (w : Tiler.World) :
  Tiler.mirrored (Tiler.tiler w) ->
  Tiler.mirrored (Tiler.tiler (Tiler.commitShowSource streamId w)).
Proof.
  intros (_ & Hgpu & Hmem & Hwidth & Hheight).
  unfold Tiler.commitShowSource. cbn zeta.
  destruct (negb _ && _); mirror_solve.
Qed.

Lemma SetShowSource_1_mirrored (streamId : Z) (w : Tiler.World) :
  Tiler.mirrored (Tiler.tiler w) ->
  Tiler.mirrored (Tiler.tiler (snd (Tiler.SetShowSource_1 OFFSET names streamId w))).
Proof.
  intros Hm. unfold Tiler.SetShowSource_1. cbn zeta.
  destruct (negb (streamId =? -1)); [destruct (Tiler._sourceNameGet _ _) |];
    cbn [snd]; try (apply commitShowSource_mirrored); exact Hm.
Qed.

Lemma step_mirrored (op : Tiler.Op) (w w' : Tiler.World) :
  Tiler.mirrored (Tiler.tiler w) ->
  Tiler.step OFFSET names op w = Some w' ->
  Tiler.mirrored (Tiler.tiler w').
Proof.
  intros Hm. pose proof Hm as (Hshow & Hgpu & Hmem & Hwidth & Hheight).
  destruct op; cbn [Tiler.step]; intros Hstep; try (injection Hstep as <-).
  - unfold Tiler.LinkAll. cbn. destruct (Bintr.m_isLinked _); exact Hm.
  - unfold Tiler.UnlinkAll. cbn. destruct (negb _); exact Hm.
  - unfold Tiler.SetTiles. mirror_solve.
  - unfold Tiler.SetDimensions. mirror_solve.
  - unfold Tiler.SetFrameNumberingEnabled. cbn.
    destruct (_ && enabled); [exact Hm |]. destruct (_ && negb enabled); exact Hm.
  - unfold Tiler.AddShowSourceListener. cbn. destruct (_ !! listener); exact Hm.
  - unfold Tiler.RemoveShowSourceListener. cbn. destruct (_ !! listener); exact Hm.
  - unfold Tiler.SetShowSource.
    destruct (streamId <? 0); [exact Hm |]. cbn zeta.
    destruct (negb (streamId =? _)).
    + destruct (negb _ && negb hasPrecedence); [exact Hm |].
      match goal with |- context [Tiler.SetShowSource_1 _ _ streamId ?v] =>
        pose proof (SetShowSource_1_mirrored streamId v Hm) as Hm1;
        destruct (Tiler.SetShowSource_1 OFFSET names streamId v) as [ok w1] end.
      cbn [snd] in Hm1. destruct ok; cbn [negb]; [| exact Hm1].
      destruct (negb _); exact Hm1.
    + destruct (_ && _); exact Hm.
  - unfold Tiler.CycleAllSources.
    destruct (timeout =? 0); [exact Hm |]. cbn zeta.
    assert (Hc : Tiler.mirrored (Tiler.tiler (Tiler.cancelShowSourceTimer w))).
    { unfold Tiler.cancelShowSourceTimer. destruct (negb _); exact Hm. }
    match goal with |- context [Tiler.SetShowSource_1 _ _ 0 ?v] =>
      pose proof (SetShowSource_1_mirrored 0 v Hc) as Hm1;
      destruct (Tiler.SetShowSource_1 OFFSET names 0 v) as [ok w1] end.
    cbn [snd] in *. destruct (_ && _); exact Hm1.
  - unfold Tiler.ShowAllSources. cbn zeta.
    assert (Hc : Tiler.mirrored (Tiler.tiler (Tiler.cancelShowSourceTimer w))).
    { unfold Tiler.cancelShowSourceTimer. destruct (negb _); exact Hm. }
    destruct (negb (Tiler.m_showSourceTimerId (Tiler.tiler w) =? 0));
      destruct (negb (_ =? -1)); try (apply SetShowSource_1_mirrored);
      first [exact Hc | exact Hm].
  - revert Hstep. unfold Tiler.dispatch.
    destruct (find _ _) as [s |]; [| intros [= <-]; exact Hm].
    destruct (GLib.callback s); try (intros [= <-]; exact Hm).
    unfold Tiler.HandleShowSourceTimer.
    destruct (negb (Tiler.IsLinked _)); [intros [= <-]; exact Hm |]. cbn zeta.
    destruct (_ =? 0); [| intros [= <-]; exact Hm].
    destruct (Tiler.m_showSourceCycle _).
    + destruct (_ =? 0); [discriminate |].
      intros [= <-]. apply SetShowSource_1_mirrored. exact Hm.
    + match goal with |- context [Tiler.SetShowSource_1 _ _ (-1) ?v] =>
        pose proof (SetShowSource_1_mirrored (-1) v Hm) as Hm1;
        destruct (Tiler.SetShowSource_1 OFFSET names (-1) v) as [ok w1] end.
      intros [= <-]. exact Hm1.
  - unfold Tiler.SetGpuId. cbn. destruct (Bintr.m_isLinked _); [exact Hm |].
    mirror_solve.
  - unfold Tiler.SetNvbufMemType. cbn. destruct (Bintr.m_isLinked _); [exact Hm |].
    mirror_solve.
  - exact Hm.
  - exact Hm.
Qed.

(** X12.  The element's properties and the members that cache them agree:
    after construction, and after any sequence of calls, the show-source,
    gpu-id, nvbuf-memory-type, width and height of the tiler element are
    the shown stream id, GPU id, memory type, width and height of the
    Tiler. *)
Theorem element_properties_mirror_members :
  forall (inUse : bool) (d : Tiler.ElementDefaults) (width height : Z)
         (loop : GLib.GMainContext) (ops : list Tiler.Op)
         (visited : list Tiler.World),
    Tiler.run OFFSET names ops
      (Tiler.mkWorld (Tiler.create inUse d width height) loop) = Some visited ->
    Forall (fun w => Tiler.mirrored (Tiler.tiler w)) visited.
Proof.
  intros inUse d width height loop ops visited.
  assert (Hinit : Tiler.mirrored
            (Tiler.tiler (Tiler.mkWorld (Tiler.create inUse d width height) loop))).
  { repeat split; reflexivity. }
  revert Hinit. generalize (Tiler.mkWorld (Tiler.create inUse d width height) loop).
  revert visited. induction ops as [| op ops IH]; intros visited w Hm Hrun.
  - injection Hrun as <-. constructor; [exact Hm | constructor].
  - cbn [Tiler.run] in Hrun.
    destruct (Tiler.step OFFSET names op w) as [w1 |] eqn:Hstep; [| discriminate].
    destruct (Tiler.run OFFSET names ops w1) as [rest |] eqn:Hrest; [| discriminate].
    injection Hrun as <-. constructor; [exact Hm |].
    apply (IH rest w1); [| exact Hrest].
    exact (step_mirrored op w w1 Hm Hstep).
Qed.

(** X13.  Time stands still for an unlinked Tiler: after [UnlinkAll], any
    number of dispatches of the running show-source timer change nothing
    and keep the timer, and [LinkAll] then gives back the Tiler as it was
    before the unlink, remaining ticks included.  [LinkAll] on a linked
    Tiler is refused and changes nothing. *)
Theorem unlinked_tiler_keeps_show_source_state :
  forall (w : Tiler.World) (id : Z) (n : nat),
    Tiler.ticking id w ->
    let unlinked := Tiler.on_tiler Tiler.UnlinkAll w in
    Tiler.LinkAll (Tiler.tiler w) = (false, Tiler.tiler w)
    /\ Tiler.IsLinked (Tiler.tiler unlinked) = false
    /\ Tiler.dispatches OFFSET names n id unlinked = Some unlinked
    /\ Tiler.LinkAll (Tiler.tiler unlinked) = (true, Tiler.tiler w).
Proof.
  intros w id n (Hlinked & Hid & src & Hfind & Hcb) unlinked.
  unfold Tiler.IsLinked, Bintr.IsLinked in Hlinked.
  assert (Hun : Tiler.IsLinked (Tiler.tiler unlinked) = false).
  { unfold unlinked, Tiler.UnlinkAll, Tiler.IsLinked. cbn. rewrite Hlinked. reflexivity. }
  split; [unfold Tiler.LinkAll; rewrite Hlinked; reflexivity |].
  split; [exact Hun |]. split.
  - induction n as [| n IH]; [reflexivity |]. cbn [Tiler.dispatches].
    assert (Hd : Tiler.dispatch OFFSET names id unlinked = Some unlinked).
    { unfold Tiler.dispatch. change (Tiler.loop unlinked) with (Tiler.loop w).
      rewrite Hfind, Hcb. unfold Tiler.HandleShowSourceTimer. rewrite Hun.
      reflexivity. }
    rewrite Hd. exact IH.
  - unfold unlinked, Tiler.UnlinkAll, Tiler.LinkAll. cbn. rewrite Hlinked. cbn.
    f_equal. destruct w as [[[] ?] ?]. cbn in *. subst. reflexivity.
Qed.

End TilerStateFacts.

(** ** The Player: play, stop and the termination listeners *)

Section PlayerLifeCycleFacts.

Variable c : Player.Collaborators.

Lemma set_isLinked_restores (p : Player.PlayerBintr) (linked : bool) :
  Player.IsLinked p = linked ->
  Player.set_isLinked linked (Player.set_isLinked (negb linked) p) = p.
Proof.
  destruct p as [[] ? ? ?]. unfold Player.IsLinked, Bintr.IsLinked. cbn.
  intros ->. reflexivity.
Qed.

Lemma LinkAll_succeeds (p : Player.PlayerBintr) :
  Player.m_pSource p <> None -> Player.m_pSink p <> None ->
  Player.IsLinked p = false ->
  Player.source_LinkAll c = true -> Player.sink_LinkAll c = true ->
  Player.source_LinkToSink c = true ->
  Player.LinkAll c p =
    (true, Player.set_isLinked true p,
     [Player.SourceLinkAll; Player.SinkLinkAll; Player.SourceLinkToSink]).
Proof.
  intros Hsrc Hsink Hunlinked Hs Hk Hsk.
  unfold Player.LinkAll, Player.linkChildren, Player.IsLinked, Bintr.IsLinked in *.
  destruct (Player.m_pSource p); [| contradiction].
  destruct (Player.m_pSink p); [| contradiction].
  cbn [Player.is_null orb]. rewrite Hunlinked, Hs, Hk, Hsk. reflexivity.
Qed.

Lemma LinkAll_refused_when_linked (p : Player.PlayerBintr) :
  Player.IsLinked p = true -> Player.LinkAll c p = (false, p, []).
Proof.
  unfold Player.LinkAll, Player.IsLinked, Bintr.IsLinked. intros ->.
  destruct (_ || _); reflexivity.
Qed.

(** X14.  A failed change to PAUSED strands the Player.  [Play] in state
    NULL links the Player before it asks for PAUSED; when that state change
    fails, [Play] returns [false] and the Player stays linked.  As long as
    the state reported is NULL, every further [Play] is then refused by
    [LinkAll] before any call on the children or the state manager is
    made, whatever the state manager would answer. *)
Theorem Play_failed_pause_leaves_player_linked :
  forall (SetState_ok : Player.GstState -> bool) (p : Player.PlayerBintr),
    Player.m_pSource p <> None -> Player.m_pSink p <> None ->
    Player.IsLinked p = false ->
    Player.source_LinkAll c = true -> Player.sink_LinkAll c = true ->
    Player.source_LinkToSink c = true ->
    SetState_ok Player.GST_STATE_PAUSED = false ->
    let r := Player.Play c Player.GST_STATE_NULL SetState_ok p in
    let p' := snd (fst r) in
    fst (fst r) = false
    /\ Player.IsLinked p' = true
    /\ snd r = [Player.SourceLinkAll; Player.SinkLinkAll; Player.SourceLinkToSink;
                Player.SetState Player.GST_STATE_PAUSED]
    /\ forall SetState_ok' : Player.GstState -> bool,
         Player.Play c Player.GST_STATE_NULL SetState_ok' p' = (false, p', []).
Proof.
  intros SetState_ok p Hsrc Hsink Hunlinked Hs Hk Hsk Hpause r p'.
  subst p' r. unfold Player.Play.
  rewrite (LinkAll_succeeds p Hsrc Hsink Hunlinked Hs Hk Hsk).
  cbn [negb]. rewrite Hpause. cbn [negb fst snd app].
  split; [reflexivity |]. split; [reflexivity |]. split; [reflexivity |].
  intros SetState_ok'.
  rewrite LinkAll_refused_when_linked by reflexivity. reflexivity.
Qed.

(** X15.  Stop and play again.  On a linked Player whose Source unlinks
    from the Sink, [Stop] leaves the Player not linked, so that a second
    [Stop] returns [false] and calls nothing; [Play] in state NULL then
    links the children in order, asks for PAUSED and then for PLAYING,
    returns what the last state change returns, and the Player is again as
    it was before the [Stop]. *)
Theorem Stop_then_Play_restores_player :
  forall (SetState_ok : Player.GstState -> bool) (p : Player.PlayerBintr),
    Player.m_pSource p <> None -> Player.m_pSink p <> None ->
    Player.IsLinked p = true ->
    Player.source_UnlinkFromSink c = true ->
    Player.source_LinkAll c = true -> Player.sink_LinkAll c = true ->
    Player.source_LinkToSink c = true ->
    SetState_ok Player.GST_STATE_PAUSED = true ->
    let stopped := snd (fst (Player.Stop c p)) in
    Player.IsLinked stopped = false
    /\ Player.Stop c stopped = (false, stopped, [])
    /\ Player.Play c Player.GST_STATE_NULL SetState_ok stopped =
         (SetState_ok Player.GST_STATE_PLAYING, p,
          [Player.SourceLinkAll; Player.SinkLinkAll; Player.SourceLinkToSink;
           Player.SetState Player.GST_STATE_PAUSED;
           Player.SetState Player.GST_STATE_PLAYING]).
Proof.
  intros SetState_ok p Hsrc Hsink Hlinked Hunlink Hs Hk Hsk Hpause stopped.
  assert (Hstopped : stopped = Player.set_isLinked false p).
  { subst stopped. unfold Player.Stop, Player.HandleStop, Player.UnlinkAll.
    rewrite Hlinked. unfold Player.IsLinked, Bintr.IsLinked in Hlinked.
    destruct (Player.m_pSource p); [| contradiction].
    destruct (Player.m_pSink p); [| contradiction].
    cbn [Player.is_null orb negb]. rewrite Hlinked, Hunlink. cbn [negb].
    destruct (Player.g_main_loop_is_running c); reflexivity. }
  rewrite Hstopped.
  split; [reflexivity |]. split; [reflexivity |].
  unfold Player.Play.
  rewrite (LinkAll_succeeds (Player.set_isLinked false p) Hsrc Hsink eq_refl Hs Hk Hsk).
  cbn [negb]. rewrite Hpause. cbn [negb app].
  pose proof (set_isLinked_restores p true Hlinked) as Hrestored.
  cbn [negb] in Hrestored. rewrite Hrestored. reflexivity.
Qed.

Lemma Stop_listenerCalls (p : Player.PlayerBintr) :
  Player.IsLinked p = true ->
  Player.listenerCalls (snd (Player.Stop c p))
  = map_to_list (Player.m_terminationEventListeners p).
Proof.
  intros Hlinked. unfold Player.Stop. rewrite Hlinked. cbn [negb].
  pose proof (HandleStop_spec c p) as Hstop. cbn zeta in Hstop.
  destruct (Player.HandleStop c p) as [p1 handled]. cbn [fst snd] in Hstop.
  destruct Hstop as (Hcalls & _).
  destruct (Player.g_main_loop_is_running c); cbn [snd];
    rewrite listenerCalls_app, Hcalls; reflexivity.
Qed.

(** X16.  Who is told that the Player stopped.  A termination listener is
    registered once: [AddTerminationEventListener] on a registered callback
    is refused and leaves its client data, so that [Stop] calls the
    callback with the client data of its first registration; on a new
    callback it registers it, and [Stop] calls it with the data given.
    After [RemoveTerminationEventListener] the callback is not called.
    Neither changes what the other listeners are called with, and removing
    a listener just added gives back the Player as it was. *)
Theorem termination_listeners_called_as_registered :
  forall (p : Player.PlayerBintr) (listener clientData : Z),
    Player.IsLinked p = true ->
    let listeners := Player.m_terminationEventListeners p in
    let added := snd (Player.AddTerminationEventListener listener clientData p) in
    let removed := snd (Player.RemoveTerminationEventListener listener p) in
    let calledBy q := Player.listenerCalls (snd (Player.Stop c q)) in
    (forall d, (listener, d) ∈ calledBy added
               <-> d = match listeners !! listener with
                       | Some registered => registered
                       | None => clientData
                       end)
    /\ (forall d, (listener, d) ∉ calledBy removed)
    /\ (forall l d, l <> listener ->
          ((l, d) ∈ calledBy added <-> listeners !! l = Some d)
          /\ ((l, d) ∈ calledBy removed <-> listeners !! l = Some d))
    /\ (listeners !! listener = None ->
          Player.RemoveTerminationEventListener listener added = (true, p)).
Proof.
  intros p listener clientData Hlinked listeners added removed calledBy.
  assert (Hadded : Player.IsLinked added = true
            /\ Player.m_terminationEventListeners added
               = match listeners !! listener with
                 | Some _ => listeners
                 | None => <[listener := clientData]> listeners
                 end).
  { subst added. unfold Player.AddTerminationEventListener. fold listeners.
    destruct (listeners !! listener); split; first [exact Hlinked | reflexivity]. }
  assert (Hremoved : Player.IsLinked removed = true
            /\ Player.m_terminationEventListeners removed = delete listener listeners).
  { subst removed. unfold Player.RemoveTerminationEventListener. fold listeners.
    destruct (listeners !! listener) eqn:Hl; split;
      first [exact Hlinked | reflexivity | idtac].
    cbn [snd]. fold listeners. symmetry. apply delete_id. exact Hl. }
  destruct Hadded as (Hlinked1 & Hlisteners1).
  destruct Hremoved as (Hlinked2 & Hlisteners2).
  assert (Hcalled1 : forall l d, (l, d) ∈ calledBy added
            <-> Player.m_terminationEventListeners added !! l = Some d).
  { intros l d. subst calledBy. cbn beta.
    rewrite (Stop_listenerCalls added Hlinked1). apply elem_of_map_to_list. }
  assert (Hcalled2 : forall l d, (l, d) ∈ calledBy removed
            <-> Player.m_terminationEventListeners removed !! l = Some d).
  { intros l d. subst calledBy. cbn beta.
    rewrite (Stop_listenerCalls removed Hlinked2). apply elem_of_map_to_list. }
  split; [| split; [| split]].
  - intros d. rewrite Hcalled1, Hlisteners1.
    destruct (listeners !! listener) as [d0 |] eqn:Hl.
    + rewrite Hl. split; congruence.
    + rewrite lookup_insert_eq. split; congruence.
  - intros d Hin. apply Hcalled2 in Hin. rewrite Hlisteners2, lookup_delete_eq in Hin.
    discriminate.
  - intros l d Hother. rewrite Hcalled1, Hcalled2, Hlisteners1, Hlisteners2.
    rewrite lookup_delete_ne by congruence.
    destruct (listeners !! listener); [tauto |].
    rewrite lookup_insert_ne by congruence. tauto.
  - intros Hnone. subst added.
    unfold Player.AddTerminationEventListener, Player.RemoveTerminationEventListener.
    fold listeners. rewrite Hnone. cbn [snd].
    destruct p as [b src sink ls]. cbn in *. subst listeners.
    rewrite lookup_insert_eq. unfold Player.set_terminationEventListeners. cbn.
    rewrite (delete_insert_id _ _ _ Hnone). reflexivity.
Qed.

End PlayerLifeCycleFacts.

(** ** The base class and the Tiler's overrides of its setters *)

Section NodeSetterFacts.

(** X17.  The link method is kept in a [bool].  What [GetLinkMethod] reads
    back after [SetLinkMethod] is 0 for 0 and 1 for every other value, so
    that a value is read back as it was set exactly when it is 0 or 1. *)
Theorem link_method_is_kept_as_a_boolean :
  forall (linkMethod : Z) (l : Bintr.linkage),
    let readBack := Bintr.GetLinkMethod (Bintr.SetLinkMethod linkMethod l) in
    (linkMethod = 0 -> readBack = 0)
    /\ (linkMethod <> 0 -> readBack = 1)
    /\ (readBack = linkMethod <-> linkMethod = 0 \/ linkMethod = 1).
Proof.
  intros linkMethod l readBack. subst readBack.
  unfold Bintr.GetLinkMethod, Bintr.SetLinkMethod. cbn.
  destruct (Z.eqb_spec linkMethod 0); cbn; lia.
Qed.

(** X18.  On a Tiler that is not linked, in use or not, [SetGpuId] and
    [SetNvbufMemType] both succeed, and in either order they lead to the
    same Tiler: the two members and the two properties of the element hold
    the new values, and the Tiler is still not linked. *)
Theorem Tiler_setters_commute_when_unlinked :
  forall (t : Tiler.TilerBintr) (gpuId nvbufMemType : Z),
    Tiler.IsLinked t = false ->
    let gpuFirst := Tiler.SetNvbufMemType nvbufMemType (snd (Tiler.SetGpuId gpuId t)) in
    let memFirst := Tiler.SetGpuId gpuId (snd (Tiler.SetNvbufMemType nvbufMemType t)) in
    let t' := snd gpuFirst in
    fst (Tiler.SetGpuId gpuId t) = true
    /\ fst (Tiler.SetNvbufMemType nvbufMemType t) = true
    /\ fst gpuFirst = true /\ fst memFirst = true
    /\ snd memFirst = t'
    /\ Bintr.GetGpuId (Tiler.bintr t') = gpuId
    /\ Bintr.GetNvbufMemType (Tiler.bintr t') = nvbufMemType
    /\ Tiler.m_pTiler t' !! "gpu-id"%string = Some gpuId
    /\ Tiler.m_pTiler t' !! "nvbuf-memory-type"%string = Some nvbufMemType
    /\ Tiler.IsLinked t' = false.
Proof.
  intros t gpuId nvbufMemType Hunlinked gpuFirst memFirst t'.
  subst t' gpuFirst memFirst.
  unfold Tiler.IsLinked, Bintr.IsLinked in Hunlinked.
  unfold Tiler.SetGpuId, Tiler.SetNvbufMemType. rewrite Hunlinked.
  cbn -[insert lookup]. rewrite Hunlinked. cbn -[insert lookup].
  unfold Tiler.SetAttribute, Tiler.IsLinked, Bintr.IsLinked. cbn -[insert lookup].
  rewrite lookup_insert_eq, lookup_insert_ne, lookup_insert_eq by discriminate.
  rewrite (insert_insert_ne _ "gpu-id"%string "nvbuf-memory-type"%string)
    by discriminate.
  repeat split; first [reflexivity | exact Hunlinked].
Qed.

End NodeSetterFacts.

(** ** The pipeline services: the registry and the setters *)

Section PipelineServicesFacts.

Variable PipelineBintr : Type.

Lemma touchesOnly_refl (name : string) (s : Services.Services PipelineBintr) :
  Services.touchesOnly name s s.
Proof. repeat split; auto. Qed.

Lemma touchesOnly_set_pipeline (name : string) (old new : PipelineBintr)
    (s : Services.Services PipelineBintr) :
  Services.m_pipelines _ s !! name = Some old ->
  Services.touchesOnly name s (Services.set_pipeline _ name new s).
Proof.
  intros Hold. unfold Services.touchesOnly, Services.set_pipeline. cbn.
  split; [reflexivity |]. split.
  - intros n. destruct (decide (n = name)) as [-> | Hother].
    + rewrite lookup_insert_eq, Hold. split; eauto.
    + rewrite lookup_insert_ne by congruence. reflexivity.
  - intros n Hother. apply lookup_insert_ne. congruence.
Qed.

(** X19.  What the setter services leave alone.  Whatever the engine does
    and whatever the result, each of the five setters keeps the components,
    the set of registered pipeline names and every pipeline other than the
    one named. *)
Theorem setter_services_touch_only_the_named_pipeline :
  forall (SetStreammuxNumSurfacesPerFrame :
            Services.streammux_type -> Z -> PipelineBintr
            -> Services.Outcome * PipelineBintr)
         (SetAudiomixVolume :
            string -> float -> PipelineBintr -> Services.Outcome * PipelineBintr)
         (SetStreammuxNvbufMemType :
            Z -> PipelineBintr -> Services.Outcome * PipelineBintr)
         (SetAudiomixMuteEnabled :
            string -> bool -> PipelineBintr -> Services.Outcome * PipelineBintr)
         (SetLinkMethod : Z -> PipelineBintr -> bool * PipelineBintr)
         (SURFACE_ARRAY BY_ADD_ORDER : Z)
         (name source : string) (streammux : Services.streammux_type)
         (num type linkMethod : Z) (volume : float) (enabled : bool)
         (s : Services.Services PipelineBintr),
    Services.touchesOnly name s
      (snd (Services.PipelineStreammuxNumSurfacesPerFrameSet _
              SetStreammuxNumSurfacesPerFrame name streammux num s))
    /\ Services.touchesOnly name s
         (snd (Services.PipelineAudiomixVolumeSet _
                 SetAudiomixVolume name source volume s))
    /\ Services.touchesOnly name s
         (snd (Services.PipelineStreammuxNvbufMemTypeSet _ SURFACE_ARRAY
                 SetStreammuxNvbufMemType name type s))
    /\ Services.touchesOnly name s
         (snd (Services.PipelineAudiomixMuteEnabledSet _
                 SetAudiomixMuteEnabled name source enabled s))
    /\ Services.touchesOnly name s
         (snd (Services.PipelineLinkMethodSet _ BY_ADD_ORDER
                 SetLinkMethod name linkMethod s)).
Proof.
  intros.
  unfold Services.PipelineStreammuxNumSurfacesPerFrameSet,
    Services.PipelineAudiomixVolumeSet, Services.PipelineStreammuxNvbufMemTypeSet,
    Services.PipelineAudiomixMuteEnabledSet, Services.PipelineLinkMethodSet.
  destruct (Services.m_pipelines _ s !! name) as [pipeline |] eqn:Hfound;
    [| repeat split; auto].
  pose proof (fun new => touchesOnly_set_pipeline name pipeline new s Hfound) as Hset.
  pose proof (touchesOnly_refl name s) as Hrefl.
  split; [| split; [| split; [| split]]].
  - destruct (4 <? num); [exact Hrefl |].
    destruct (SetStreammuxNumSurfacesPerFrame streammux num pipeline) as [[[] |] new];
      apply Hset.
  - destruct (Services.m_components _ s !! source) as [[] |]; try exact Hrefl.
    destruct (_ || _); [exact Hrefl |].
    destruct (SetAudiomixVolume source volume pipeline) as [[[] |] new]; apply Hset.
  - destruct (SURFACE_ARRAY <? type); [exact Hrefl |].
    destruct (SetStreammuxNvbufMemType type pipeline) as [[[] |] new]; apply Hset.
  - destruct (Services.m_components _ s !! source) as [[] |]; try exact Hrefl.
    destruct (SetAudiomixMuteEnabled source enabled pipeline) as [[[] |] new];
      apply Hset.
  - destruct (BY_ADD_ORDER <? linkMethod); [exact Hrefl |].
    destruct (SetLinkMethod linkMethod pipeline) as [[] new]; apply Hset.
Qed.

(** X20.  The range checks of the memory type and of the link method.  On
    a registered pipeline, a memory type above
    [DSL_NVBUF_MEM_TYPE_SURFACE_ARRAY] is refused with the Streammux's "set
    failed" and a link method above [DSL_PIPELINE_LINK_METHOD_BY_ADD_ORDER]
    with the pipeline's, without a call to the pipeline: nothing changes.
    A value up to the bound is passed on, the bound included, and the
    result is the one made of what the pipeline does; setting the link
    method then never reports a failure other than an exception. *)
Theorem memory_type_and_link_method_range_checks :
  forall (SetStreammuxNvbufMemType :
            Z -> PipelineBintr -> Services.Outcome * PipelineBintr)
         (SetLinkMethod : Z -> PipelineBintr -> bool * PipelineBintr)
         (SURFACE_ARRAY BY_ADD_ORDER : Z)
         (name : string) (value : Z) (pipeline : PipelineBintr)
         (s : Services.Services PipelineBintr),
    Services.m_pipelines _ s !! name = Some pipeline ->
    let memType := Services.PipelineStreammuxNvbufMemTypeSet _ SURFACE_ARRAY
                     SetStreammuxNvbufMemType name value s in
    let method := Services.PipelineLinkMethodSet _ BY_ADD_ORDER
                    SetLinkMethod name value s in
    (SURFACE_ARRAY < value ->
       memType = (Services.DSL_RESULT_PIPELINE_STREAMMUX_SET_FAILED, s))
    /\ (value <= SURFACE_ARRAY ->
        memType =
          (Services.resultOf (fst (SetStreammuxNvbufMemType value pipeline))
             Services.DSL_RESULT_PIPELINE_STREAMMUX_SET_FAILED,
           Services.set_pipeline _ name
             (snd (SetStreammuxNvbufMemType value pipeline)) s))
    /\ (BY_ADD_ORDER < value ->
        method = (Services.DSL_RESULT_PIPELINE_SET_FAILED, s))
    /\ (value <= BY_ADD_ORDER ->
        method =
          (Services.Common
             (if fst (SetLinkMethod value pipeline)
              then Services.DSL_RESULT_SUCCESS
              else Services.DSL_RESULT_PIPELINE_THREW_EXCEPTION),
           Services.set_pipeline _ name (snd (SetLinkMethod value pipeline)) s)).
Proof.
  intros SetStreammuxNvbufMemType SetLinkMethod SURFACE_ARRAY BY_ADD_ORDER
    name value pipeline s Hfound memType method.
  subst memType method.
  unfold Services.PipelineStreammuxNvbufMemTypeSet, Services.PipelineLinkMethodSet.
  rewrite Hfound.
  destruct (Z.ltb_spec SURFACE_ARRAY value), (Z.ltb_spec BY_ADD_ORDER value);
    (split; [intros; try lia; try reflexivity |]);
    (split; [intros; try lia;
             try (destruct (SetStreammuxNvbufMemType value pipeline) as [[[] |] new];
                  reflexivity) |]);
    (split; [intros; try lia; try reflexivity |]);
    intros; try lia;
    destruct (SetLinkMethod value pipeline) as [[] new]; reflexivity.
Qed.

(** X21.  Creating and deleting a pipeline.  [PipelineNew] under a name
    that is not registered, with a constructor that returns, registers the
    new pipeline and the list grows by one; the name is then taken, so that
    a second [PipelineNew] is refused as not unique and changes nothing;
    and [PipelineDelete], when removing the children does not throw, gives
    back the registry as it was. *)
Theorem PipelineNew_then_PipelineDelete :
  forall (construct : string -> option PipelineBintr)
         (RemoveAllChildren : PipelineBintr -> bool * PipelineBintr)
         (name : string) (pipeline : PipelineBintr)
         (s : Services.Services (option PipelineBintr)),
    Services.m_pipelines _ s !! name = None ->
    construct name = Some pipeline ->
    fst (RemoveAllChildren pipeline) = true ->
    let r := Services.PipelineNew _ construct name s in
    fst r = Services.Common Services.DSL_RESULT_SUCCESS
    /\ Services.m_pipelines _ (snd r) !! name = Some (Some pipeline)
    /\ Services.PipelineListSize _ (snd r) = S (Services.PipelineListSize _ s)
    /\ Services.PipelineNew _ construct name (snd r)
       = (Services.DSL_RESULT_PIPELINE_NAME_NOT_UNIQUE, snd r)
    /\ Services.PipelineDelete _ RemoveAllChildren name (snd r)
       = Some (Services.DSL_RESULT_SUCCESS, s).
Proof.
  intros construct RemoveAllChildren name pipeline s Hfree Hnew Hremoved r.
  subst r. unfold Services.PipelineNew. rewrite Hfree, Hnew. cbn [fst snd].
  unfold Services.set_pipeline, Services.PipelineListSize, Services.PipelineDelete.
  cbn [Services.m_pipelines Services.m_components].
  rewrite lookup_insert_eq.
  split; [reflexivity |]. split; [reflexivity |].
  split; [apply map_size_insert_None; exact Hfree |].
  split; [reflexivity |].
  destruct (RemoveAllChildren pipeline) as [[] after]; [| discriminate].
  rewrite (delete_insert_id _ _ _ Hfree). destruct s. reflexivity.
Qed.

(** X22.  A constructor that throws leaves a null entry behind.
    [PipelineNew] looks the name up with [operator[]], which registers it
    with a null pointer before the pipeline is constructed.  When the
    constructor throws, the result is the exception code and the name
    stays registered: the list is one longer, [PipelineDelete] of the name
    calls through the null pointer, and a later [PipelineNew] with a
    constructor that returns is not refused but fills the entry, as if the
    failed call had not been made. *)
Theorem PipelineNew_failed_constructor_leaves_null_entry :
  forall (construct : string -> option PipelineBintr)
         (RemoveAllChildren : PipelineBintr -> bool * PipelineBintr)
         (name : string) (s : Services.Services (option PipelineBintr)),
    Services.m_pipelines _ s !! name = None ->
    construct name = None ->
    let r := Services.PipelineNew _ construct name s in
    fst r = Services.Common Services.DSL_RESULT_PIPELINE_THREW_EXCEPTION
    /\ Services.m_pipelines _ (snd r) !! name = Some None
    /\ Services.PipelineListSize _ (snd r) = S (Services.PipelineListSize _ s)
    /\ Services.PipelineDelete _ RemoveAllChildren name (snd r) = None
    /\ Services.PipelineNew _ construct name (snd r) = r
    /\ forall (construct' : string -> option PipelineBintr) (pipeline : PipelineBintr),
         construct' name = Some pipeline ->
         Services.PipelineNew _ construct' name (snd r)
         = Services.PipelineNew _ construct' name s.
Proof.
  intros construct RemoveAllChildren name s Hfree Hthrows r.
  subst r. unfold Services.PipelineNew. rewrite Hfree, Hthrows. cbn [fst snd].
  unfold Services.set_pipeline, Services.PipelineListSize, Services.PipelineDelete.
  cbn [Services.m_pipelines Services.m_components].
  rewrite lookup_insert_eq.
  split; [reflexivity |]. split; [reflexivity |].
  split; [apply map_size_insert_None; exact Hfree |].
  split; [reflexivity |].
  split; [rewrite insert_insert_eq; reflexivity |].
  intros construct' pipeline Hnew. rewrite Hnew, insert_insert_eq. reflexivity.
Qed.

End PipelineServicesFacts.

(** ** The Tiler: reading back, and what the listeners are told *)

Section TilerReadBackFacts.

Variable OFFSET : Z.
Variable names : gmap Z string.

Lemma set_width_eta (t : Tiler.TilerBintr) : Tiler.set_width (Tiler.m_width t) t = t.
Proof. destruct t. reflexivity. Qed.

Lemma set_height_eta (t : Tiler.TilerBintr) : Tiler.set_height (Tiler.m_height t) t = t.
Proof. destruct t. reflexivity. Qed.

(** X23.  The getters read back what the setters wrote.  [GetDimensions]
    refreshes the width and height members from the element before it
    returns them: right after [SetDimensions] it returns the width and
    height given, and on every Tiler whose element agrees with its members
    it returns the members and changes nothing.  [GetTiles] after
    [SetTiles] returns the columns and rows given. *)
Theorem getters_read_back_what_was_set :
  forall (t : Tiler.TilerBintr) (width height columns rows : Z),
    let sized := snd (Tiler.SetDimensions width height t) in
    Tiler.GetDimensions sized = (width, height, sized)
    /\ Tiler.GetTiles (snd (Tiler.SetTiles columns rows t)) = (columns, rows)
    /\ (Tiler.mirrored t ->
        Tiler.GetDimensions t = (Tiler.m_width t, Tiler.m_height t, t)).
Proof.
  intros t width height columns rows sized.
  assert (Hread : forall u, Tiler.m_pTiler u !! "width"%string = Some (Tiler.m_width u) ->
            Tiler.m_pTiler u !! "height"%string = Some (Tiler.m_height u) ->
            Tiler.GetDimensions u = (Tiler.m_width u, Tiler.m_height u, u)).
  { intros u Hwidth Hheight. unfold Tiler.GetDimensions, Tiler.GetAttribute.
    rewrite Hwidth, set_width_eta, Hheight, set_height_eta. reflexivity. }
  split; [| split].
  - subst sized. rewrite Hread.
    + reflexivity.
    + unfold Tiler.SetDimensions, Tiler.SetAttribute. cbn -[insert lookup].
      rewrite lookup_insert_ne by discriminate. apply lookup_insert_eq.
    + unfold Tiler.SetDimensions, Tiler.SetAttribute. cbn -[insert lookup].
      apply lookup_insert_eq.
  - reflexivity.
  - intros (_ & _ & _ & Hwidth & Hheight). exact (Hread t Hwidth Hheight).
Qed.

Lemma detach_fresh (id : Z) (l : list GLib.GSource) (s : GLib.GSource) :
  Forall (fun x => GLib.source_id x <> id) l ->
  GLib.source_id s = id ->
  GLib.detach id (l ++ [s]) = l
  /\ List.find (fun x => GLib.source_id x =? id) (l ++ [s]) = Some s.
Proof.
  intros Hfresh Hs. unfold GLib.detach.
  induction Hfresh as [| x l Hx _ IH]; cbn.
  - rewrite Hs, Z.eqb_refl. split; reflexivity.
  - destruct (Z.eqb_spec (GLib.source_id x) id); [contradiction |]. cbn.
    destruct IH as [-> ->]. split; reflexivity.
Qed.

(** X24.  The listeners are told the state at the time the notification is
    dispatched.  With listeners registered and no notification pending, a
    successful change to stream [a] adds the notification timer; a further
    change to [b] before it is dispatched adds no other.  When the timer is
    dispatched the listeners are called with the stream shown then, which
    is [b] if the second change succeeded and [a] with an empty source name
    if it was refused; the dispatch clears the timer handle and the timer
    is gone from the main context. *)
Theorem listeners_are_told_the_state_at_dispatch :
  forall (w : Tiler.World) (a b : Z),
    let listeners := Tiler.m_showSourceListeners (Tiler.tiler w) in
    let notifyId := Z.pos (GLib.next_source_id (Tiler.loop w)) in
    size listeners <> 0%nat ->
    Tiler.m_notifyClientsTimerId (Tiler.tiler w) = 0 ->
    Forall (fun s => GLib.source_id s <> notifyId) (GLib.sources (Tiler.loop w)) ->
    fst (Tiler.SetShowSource_1 OFFSET names a w) = true ->
    let r := Tiler.SetShowSource_1 OFFSET names b
               (snd (Tiler.SetShowSource_1 OFFSET names a w)) in
    let shown := if fst r then b else a in
    Tiler.m_showStreamId (Tiler.tiler (snd r)) = shown
    /\ (fst r = false -> Tiler.m_wstrSourceName (Tiler.tiler (snd r)) = ""%string)
    /\ Tiler.notifyCalls (snd r) =
         List.map (fun '(listener, clientData) =>
                     (listener,
                      (Tiler.m_wstrSourceName (Tiler.tiler (snd r)), shown, clientData)))
                  (map_to_list listeners)
    /\ exists w',
         Tiler.dispatch OFFSET names notifyId (snd r) = Some w'
         /\ Tiler.tiler w' = Tiler.set_notifyClientsTimerId 0 (Tiler.tiler (snd r))
         /\ GLib.sources (Tiler.loop w') = GLib.sources (Tiler.loop w).
Proof.
  intros w a b listeners notifyId Hlisteners Hnone Hfresh Hfirst r shown.
  set (notify := GLib.mkGSource notifyId 1 GLib.NotifyClientsTimerHandler).
  destruct (detach_fresh notifyId (GLib.sources (Tiler.loop w)) notify Hfresh eq_refl)
    as [Hdetach Hfind].
  assert (Hsize : (size listeners =? 0)%nat = false) by (apply Nat.eqb_neq; exact Hlisteners).
  (* the world after the first change *)
  assert (Hone : exists name1,
    snd (Tiler.SetShowSource_1 OFFSET names a w) =
      Tiler.mkWorld
        (Tiler.set_notifyClientsTimerId notifyId
           (Tiler.SetAttribute "show-source" a
              (Tiler.set_showStreamId a
                 (Tiler.set_wstrSourceName name1 (Tiler.tiler w)))))
        (snd (GLib.g_timeout_add 1 GLib.NotifyClientsTimerHandler (Tiler.loop w)))).
  { revert Hfirst. unfold Tiler.SetShowSource_1, Tiler.commitShowSource. cbn zeta.
    destruct (negb (a =? -1)).
    - destruct (Tiler._sourceNameGet _ _) as [name1 |]; [| discriminate].
      intros _. exists name1. cbn -[insert]. fold listeners. rewrite Hsize, Hnone.
      reflexivity.
    - intros _. exists ""%string. cbn -[insert]. fold listeners. rewrite Hsize, Hnone.
      reflexivity. }
  destruct Hone as (name1 & Hw1).
  subst r shown. rewrite Hw1.
  unfold Tiler.SetShowSource_1, Tiler.commitShowSource. cbn zeta.
  assert (Hpending : (notifyId =? 0) = false) by reflexivity.
  destruct (negb (b =? -1));
    [destruct (Tiler._sourceNameGet _ _) as [name2 |] |];
    cbn -[insert Tiler.dispatch Tiler.notifyCalls];
    fold notifyId; rewrite ?Hpending, ?andb_false_r;
    cbn -[insert Tiler.dispatch Tiler.notifyCalls];
    (split; [reflexivity |]); (split; [intros; first [reflexivity | discriminate] |]);
    (split; [reflexivity |]);
    unfold Tiler.dispatch; cbn -[insert Z.eqb List.find];
    fold notifyId; fold notify; rewrite Hfind;
    cbn -[insert Z.eqb List.find]; eexists;
    (split; [reflexivity |]); (split; [reflexivity |]);
    cbn -[insert Z.eqb List.find]; fold notifyId; fold notify; exact Hdetach.
Qed.

End TilerReadBackFacts.

(** ** The Tiler: what its destructor leaves in the main context *)

Section TilerDestructorFacts.

Variable OFFSET : Z.
Variable names : gmap Z string.

Lemma attached_detach_eq (id : Z) (l : GLib.GMainContext) :
  GLib.attached id (GLib.g_source_remove id l) = false.
Proof.
  unfold GLib.attached, GLib.g_source_remove, GLib.detach. cbn.
  induction (GLib.sources l) as [| x xs IH]; [reflexivity |]. cbn.
  destruct (GLib.source_id x =? id) eqn:Hx; cbn; [exact IH |].
  rewrite Hx. exact IH.
Qed.

Lemma attached_detach_ne (id other : Z) (l : GLib.GMainContext) :
  id <> other ->
  GLib.attached id (GLib.g_source_remove other l) = GLib.attached id l.
Proof.
  intros Hne. unfold GLib.attached, GLib.g_source_remove, GLib.detach. cbn.
  induction (GLib.sources l) as [| x xs IH]; [reflexivity |]. cbn.
  destruct (Z.eqb_spec (GLib.source_id x) other) as [Heq | Hother]; cbn.
  - destruct (Z.eqb_spec (GLib.source_id x) id); [congruence |]. exact IH.
  - rewrite IH. reflexivity.
Qed.

Lemma attached_find (id : Z) (l : GLib.GMainContext) (s : GLib.GSource) :
  List.find (fun x => GLib.source_id x =? id) (GLib.sources l) = Some s ->
  GLib.attached id l = true.
Proof.
  unfold GLib.attached. induction (GLib.sources l) as [| x xs IH]; [discriminate |].
  cbn. destruct (GLib.source_id x =? id); [reflexivity |]. exact IH.
Qed.

Lemma attached_g_timeout_add (id interval : Z) (f : GLib.GSourceFunc)
    (l : GLib.GMainContext) :
  GLib.attached id l = true ->
  GLib.attached id (snd (GLib.g_timeout_add interval f l)) = true.
Proof.
  unfold GLib.attached, GLib.g_timeout_add. cbn. rewrite existsb_app.
  intros ->. reflexivity.
Qed.

Lemma destructor_keeps (id : Z) (w : Tiler.World) :
  id <> Tiler.m_notifyClientsTimerId (Tiler.tiler w) ->
  id <> Tiler.m_showSourceTimerId (Tiler.tiler w) ->
  GLib.attached id (Tiler.destructor w) = GLib.attached id (Tiler.loop w).
Proof.
  intros Hnotify Hshow. unfold Tiler.destructor. cbn zeta.
  assert (Hsame : forall b : bool,
            (if b then Tiler.on_tiler Tiler.UnlinkAll w else w)
            = Tiler.on_tiler (fun t => if b then Tiler.UnlinkAll t else t) w).
  { intros []; [reflexivity |]. destruct w. reflexivity. }
  rewrite Hsame.
  assert (Hhandles : forall b : bool,
            Tiler.m_notifyClientsTimerId
              (if b then Tiler.UnlinkAll (Tiler.tiler w) else Tiler.tiler w)
            = Tiler.m_notifyClientsTimerId (Tiler.tiler w)
            /\ Tiler.m_showSourceTimerId
                 (if b then Tiler.UnlinkAll (Tiler.tiler w) else Tiler.tiler w)
               = Tiler.m_showSourceTimerId (Tiler.tiler w)).
  { intros []; [| split; reflexivity].
    unfold Tiler.UnlinkAll. destruct (negb _); split; reflexivity. }
  cbn [Tiler.on_tiler Tiler.tiler Tiler.loop].
  destruct (Hhandles (Tiler.IsLinked (Tiler.tiler w))) as [-> ->].
  destruct (negb (Tiler.m_showSourceTimerId (Tiler.tiler w) =? 0));
    destruct (negb (Tiler.m_notifyClientsTimerId (Tiler.tiler w) =? 0));
    rewrite ?attached_detach_ne by assumption; reflexivity.
Qed.

(** X25.  The destructor removes the timers whose handles the Tiler holds,
    and no other.  So the timer that [SetShowSource] with precedence left
    running when it started a new one for another stream is still attached
    to the main context, with the Tiler's callback, after the Tiler is
    destroyed. *)
Theorem destructor_leaves_the_superseded_timer :
  forall (w : Tiler.World) (id streamId timeout : Z),
    Tiler.ticking id w ->
    0 < id < Z.pos (GLib.next_source_id (Tiler.loop w)) ->
    Tiler.m_notifyClientsTimerId (Tiler.tiler w) <> id ->
    0 <= streamId ->
    streamId <> Tiler.m_showStreamId (Tiler.tiler w) ->
    is_Some (names !! Tiler.sourceIdOf OFFSET (Tiler.tiler w) streamId) ->
    to_uint (timeout * 10) <> 0 ->
    GLib.attached id (Tiler.destructor w) = false
    /\ GLib.attached id
         (Tiler.destructor (snd (Tiler.SetShowSource OFFSET names streamId timeout true w)))
       = true.
Proof.
  intros w id streamId timeout (Hlinked & Hid & src & Hfind & Hcb) Hrange Hnotify
    Hpos Hother [name Hname] Hticks.
  pose proof (attached_find id (Tiler.loop w) src Hfind) as Hattached.
  split.
  - unfold Tiler.destructor. rewrite Hlinked. cbn zeta.
    assert (Hhandle : Tiler.m_showSourceTimerId
                        (Tiler.tiler (Tiler.on_tiler Tiler.UnlinkAll w)) = id).
    { cbn. unfold Tiler.UnlinkAll. destruct (negb _); exact Hid. }
    rewrite Hhandle. destruct (Z.eqb_spec id 0); [lia |]. cbn [negb].
    apply attached_detach_eq.
  - set (next := GLib.next_source_id (Tiler.loop w)) in *.
    assert (Hafter : exists w',
      snd (Tiler.SetShowSource OFFSET names streamId timeout true w) = w'
      /\ GLib.attached id (Tiler.loop w') = true
      /\ (Tiler.m_notifyClientsTimerId (Tiler.tiler w')
          = Tiler.m_notifyClientsTimerId (Tiler.tiler w)
          \/ Tiler.m_notifyClientsTimerId (Tiler.tiler w') = Z.pos next)
      /\ (Tiler.m_showSourceTimerId (Tiler.tiler w') = Z.pos next
          \/ Tiler.m_showSourceTimerId (Tiler.tiler w') = Z.pos (Pos.succ next))).
    { eexists. split; [reflexivity |].
      unfold Tiler.SetShowSource.
      destruct (Z.ltb_spec streamId 0); [lia |]. cbn zeta.
      cbn [Tiler.on_tiler Tiler.tiler Tiler.set_showSourceCycle Tiler.m_showStreamId
           Tiler.m_showSourceTimerId].
      destruct (Z.eqb_spec streamId (Tiler.m_showStreamId (Tiler.tiler w)));
        [contradiction |].
      cbn [negb]. rewrite andb_false_r.
      unfold Tiler.SetShowSource_1, Tiler._sourceNameGet. cbn zeta.
      destruct (Z.eqb_spec streamId (-1)); [lia |]. cbn [negb].
      match goal with |- context [names !! ?k] =>
        replace (names !! k)
          with (names !! Tiler.sourceIdOf OFFSET (Tiler.tiler w) streamId)
          by reflexivity end.
      rewrite Hname. unfold Tiler.commitShowSource. cbn zeta.
      cbn [Tiler.on_tiler Tiler.tiler Tiler.loop Tiler.set_wstrSourceName
           Tiler.set_showSourceTimeout Tiler.set_showSourceCycle
           Tiler.set_showStreamId Tiler.SetAttribute Tiler.set_pTiler
           Tiler.m_showSourceListeners Tiler.m_notifyClientsTimerId].
      destruct (negb _ && _);
        unfold Tiler.TICKS_PER_SECOND, Tiler.startShowSourceTimer, Tiler.TICK_PERIOD_MS;
        cbn -[to_uint Z.mul Z.eqb GLib.attached insert];
        (destruct (Z.eqb_spec (to_uint (timeout * 10)) 0); [contradiction |]);
        cbn -[to_uint Z.mul Z.eqb GLib.attached insert]; fold next.
      - split; [| split; [right; reflexivity | right; reflexivity]].
        unfold GLib.attached. cbn. rewrite !existsb_app.
        unfold GLib.attached in Hattached. rewrite Hattached. reflexivity.
      - split; [| split; [left; reflexivity | left; reflexivity]].
        unfold GLib.attached. cbn. rewrite !existsb_app.
        unfold GLib.attached in Hattached. rewrite Hattached. reflexivity. }
    destruct Hafter as (w' & -> & Hstill & Hn & Hs).
    rewrite destructor_keeps; [exact Hstill | |].
    + destruct Hn as [-> | ->]; [congruence | lia].
    + destruct Hs as [-> | ->]; lia.
Qed.

End TilerDestructorFacts.

(** ** The further properties on the sample Tiler, Player and registry *)

Lemma showing2_ticking : Tiler.ticking 1 Fixtures.showing2.
Proof.
  split; [reflexivity |]. split; [reflexivity |].
  exists (Fixtures.showSourceTimer 1). split; reflexivity.
Qed.

Lemma cycling0_ticking : Tiler.ticking 1 Fixtures.cycling0.
Proof.
  split; [reflexivity |]. split; [reflexivity |].
  exists (Fixtures.showSourceTimer 1). split; reflexivity.
Qed.

(** A show of stream 2 asked for again, for 9 seconds, while its timer runs:
    the count restarts at 90 ticks and the main context is as it was. *)
Lemma SetShowSource_same_slot_refreshes_witness :
  let r := Tiler.SetShowSource Fixtures.OFFSET Fixtures.threeCameras 2 9 false
             Fixtures.showing2 in
  fst r = true
  /\ Tiler.m_showSourceCounter (Tiler.tiler (snd r)) = 90
  /\ Tiler.loop (snd r) = Tiler.loop Fixtures.showing2.
Proof.
  assert (Hshown : 0 <= Tiler.m_showStreamId (Tiler.tiler Fixtures.showing2))
    by (simpl; lia).
  pose proof (SetShowSource_same_slot_refreshes Fixtures.OFFSET Fixtures.threeCameras
                Fixtures.showing2 9 false Hshown) as Hthm.
  cbv zeta in Hthm.
  destruct Hthm as (Hok & _ & _ & _ & Hcount & _ & _ & _ & Hkept & _).
  split; [exact Hok |]. split; [exact Hcount |].
  apply Hkept. left. simpl. lia.
Defined.

(** Stream 0 asked for with precedence while stream 2 is shown on timer 1:
    for 3 seconds, there are two show-source timers afterwards; with a
    timeout of zero, there is still timer 1 alone, and it is the handle. *)
Lemma SetShowSource_with_precedence_keeps_old_timer_witness :
  (exists newId,
     0 < newId
     /\ Tiler.showSourceTimers
          (snd (Tiler.SetShowSource Fixtures.OFFSET Fixtures.threeCameras 0 3 true
                  Fixtures.showing2))
        = [Fixtures.showSourceTimer 1;
           GLib.mkGSource newId 100 GLib.ShowSourceTimerHandler])
  /\ (let w := snd (Tiler.SetShowSource Fixtures.OFFSET Fixtures.threeCameras 0 0 true
                      Fixtures.showing2) in
      Tiler.m_showStreamId (Tiler.tiler w) = 0
      /\ Tiler.m_showSourceTimerId (Tiler.tiler w) = 1
      /\ Tiler.showSourceTimers w = [Fixtures.showSourceTimer 1]).
Proof.
  assert (Hruns : Tiler.m_showSourceTimerId (Tiler.tiler Fixtures.showing2) <> 0)
    by (simpl; lia).
  assert (Hother : 0 <> Tiler.m_showStreamId (Tiler.tiler Fixtures.showing2))
    by (simpl; lia).
  assert (Hpos : 0 <= 0) by lia.
  assert (Hactive : is_Some (Fixtures.threeCameras
            !! Tiler.sourceIdOf Fixtures.OFFSET (Tiler.tiler Fixtures.showing2) 0)).
  { exists "camera-0"%string. vm_compute. reflexivity. }
  split.
  - pose proof (SetShowSource_with_precedence_keeps_old_timer Fixtures.OFFSET
                  Fixtures.threeCameras Fixtures.showing2 0 3
                  Hruns Hother Hpos Hactive) as Hthm.
    cbv zeta in Hthm. destruct Hthm as (_ & _ & _ & Hstarted & _).
    assert (Hticks : to_uint (3 * 10) <> 0) by (vm_compute; discriminate).
    destruct (Hstarted Hticks) as (newId & _ & Hnew & Htimers).
    exists newId. split; [exact Hnew | exact Htimers].
  - pose proof (SetShowSource_with_precedence_keeps_old_timer Fixtures.OFFSET
                  Fixtures.threeCameras Fixtures.showing2 0 0
                  Hruns Hother Hpos Hactive) as Hthm.
    cbv zeta in Hthm. destruct Hthm as (_ & Hshown & _ & _ & Hnone).
    assert (Hzero : to_uint (0 * 10) = 0) by reflexivity.
    destruct (Hnone Hzero) as (Hhandle & Htimers).
    split; [exact Hshown |]. split; [exact Hhandle | exact Htimers].
Defined.

(** On its last tick, the show of stream 2 ends: all sources are shown and
    timer 1 is gone. *)
Lemma show_lasts_the_remaining_ticks_witness :
  exists w',
    Tiler.dispatches Fixtures.OFFSET Fixtures.cameras 1 1 Fixtures.showing2_lastTick
      = Some w'
    /\ Tiler.m_showStreamId (Tiler.tiler w') = -1
    /\ GLib.attached 1 (Tiler.loop w') = false.
Proof.
  assert (Hticking : Tiler.ticking 1 Fixtures.showing2_lastTick).
  { split; [reflexivity |]. split; [reflexivity |].
    exists (Fixtures.showSourceTimer 1). split; reflexivity. }
  assert (Hshow : Tiler.m_showSourceCycle (Tiler.tiler Fixtures.showing2_lastTick) = false)
    by reflexivity.
  assert (Hcount : 1 <= Tiler.m_showSourceCounter (Tiler.tiler Fixtures.showing2_lastTick)
                   < UINT_MODULUS) by (vm_compute; split; [discriminate | reflexivity]).
  destruct (show_lasts_the_remaining_ticks Fixtures.OFFSET Fixtures.cameras
              Fixtures.showing2_lastTick 1 Hticking Hshow Hcount)
    as (_ & w' & Hrun & Hshown & _ & Hgone & _).
  exists w'. split; [exact Hrun |]. split; [exact Hshown | exact Hgone].
Defined.

(** Three cameras cycled every 2 seconds from stream 0 with 7 ticks left:
    after 7 + 2 * 20 dispatches stream 0 is shown again. *)
Lemma cycling_visits_slots_in_turn_witness :
  exists w',
    Tiler.dispatches Fixtures.OFFSET Fixtures.threeCameras 47 1 Fixtures.cycling0
      = Some w'
    /\ Tiler.m_showStreamId (Tiler.tiler w') = 0
    /\ Tiler.m_showSourceCounter (Tiler.tiler w') = 20.
Proof.
  assert (Hcycle : Tiler.m_showSourceCycle (Tiler.tiler Fixtures.cycling0) = true)
    by reflexivity.
  assert (Hbatch : 0 < Bintr.m_batchSize (Tiler.bintr (Tiler.tiler Fixtures.cycling0))
                   <= 2 ^ 31) by (simpl; lia).
  assert (Hregistered : Tiler.allRegistered Fixtures.OFFSET Fixtures.threeCameras
            (Tiler.tiler Fixtures.cycling0)
            (Bintr.m_batchSize (Tiler.bintr (Tiler.tiler Fixtures.cycling0)))).
  { intros streamId Hrange. simpl in Hrange.
    assert (Hcases : streamId = 0 \/ streamId = 1 \/ streamId = 2) by lia.
    destruct Hcases as [-> | [-> | ->]]; eexists; vm_compute; reflexivity. }
  assert (Hslot : 0 <= Tiler.m_showStreamId (Tiler.tiler Fixtures.cycling0)
                  < Bintr.m_batchSize (Tiler.bintr (Tiler.tiler Fixtures.cycling0)))
    by (simpl; lia).
  assert (Hcount : 1 <= Tiler.m_showSourceCounter (Tiler.tiler Fixtures.cycling0)
                   < UINT_MODULUS) by (vm_compute; split; [discriminate | reflexivity]).
  assert (Hperiod : to_uint (Tiler.m_showSourceTimeout (Tiler.tiler Fixtures.cycling0) * 10)
                    <> 0) by (vm_compute; discriminate).
  destruct (cycling_visits_slots_in_turn Fixtures.OFFSET Fixtures.threeCameras
              Fixtures.cycling0 1 2 cycling0_ticking Hcycle Hbatch Hregistered
              Hslot Hcount Hperiod)
    as (w' & Hrun & Hshown & Hcounter & _).
  exists w'. split; [exact Hrun |]. split; [exact Hshown | exact Hcounter].
Defined.

(** Stream 2 asked for again with a timeout of zero while timer 1 runs: the
    next tick leaves 4294967295 ticks to go. *)
Lemma SetShowSource_zero_timeout_on_running_timer_witness :
  let w := snd (Tiler.SetShowSource Fixtures.OFFSET Fixtures.threeCameras 2 0 false
                  Fixtures.showing2) in
  Tiler.m_showSourceCounter (Tiler.tiler w) = 0
  /\ Tiler.dispatch Fixtures.OFFSET Fixtures.threeCameras 1 w
     = Some (Tiler.on_tiler (Tiler.set_showSourceCounter 4294967295) w).
Proof.
  assert (Hid : 1 <> 0) by lia.
  assert (Hshown : 0 <= Tiler.m_showStreamId (Tiler.tiler Fixtures.showing2))
    by (simpl; lia).
  pose proof (SetShowSource_zero_timeout_on_running_timer Fixtures.OFFSET
                Fixtures.threeCameras Fixtures.showing2 1 false
                showing2_ticking Hid Hshown) as Hthm.
  cbv zeta in Hthm. destruct Hthm as (_ & Hzero & _ & Hnext & _).
  split; [exact Hzero | exact Hnext].
Defined.

(** With a listener registered and no notification pending, a change to
    stream 2 and then to stream 0 leaves one notification timer. *)
Lemma SetShowSource_1_coalesces_notifications_witness :
  let r1 := Tiler.SetShowSource_1 Fixtures.OFFSET Fixtures.threeCameras 2
              Fixtures.watchedIdle in
  let r2 := Tiler.SetShowSource_1 Fixtures.OFFSET Fixtures.threeCameras 0 (snd r1) in
  GLib.sources (Tiler.loop (snd r2))
  = [GLib.mkGSource 1 1 GLib.NotifyClientsTimerHandler].
Proof.
  pose proof (SetShowSource_1_coalesces_notifications Fixtures.OFFSET
                Fixtures.threeCameras Fixtures.watchedIdle 2 0) as Hthm.
  cbv zeta in Hthm. destruct Hthm as (_ & Hscheduled).
  assert (Hlisteners : size (Tiler.m_showSourceListeners (Tiler.tiler Fixtures.watchedIdle))
                       <> 0%nat) by (vm_compute; discriminate).
  assert (Hnone : Tiler.m_notifyClientsTimerId (Tiler.tiler Fixtures.watchedIdle) = 0)
    by reflexivity.
  assert (Hok : fst (Tiler.SetShowSource_1 Fixtures.OFFSET Fixtures.threeCameras 2
                       Fixtures.watchedIdle) = true) by (vm_compute; reflexivity).
  destruct (Hscheduled Hlisteners Hnone Hok) as (_ & _ & Hone).
  exact Hone.
Defined.

(** Stream 1 has no camera: asked for with precedence while stream 2 is
    shown, it is refused and stream 2 stays. *)
Lemma SetShowSource_inactive_stream_refused_witness :
  let r := Tiler.SetShowSource Fixtures.OFFSET Fixtures.cameras 1 3 true
             Fixtures.showing2 in
  fst r = false
  /\ Tiler.m_showStreamId (Tiler.tiler (snd r)) = 2
  /\ Tiler.m_wstrSourceName (Tiler.tiler (snd r)) = ""%string.
Proof.
  assert (Hpos : 0 <= 1) by lia.
  assert (Hother : 1 <> Tiler.m_showStreamId (Tiler.tiler Fixtures.showing2))
    by (simpl; lia).
  assert (Hinactive : Fixtures.cameras
            !! Tiler.sourceIdOf Fixtures.OFFSET (Tiler.tiler Fixtures.showing2) 1 = None)
    by (vm_compute; reflexivity).
  pose proof (SetShowSource_inactive_stream_refused Fixtures.OFFSET Fixtures.cameras
                Fixtures.showing2 1 3 true Hpos Hother Hinactive) as Hthm.
  cbv zeta in Hthm.
  destruct Hthm as (Hrefused & Hshown & _ & _ & _ & _ & _ & Hlookup & _).
  split; [exact Hrefused |]. split; [exact Hshown |].
  exact (proj2 (Hlookup (or_intror eq_refl))).
Defined.

(** Cameras 0 and 2 only: the cycle that shows stream 0 is still there
    after 100 dispatches. *)
Lemma cycling_stalls_before_inactive_stream_witness :
  exists w',
    Tiler.dispatches Fixtures.OFFSET Fixtures.cameras 100 1 Fixtures.cycling0 = Some w'
    /\ Tiler.m_showStreamId (Tiler.tiler w') = 0.
Proof.
  assert (Hcycle : Tiler.m_showSourceCycle (Tiler.tiler Fixtures.cycling0) = true)
    by reflexivity.
  assert (Hbatch : 0 < Bintr.m_batchSize (Tiler.bintr (Tiler.tiler Fixtures.cycling0))
                   <= 2 ^ 31) by (simpl; lia).
  assert (Hslot : 0 <= Tiler.m_showStreamId (Tiler.tiler Fixtures.cycling0)
                  < Bintr.m_batchSize (Tiler.bintr (Tiler.tiler Fixtures.cycling0)))
    by (simpl; lia).
  assert (Hcount : 0 <= Tiler.m_showSourceCounter (Tiler.tiler Fixtures.cycling0)
                   < UINT_MODULUS) by (vm_compute; split; [discriminate | reflexivity]).
  assert (Hinactive : Fixtures.cameras
            !! Tiler.sourceIdOf Fixtures.OFFSET (Tiler.tiler Fixtures.cycling0)
                 ((Tiler.m_showStreamId (Tiler.tiler Fixtures.cycling0) + 1)
                  mod Bintr.m_batchSize (Tiler.bintr (Tiler.tiler Fixtures.cycling0)))
            = None) by (vm_compute; reflexivity).
  destruct (cycling_stalls_before_inactive_stream Fixtures.OFFSET Fixtures.cameras
              Fixtures.cycling0 1 100 cycling0_ticking Hcycle Hbatch Hslot Hcount
              Hinactive)
    as (w' & Hrun & Hshown & _).
  exists w'. split; [exact Hrun | exact Hshown].
Defined.

(** A listener added to the idle Tiler and removed again. *)
Lemma show_source_listeners_unique_by_callback_witness :
  Tiler.RemoveShowSourceListener 501 Fixtures.idleTiler = (false, Fixtures.idleTiler)
  /\ Tiler.RemoveShowSourceListener 501
       (snd (Tiler.AddShowSourceListener 501 9 Fixtures.idleTiler))
     = (true, Fixtures.idleTiler).
Proof.
  destruct (show_source_listeners_unique_by_callback Fixtures.idleTiler 501 9)
    as (_ & Hnew).
  assert (Hfree : Tiler.m_showSourceListeners Fixtures.idleTiler !! 501 = None)
    by (vm_compute; reflexivity).
  destruct (Hnew Hfree) as (Hrefused & _ & _ & Hback).
  split; [exact Hrefused | exact Hback].
Defined.

(** Frame numbering switched on with a pad probe handler that cannot be
    added: the call fails, the setting is on, and the retry is refused. *)
Lemma SetFrameNumberingEnabled_toggles_witness :
  let r := Tiler.SetFrameNumberingEnabled true false Fixtures.idleTiler in
  fst r = false
  /\ Tiler.GetFrameNumberingEnabled (snd r) = true
  /\ Tiler.SetFrameNumberingEnabled true true (snd r) = (false, snd r).
Proof.
  destruct (SetFrameNumberingEnabled_toggles Fixtures.idleTiler true false)
    as (_ & Hother).
  assert (Hoff : Tiler.GetFrameNumberingEnabled Fixtures.idleTiler <> true)
    by (simpl; discriminate).
  destruct (Hother Hoff) as (Hresult & Hset & Hretry).
  split; [exact Hresult |]. split; [exact Hset | exact (Hretry true)].
Defined.

(** A new Tiler resized, moved to GPU 1, linked and set to cycle: the
    element and the members agree all along. *)
Lemma element_properties_mirror_members_witness :
  exists visited,
    Tiler.run Fixtures.OFFSET Fixtures.threeCameras
      [Tiler.OpSetDimensions 1920 1080; Tiler.OpSetGpuId 1; Tiler.OpSetBatchSize 3;
       Tiler.OpLinkAll; Tiler.OpCycleAllSources 2; Tiler.OpDispatch 1;
       Tiler.OpShowAllSources]
      (Tiler.mkWorld (Tiler.create true Fixtures.elementDefaults 1280 720)
         (GLib.mkGMainContext 1 [])) = Some visited
    /\ length visited = 8%nat
    /\ Forall (fun w => Tiler.mirrored (Tiler.tiler w)) visited.
Proof.
  destruct (Tiler.run Fixtures.OFFSET Fixtures.threeCameras
      [Tiler.OpSetDimensions 1920 1080; Tiler.OpSetGpuId 1; Tiler.OpSetBatchSize 3;
       Tiler.OpLinkAll; Tiler.OpCycleAllSources 2; Tiler.OpDispatch 1;
       Tiler.OpShowAllSources]
      (Tiler.mkWorld (Tiler.create true Fixtures.elementDefaults 1280 720)
         (GLib.mkGMainContext 1 []))) as [visited |] eqn:Hrun;
    [| vm_compute in Hrun; discriminate].
  exists visited. split; [reflexivity |]. split.
  - vm_compute in Hrun. injection Hrun as <-. reflexivity.
  - exact (element_properties_mirror_members Fixtures.OFFSET Fixtures.threeCameras
             true Fixtures.elementDefaults 1280 720 (GLib.mkGMainContext 1 []) _ _ Hrun).
Defined.

(** The show of stream 2 with 50 ticks left, unlinked for 5 dispatches of
    its timer and linked again: 50 ticks are left. *)
Lemma unlinked_tiler_keeps_show_source_state_witness :
  let unlinked := Tiler.on_tiler Tiler.UnlinkAll Fixtures.showing2 in
  Tiler.dispatches Fixtures.OFFSET Fixtures.threeCameras 5 1 unlinked = Some unlinked
  /\ Tiler.LinkAll (Tiler.tiler unlinked) = (true, Tiler.tiler Fixtures.showing2).
Proof.
  pose proof (unlinked_tiler_keeps_show_source_state Fixtures.OFFSET
                Fixtures.threeCameras Fixtures.showing2 1 5 showing2_ticking) as Hthm.
  cbv zeta in Hthm. destruct Hthm as (_ & _ & Hstill & Hback).
  split; [exact Hstill | exact Hback].
Defined.

(** The sample Player, not linked, with a state manager that cannot reach
    PAUSED: [Play] fails and leaves it linked, and the second [Play] makes
    no call. *)
Lemma Play_failed_pause_leaves_player_linked_witness :
  let r := Player.Play Fixtures.cooperative Player.GST_STATE_NULL Fixtures.pauseFails
             (Fixtures.player false) in
  fst (fst r) = false
  /\ Player.IsLinked (snd (fst r)) = true
  /\ Player.Play Fixtures.cooperative Player.GST_STATE_NULL (fun _ => true)
       (snd (fst r)) = (false, snd (fst r), []).
Proof.
  assert (Hsource : Player.m_pSource (Fixtures.player false) <> None)
    by (simpl; discriminate).
  assert (Hsink : Player.m_pSink (Fixtures.player false) <> None)
    by (simpl; discriminate).
  pose proof (Play_failed_pause_leaves_player_linked Fixtures.cooperative
                Fixtures.pauseFails (Fixtures.player false)
                Hsource Hsink eq_refl eq_refl eq_refl eq_refl eq_refl) as Hthm.
  cbv zeta in Hthm. destruct Hthm as (Hfailed & Hlinked & _ & Hretry).
  split; [exact Hfailed |]. split; [exact Hlinked | exact (Hretry (fun _ => true))].
Defined.

(** The sample Player, linked, stopped and played again. *)
Lemma Stop_then_Play_restores_player_witness :
  let stopped := snd (fst (Player.Stop Fixtures.cooperative (Fixtures.player true))) in
  Player.Stop Fixtures.cooperative stopped = (false, stopped, [])
  /\ fst (Player.Play Fixtures.cooperative Player.GST_STATE_NULL (fun _ => true) stopped)
     = (true, Fixtures.player true).
Proof.
  assert (Hsource : Player.m_pSource (Fixtures.player true) <> None)
    by (simpl; discriminate).
  assert (Hsink : Player.m_pSink (Fixtures.player true) <> None)
    by (simpl; discriminate).
  pose proof (Stop_then_Play_restores_player Fixtures.cooperative (fun _ => true)
                (Fixtures.player true)
                Hsource Hsink eq_refl eq_refl eq_refl eq_refl eq_refl eq_refl) as Hthm.
  cbv zeta in Hthm. destruct Hthm as (_ & Hsecond & Hplay).
  split; [exact Hsecond |]. rewrite Hplay. reflexivity.
Defined.

(** Listener 101 is registered with client data 7: adding it again with 5
    changes nothing, and [Stop] calls it with 7; once removed, it is not
    called. *)
Lemma termination_listeners_called_as_registered_witness :
  (101, 7) ∈ Player.listenerCalls
               (snd (Player.Stop Fixtures.cooperative
                       (snd (Player.AddTerminationEventListener 101 5
                               (Fixtures.player true)))))
  /\ (101, 7) ∉ Player.listenerCalls
                  (snd (Player.Stop Fixtures.cooperative
                          (snd (Player.RemoveTerminationEventListener 101
                                  (Fixtures.player true))))).
Proof.
  assert (Hlinked : Player.IsLinked (Fixtures.player true) = true) by reflexivity.
  pose proof (termination_listeners_called_as_registered Fixtures.cooperative
                (Fixtures.player true) 101 5 Hlinked) as Hthm.
  cbv zeta in Hthm. destruct Hthm as (Hadded & Hremoved & _).
  split; [| exact (Hremoved 7)].
  apply Hadded. vm_compute. reflexivity.
Defined.

(** A link method of 2 is read back as 1. *)
Lemma link_method_is_kept_as_a_boolean_witness :
  Bintr.GetLinkMethod (Bintr.SetLinkMethod 2 (Bintr.mkLinkage false)) = 1.
Proof.
  destruct (link_method_is_kept_as_a_boolean 2 (Bintr.mkLinkage false))
    as (_ & Hother & _).
  apply Hother. lia.
Defined.

(** The sample Tiler, in use and not linked, set to GPU 1 and memory type 3
    in either order. *)
Lemma Tiler_setters_commute_when_unlinked_witness :
  Bintr.IsInUse (Tiler.bintr Fixtures.unlinkedTiler) = true
  /\ snd (Tiler.SetGpuId 1 (snd (Tiler.SetNvbufMemType 3 Fixtures.unlinkedTiler)))
     = snd (Tiler.SetNvbufMemType 3 (snd (Tiler.SetGpuId 1 Fixtures.unlinkedTiler)))
  /\ fst (Tiler.SetNvbufMemType 3 (snd (Tiler.SetGpuId 1 Fixtures.unlinkedTiler)))
     = true.
Proof.
  assert (Hunlinked : Tiler.IsLinked Fixtures.unlinkedTiler = false) by reflexivity.
  pose proof (Tiler_setters_commute_when_unlinked Fixtures.unlinkedTiler 1 3 Hunlinked)
    as Hthm.
  cbv zeta in Hthm. destruct Hthm as (_ & _ & Hok & _ & Hsame & _).
  split; [reflexivity |]. split; [exact Hsame | exact Hok].
Defined.

(** With the bounds at 4 and 1, the value 5 is refused by both services and
    the value 1 is passed on by both. *)
Lemma memory_type_and_link_method_range_checks_witness :
  Services.PipelineStreammuxNvbufMemTypeSet (Z * Z) 4 Fixtures.sampleSetMemType
    "studio" 5 Fixtures.surfaces
  = (Services.DSL_RESULT_PIPELINE_STREAMMUX_SET_FAILED, Fixtures.surfaces)
  /\ Services.PipelineLinkMethodSet (Z * Z) 1 Fixtures.sampleSetLinkMethod
       "studio" 5 Fixtures.surfaces
     = (Services.DSL_RESULT_PIPELINE_SET_FAILED, Fixtures.surfaces)
  /\ fst (Services.PipelineLinkMethodSet (Z * Z) 1 Fixtures.sampleSetLinkMethod
            "studio" 1 Fixtures.surfaces)
     = Services.Common Services.DSL_RESULT_SUCCESS.
Proof.
  assert (Hfound : Services.m_pipelines (Z * Z) Fixtures.surfaces !! "studio"%string
                   = Some (1, 1)) by (vm_compute; reflexivity).
  pose proof (memory_type_and_link_method_range_checks (Z * Z)
                Fixtures.sampleSetMemType Fixtures.sampleSetLinkMethod 4 1
                "studio" 5 (1, 1) Fixtures.surfaces Hfound) as Habove.
  pose proof (memory_type_and_link_method_range_checks (Z * Z)
                Fixtures.sampleSetMemType Fixtures.sampleSetLinkMethod 4 1
                "studio" 1 (1, 1) Fixtures.surfaces Hfound) as Hwithin.
  cbv zeta in Habove, Hwithin.
  destruct Habove as (HmemType & _ & Hmethod & _).
  destruct Hwithin as (_ & _ & _ & Hpassed).
  split; [apply HmemType; lia |]. split; [apply Hmethod; lia |].
  rewrite Hpassed by lia. reflexivity.
Defined.

(** A pipeline created in the empty registry and deleted again. *)
Lemma PipelineNew_then_PipelineDelete_witness :
  let r := Services.PipelineNew nat Fixtures.constructs "pipeline" Fixtures.emptyRegistry in
  Services.PipelineListSize nat (snd r) = 1%nat
  /\ Services.PipelineDelete nat Fixtures.removesChildren "pipeline" (snd r)
     = Some (Services.DSL_RESULT_SUCCESS, Fixtures.emptyRegistry).
Proof.
  assert (Hfree : Services.m_pipelines _ Fixtures.emptyRegistry !! "pipeline"%string = None)
    by (vm_compute; reflexivity).
  pose proof (PipelineNew_then_PipelineDelete nat Fixtures.constructs
                Fixtures.removesChildren "pipeline" 0%nat Fixtures.emptyRegistry
                Hfree eq_refl eq_refl) as Hthm.
  cbv zeta in Hthm. destruct Hthm as (_ & _ & Hsize & _ & Hdeleted).
  split; [exact Hsize | exact Hdeleted].
Defined.

(** The constructor throws in the empty registry: the list has one entry,
    and deleting it is not defined. *)
Lemma PipelineNew_failed_constructor_leaves_null_entry_witness :
  let r := Services.PipelineNew nat Fixtures.constructorThrows "pipeline"
             Fixtures.emptyRegistry in
  fst r = Services.Common Services.DSL_RESULT_PIPELINE_THREW_EXCEPTION
  /\ Services.PipelineListSize nat (snd r) = 1%nat
  /\ Services.PipelineDelete nat Fixtures.removesChildren "pipeline" (snd r) = None
  /\ fst (Services.PipelineNew nat Fixtures.constructs "pipeline" (snd r))
     = Services.Common Services.DSL_RESULT_SUCCESS.
Proof.
  assert (Hfree : Services.m_pipelines _ Fixtures.emptyRegistry !! "pipeline"%string = None)
    by (vm_compute; reflexivity).
  pose proof (PipelineNew_failed_constructor_leaves_null_entry nat
                Fixtures.constructorThrows Fixtures.removesChildren "pipeline"
                Fixtures.emptyRegistry Hfree eq_refl) as Hthm.
  cbv zeta in Hthm. destruct Hthm as (Hthrew & _ & Hsize & Hdelete & _ & Hretry).
  split; [exact Hthrew |]. split; [exact Hsize |]. split; [exact Hdelete |].
  rewrite (Hretry Fixtures.constructs 0%nat eq_refl). reflexivity.
Defined.

(** A new Tiler of 1280 by 720: [GetDimensions] returns them and changes
    nothing. *)
Lemma getters_read_back_what_was_set_witness :
  let t := Tiler.create true Fixtures.elementDefaults 1280 720 in
  Tiler.GetDimensions t = (1280, 720, t)
  /\ Tiler.GetDimensions (snd (Tiler.SetDimensions 1920 1080 t))
     = (1920, 1080, snd (Tiler.SetDimensions 1920 1080 t)).
Proof.
  pose proof (getters_read_back_what_was_set
                (Tiler.create true Fixtures.elementDefaults 1280 720) 1920 1080 2 2)
    as Hthm.
  cbv zeta in Hthm. destruct Hthm as (Hset & _ & Hread).
  assert (Hmirrored : Tiler.mirrored (Tiler.create true Fixtures.elementDefaults 1280 720)).
  { unfold Tiler.mirrored. vm_compute. tauto. }
  split; [exact (Hread Hmirrored) | exact Hset].
Defined.

(** With cameras 0 and 2 only and one listener: stream 2 is shown, stream 1
    is then refused, and the listener is told stream 2 with an empty source
    name. *)
Lemma listeners_are_told_the_state_at_dispatch_witness :
  let r := Tiler.SetShowSource_1 Fixtures.OFFSET Fixtures.cameras 1
             (snd (Tiler.SetShowSource_1 Fixtures.OFFSET Fixtures.cameras 2
                     Fixtures.watchedIdle)) in
  fst r = false
  /\ Tiler.notifyCalls (snd r) = [(501, (""%string, 2, 9))]
  /\ exists w',
       Tiler.dispatch Fixtures.OFFSET Fixtures.cameras 1 (snd r) = Some w'
       /\ GLib.sources (Tiler.loop w') = [].
Proof.
  assert (Hlisteners : size (Tiler.m_showSourceListeners (Tiler.tiler Fixtures.watchedIdle))
                       <> 0%nat) by (vm_compute; discriminate).
  assert (Hnone : Tiler.m_notifyClientsTimerId (Tiler.tiler Fixtures.watchedIdle) = 0)
    by reflexivity.
  assert (Hfresh : Forall
            (fun s => GLib.source_id s
                      <> Z.pos (GLib.next_source_id (Tiler.loop Fixtures.watchedIdle)))
            (GLib.sources (Tiler.loop Fixtures.watchedIdle))) by (simpl; constructor).
  assert (Hfirst : fst (Tiler.SetShowSource_1 Fixtures.OFFSET Fixtures.cameras 2
                          Fixtures.watchedIdle) = true) by (vm_compute; reflexivity).
  pose proof (listeners_are_told_the_state_at_dispatch Fixtures.OFFSET Fixtures.cameras
                Fixtures.watchedIdle 2 1 Hlisteners Hnone Hfresh Hfirst) as Hthm.
  cbv zeta in Hthm. destruct Hthm as (_ & _ & Hcalls & w' & Hdispatch & _ & Hgone).
  split; [vm_compute; reflexivity |]. split.
  - rewrite Hcalls. vm_compute. reflexivity.
  - exists w'. split; [exact Hdispatch | exact Hgone].
Defined.

(** Stream 2 is shown on timer 1.  Destroyed now, the Tiler takes timer 1
    with it; destroyed after stream 0 was shown with precedence, it leaves
    timer 1 attached. *)
Lemma destructor_leaves_the_superseded_timer_witness :
  GLib.attached 1 (Tiler.destructor Fixtures.showing2) = false
  /\ GLib.attached 1
       (Tiler.destructor
          (snd (Tiler.SetShowSource Fixtures.OFFSET Fixtures.threeCameras 0 3 true
                  Fixtures.showing2))) = true.
Proof.
  assert (Hrange : 0 < 1 < Z.pos (GLib.next_source_id (Tiler.loop Fixtures.showing2)))
    by (simpl; lia).
  assert (Hnotify : Tiler.m_notifyClientsTimerId (Tiler.tiler Fixtures.showing2) <> 1)
    by (simpl; lia).
  assert (Hpos : 0 <= 0) by lia.
  assert (Hother : 0 <> Tiler.m_showStreamId (Tiler.tiler Fixtures.showing2))
    by (simpl; lia).
  assert (Hactive : is_Some (Fixtures.threeCameras
            !! Tiler.sourceIdOf Fixtures.OFFSET (Tiler.tiler Fixtures.showing2) 0)).
  { exists "camera-0"%string. vm_compute. reflexivity. }
  assert (Hticks : to_uint (3 * 10) <> 0) by (vm_compute; discriminate).
  exact (destructor_leaves_the_superseded_timer Fixtures.OFFSET Fixtures.threeCameras
           Fixtures.showing2 1 0 3 showing2_ticking Hrange Hnotify Hpos Hother
           Hactive Hticks).
Defined.
